(** * EvoArena: a shallow embedding of the pool, the agent controller and the
    epoch manager, with the properties of the specification checked against
    the Solidity sources.

    Conventions of the embedding.
    - A [uint256] is a [Z]; Solidity 0.8 checked arithmetic is written out:
      [add], [sub], [mul] and [div] revert with a panic where the source
      would, and the [unchecked] blocks of the TWAP accumulator wrap modulo
      [2^256] (resp. [2^32]).
    - A transaction returns [Ok] with the new state or [Revert] with the
      error: a revert rolls the whole state back, so a reverted call is a
      call without state change.
    - An address is a [Z]; a Solidity mapping is a [gmap] read with the
      zero value as default.
    - Calls into contracts that are not part of the repository (the two
      ERC-20 tokens, native-value transfers to callers) are inputs of the
      transaction: the amount the balance-diff measures, and whether a
      transfer succeeded.
    - Event emission does not touch contract storage and is left out.
    - [nonReentrant] holds trivially for the top-level calls modelled here:
      outside calls are inputs, they do not call back. *)

From Stdlib Require Import ZArith QArith Lia List Bool.
From stdpp Require Import base option list gmap.
Import ListNotations.
Local Open Scope Z_scope.

(** ** The EVM fragment the contracts use *)

Module EVM.

Definition address := Z.

Definition MAX_UINT256 : Z := 2 ^ 256 - 1.

Inductive error :=
  (* EvoPool *)
  | ZeroAmount | InsufficientOutput | InsufficientLiquidity | InvalidTokens
  | OnlyController | FeeTooHigh | InvalidCurveMode | ProtocolFeeTooHigh
  | PoolPaused
  (* AgentController *)
  | NotRegistered | AlreadyRegistered | BondTooLow | CooldownActive
  | DeltaExceedsLimit | Paused | InsufficientSlashAmount | TransferFailed
  | StillActive
  (* EpochManager *)
  | EpochNotActive | EpochStillActive | AlreadyProposed | AlreadyFinalized
  | NotScorer | NoProposals | InvalidScoreCount | NothingToClaim
  | AgentNotRegistered
  (* language and library level *)
  | PanicOverflow          (* Panic(0x11) *)
  | PanicDivByZero         (* Panic(0x12) *)
  | PanicEnumConversion    (* Panic(0x21) *)
  | PanicArrayIndex        (* Panic(0x32) *)
  | BareRevert             (* revert() without data *)
  | TokenCallFailed        (* SafeERC20 call into a token reverted *)
  | OwnableUnauthorized
  | ERC20InsufficientBalance
  | OutOfGas.

Inductive result (A : Type) : Type :=
  | Ok (a : A)
  | Revert (e : error).
Arguments Ok {A} a.
Arguments Revert {A} e.

Definition bind {A B : Type} (r : result A) (k : A -> result B) : result B :=
  match r with
  | Ok a => k a
  | Revert e => Revert e
  end.

Definition require (b : bool) (e : error) : result unit :=
  if b then Ok tt else Revert e.

Definition is_ok {A : Type} (r : result A) : bool :=
  match r with Ok _ => true | Revert _ => false end.

Definition add (a b : Z) : result Z :=
  if a + b <=? MAX_UINT256 then Ok (a + b) else Revert PanicOverflow.

Definition sub (a b : Z) : result Z :=
  if b <=? a then Ok (a - b) else Revert PanicOverflow.

Definition mul (a b : Z) : result Z :=
  if a * b <=? MAX_UINT256 then Ok (a * b) else Revert PanicOverflow.

Definition div (a b : Z) : result Z :=
  if b =? 0 then Revert PanicDivByZero else Ok (a / b).

(** Arithmetic inside [unchecked { }]. *)
Definition wrap256 (a : Z) : Z := a mod 2 ^ 256.
Definition wrap32 (a : Z) : Z := a mod 2 ^ 32.

End EVM.
Import EVM.

Declare Scope evm_scope.
Delimit Scope evm_scope with evm.
Notation "'let!' x ':=' e 'in' k" :=
  (bind e (fun x => k))
  (at level 10, x pattern, e at level 100, k at level 200) : evm_scope.
Notation "'check!' b 'else' e 'in' k" :=
  (bind (require b e) (fun _ => k))
  (at level 10, b at level 100, e at level 9, k at level 200) : evm_scope.
Local Open Scope evm_scope.

(** ** EvoPool (src/unnamed/part_008) and IEvoPool *)

Module EvoPool.

Inductive CurveMode := Normal | Defensive | VolatilityAdaptive.

Definition uint8_of_mode (m : CurveMode) : Z :=
  match m with Normal => 0 | Defensive => 1 | VolatilityAdaptive => 2 end.

(** [IEvoPool.CurveMode(x)]: the conversion panics outside the enum. *)
Definition mode_of_uint8 (x : Z) : result CurveMode :=
  if x =? 0 then Ok Normal
  else if x =? 1 then Ok Defensive
  else if x =? 2 then Ok VolatilityAdaptive
  else Revert PanicEnumConversion.

Record state := mk {
  token0 : address;
  token1 : address;
  reserve0 : Z;
  reserve1 : Z;
  feeBps : Z;
  curveBeta : Z;
  curveMode : CurveMode;
  controller : address;
  epochManager : address;
  tradeCount : Z;
  cumulativeVolume0 : Z;
  cumulativeVolume1 : Z;
  price0CumulativeLast : Z;
  price1CumulativeLast : Z;
  blockTimestampLast : Z;
  protocolFeeBps : Z;
  treasury : address;
  protocolFeeAccum0 : Z;
  protocolFeeAccum1 : Z;
  parameterUpdateBlock : Z;
  paused : bool;
  owner : address;
  (* the LP share ledger inherited from ERC20 *)
  totalSupply : Z;
  balanceOf : gmap address Z
}.

Definition MAX_FEE_BPS : Z := 500.
Definition MAX_PROTOCOL_FEE_BPS : Z := 2000.
Definition BETA_SCALE : Z := 10000.
Definition MINIMUM_LIQUIDITY : Z := 1000.
Definition Q112 : Z := 2 ^ 112.
Definition E18 : Z := 10 ^ 18.

(** Storage writes, one per group of fields the source assigns together. *)

Definition set_reserves (p : state) (r0 r1 : Z) : state :=
  mk (token0 p) (token1 p) r0 r1 (feeBps p) (curveBeta p) (curveMode p)
     (controller p) (epochManager p) (tradeCount p) (cumulativeVolume0 p)
     (cumulativeVolume1 p) (price0CumulativeLast p) (price1CumulativeLast p)
     (blockTimestampLast p) (protocolFeeBps p) (treasury p)
     (protocolFeeAccum0 p) (protocolFeeAccum1 p) (parameterUpdateBlock p)
     (paused p) (owner p) (totalSupply p) (balanceOf p).

Definition set_parameters (p : state) (fee beta : Z) (m : CurveMode)
    (blk : Z) : state :=
  mk (token0 p) (token1 p) (reserve0 p) (reserve1 p) fee beta m
     (controller p) (epochManager p) (tradeCount p) (cumulativeVolume0 p)
     (cumulativeVolume1 p) (price0CumulativeLast p) (price1CumulativeLast p)
     (blockTimestampLast p) (protocolFeeBps p) (treasury p)
     (protocolFeeAccum0 p) (protocolFeeAccum1 p) blk
     (paused p) (owner p) (totalSupply p) (balanceOf p).

Definition set_access (p : state) (c e : address) : state :=
  mk (token0 p) (token1 p) (reserve0 p) (reserve1 p) (feeBps p) (curveBeta p)
     (curveMode p) c e (tradeCount p) (cumulativeVolume0 p)
     (cumulativeVolume1 p) (price0CumulativeLast p) (price1CumulativeLast p)
     (blockTimestampLast p) (protocolFeeBps p) (treasury p)
     (protocolFeeAccum0 p) (protocolFeeAccum1 p) (parameterUpdateBlock p)
     (paused p) (owner p) (totalSupply p) (balanceOf p).

Definition set_stats (p : state) (tc v0 v1 : Z) : state :=
  mk (token0 p) (token1 p) (reserve0 p) (reserve1 p) (feeBps p) (curveBeta p)
     (curveMode p) (controller p) (epochManager p) tc v0 v1
     (price0CumulativeLast p) (price1CumulativeLast p)
     (blockTimestampLast p) (protocolFeeBps p) (treasury p)
     (protocolFeeAccum0 p) (protocolFeeAccum1 p) (parameterUpdateBlock p)
     (paused p) (owner p) (totalSupply p) (balanceOf p).

Definition set_twap (p : state) (c0 c1 ts : Z) : state :=
  mk (token0 p) (token1 p) (reserve0 p) (reserve1 p) (feeBps p) (curveBeta p)
     (curveMode p) (controller p) (epochManager p) (tradeCount p)
     (cumulativeVolume0 p) (cumulativeVolume1 p) c0 c1 ts
     (protocolFeeBps p) (treasury p)
     (protocolFeeAccum0 p) (protocolFeeAccum1 p) (parameterUpdateBlock p)
     (paused p) (owner p) (totalSupply p) (balanceOf p).

Definition set_protocol (p : state) (bps : Z) (t : address) : state :=
  mk (token0 p) (token1 p) (reserve0 p) (reserve1 p) (feeBps p) (curveBeta p)
     (curveMode p) (controller p) (epochManager p) (tradeCount p)
     (cumulativeVolume0 p) (cumulativeVolume1 p) (price0CumulativeLast p)
     (price1CumulativeLast p) (blockTimestampLast p) bps t
     (protocolFeeAccum0 p) (protocolFeeAccum1 p) (parameterUpdateBlock p)
     (paused p) (owner p) (totalSupply p) (balanceOf p).

Definition set_accum (p : state) (a0 a1 : Z) : state :=
  mk (token0 p) (token1 p) (reserve0 p) (reserve1 p) (feeBps p) (curveBeta p)
     (curveMode p) (controller p) (epochManager p) (tradeCount p)
     (cumulativeVolume0 p) (cumulativeVolume1 p) (price0CumulativeLast p)
     (price1CumulativeLast p) (blockTimestampLast p) (protocolFeeBps p)
     (treasury p) a0 a1 (parameterUpdateBlock p)
     (paused p) (owner p) (totalSupply p) (balanceOf p).

Definition set_paused (p : state) (b : bool) : state :=
  mk (token0 p) (token1 p) (reserve0 p) (reserve1 p) (feeBps p) (curveBeta p)
     (curveMode p) (controller p) (epochManager p) (tradeCount p)
     (cumulativeVolume0 p) (cumulativeVolume1 p) (price0CumulativeLast p)
     (price1CumulativeLast p) (blockTimestampLast p) (protocolFeeBps p)
     (treasury p) (protocolFeeAccum0 p) (protocolFeeAccum1 p)
     (parameterUpdateBlock p) b (owner p) (totalSupply p) (balanceOf p).

Definition set_shares (p : state) (ts : Z) (bal : gmap address Z) : state :=
  mk (token0 p) (token1 p) (reserve0 p) (reserve1 p) (feeBps p) (curveBeta p)
     (curveMode p) (controller p) (epochManager p) (tradeCount p)
     (cumulativeVolume0 p) (cumulativeVolume1 p) (price0CumulativeLast p)
     (price1CumulativeLast p) (blockTimestampLast p) (protocolFeeBps p)
     (treasury p) (protocolFeeAccum0 p) (protocolFeeAccum1 p)
     (parameterUpdateBlock p) (paused p) (owner p) ts bal.

(** What a [safeTransferFrom] into the pool did, as the balance-diff of the
    source measures it. *)
Inductive pulled :=
  | PullReverted
  | Pulled (actual : Z).

Definition measure (t : pulled) : result Z :=
  match t with
  | PullReverted => Revert TokenCallFailed
  | Pulled actual => Ok actual
  end.

(** The outcome of a [safeTransfer] out of the pool. *)
Definition pushed (ok : bool) : result unit := require ok TokenCallFailed.

Definition constructor (_token0 _token1 : address)
    (_initialFeeBps _initialCurveBeta : Z) (_owner : address) : result state :=
  check! negb ((_token0 =? _token1) || (_token0 =? 0) || (_token1 =? 0))
    else InvalidTokens in
  check! negb (MAX_FEE_BPS <? _initialFeeBps) else FeeTooHigh in
  Ok (mk _token0 _token1 0 0 _initialFeeBps _initialCurveBeta Normal
         0 0 0 0 0 0 0 0 0 _owner 0 0 0 false _owner 0 ∅).

Definition setController (p : state) (sender _controller : address)
    : result state :=
  check! sender =? owner p else OwnableUnauthorized in
  Ok (set_access p _controller (epochManager p)).

Definition setEpochManager (p : state) (sender _epochManager : address)
    : result state :=
  check! sender =? owner p else OwnableUnauthorized in
  Ok (set_access p (controller p) _epochManager).

Definition setProtocolFee (p : state) (sender : address) (_protocolFeeBps : Z)
    : result state :=
  check! sender =? owner p else OwnableUnauthorized in
  check! negb (MAX_PROTOCOL_FEE_BPS <? _protocolFeeBps)
    else ProtocolFeeTooHigh in
  Ok (set_protocol p _protocolFeeBps (treasury p)).

Definition setTreasury (p : state) (sender _treasury : address)
    : result state :=
  check! sender =? owner p else OwnableUnauthorized in
  Ok (set_protocol p (protocolFeeBps p) _treasury).

Definition pause (p : state) (sender : address) : result state :=
  check! sender =? owner p else OwnableUnauthorized in
  Ok (set_paused p true).

Definition unpause (p : state) (sender : address) : result state :=
  check! sender =? owner p else OwnableUnauthorized in
  Ok (set_paused p false).

Definition collectProtocolFees (p : state) (sent0 sent1 : bool)
    : result state :=
  let fee0 := protocolFeeAccum0 p in
  let fee1 := protocolFeeAccum1 p in
  let p := set_accum p 0 0 in
  let! _ := (if 0 <? fee0 then pushed sent0 else Ok tt) in
  let! _ := (if 0 <? fee1 then pushed sent1 else Ok tt) in
  Ok p.

Definition getReserves (p : state) : Z * Z := (reserve0 p, reserve1 p).

Definition _updateTWAP (p : state) (timestamp : Z) : state :=
  let blockTimestamp := wrap32 timestamp in
  let timeElapsed := wrap32 (blockTimestamp - blockTimestampLast p) in
  if (0 <? timeElapsed) && (0 <? reserve0 p) && (0 <? reserve1 p) then
    set_twap p
      (wrap256 (price0CumulativeLast p
                + wrap256 (wrap256 (reserve1 p * Q112) / reserve0 p
                           * timeElapsed)))
      (wrap256 (price1CumulativeLast p
                + wrap256 (wrap256 (reserve0 p * Q112) / reserve1 p
                           * timeElapsed)))
      blockTimestamp
  else p.

Definition _applyCurve (p : state) (amountIn : Z) (zeroForOne : bool)
    : result Z :=
  match curveMode p with
  | Normal => Ok amountIn
  | Defensive =>
      let reserveIn := if zeroForOne then reserve0 p else reserve1 p in
      let! s := mul amountIn E18 in
      let! w := div s reserveIn in
      let! ww := mul w w in
      let! wSquared := div ww E18 in
      let! bw := mul (curveBeta p) wSquared in
      let! penalty := div bw E18 in
      let! ap := mul amountIn penalty in
      let! extra := div ap BETA_SCALE in
      add amountIn extra
  | VolatilityAdaptive =>
      let reserveIn := if zeroForOne then reserve0 p else reserve1 p in
      let! s := mul amountIn BETA_SCALE in
      let! ratio := div s reserveIn in
      let! br := mul (curveBeta p) ratio in
      let! scale := mul BETA_SCALE BETA_SCALE in
      let! penalty := div br scale in
      let! ap := mul amountIn penalty in
      let! extra := div ap BETA_SCALE in
      add amountIn extra
  end.

Definition swap (p : state) (timestamp : Z) (zeroForOne : bool)
    (amountIn minAmountOut : Z) (received : pulled) (sent : bool)
    : result (state * Z) :=
  check! negb (paused p) else PoolPaused in
  check! negb (amountIn =? 0) else ZeroAmount in
  check! negb ((reserve0 p =? 0) || (reserve1 p =? 0))
    else InsufficientLiquidity in
  let p := _updateTWAP p timestamp in
  let! actualIn := measure received in
  let! effectiveIn := _applyCurve p actualIn zeroForOne in
  let! ef := mul effectiveIn (feeBps p) in
  let! feeAmount := div ef 10000 in
  let! amountInAfterFee := sub effectiveIn feeAmount in
  let! protocolFee :=
    (if (0 <? protocolFeeBps p) && (0 <? feeAmount) then
       let! fp := mul feeAmount (protocolFeeBps p) in div fp 10000
     else Ok 0) in
  let reserveIn := if zeroForOne then reserve0 p else reserve1 p in
  let reserveOut := if zeroForOne then reserve1 p else reserve0 p in
  let! num := mul reserveOut amountInAfterFee in
  let! den := add reserveIn amountInAfterFee in
  let! amountOut := div num den in
  check! negb (amountOut <? minAmountOut) else InsufficientOutput in
  let! p :=
    (if zeroForOne then
       let! r0 := add (reserve0 p) actualIn in
       let! r1 := sub (reserve1 p) amountOut in
       if 0 <? protocolFee then
         let! a0 := add (protocolFeeAccum0 p) protocolFee in
         let! r0 := sub r0 protocolFee in
         Ok (set_accum (set_reserves p r0 r1) a0 (protocolFeeAccum1 p))
       else Ok (set_reserves p r0 r1)
     else
       let! r1 := add (reserve1 p) actualIn in
       let! r0 := sub (reserve0 p) amountOut in
       if 0 <? protocolFee then
         let! a1 := add (protocolFeeAccum1 p) protocolFee in
         let! r1 := sub r1 protocolFee in
         Ok (set_accum (set_reserves p r0 r1) (protocolFeeAccum0 p) a1)
       else Ok (set_reserves p r0 r1)) in
  let! _ := pushed sent in
  let! tc := add (tradeCount p) 1 in
  let! p :=
    (if zeroForOne then
       let! v0 := add (cumulativeVolume0 p) actualIn in
       Ok (set_stats p tc v0 (cumulativeVolume1 p))
     else
       let! v1 := add (cumulativeVolume1 p) actualIn in
       Ok (set_stats p tc (cumulativeVolume0 p) v1)) in
  Ok (p, amountOut).

(** OpenZeppelin's ERC20 [_mint] and [_burn] on the share ledger: the supply
    is checked, the holder's balance cannot overflow once the supply fits. *)
Definition shares (p : state) (a : address) : Z :=
  default 0 (balanceOf p !! a).

Definition _mint (p : state) (account : address) (value : Z) : result state :=
  let! ts := add (totalSupply p) value in
  Ok (set_shares p ts (<[account := shares p account + value]> (balanceOf p))).

Definition _burn (p : state) (account : address) (value : Z) : result state :=
  check! value <=? shares p account else ERC20InsufficientBalance in
  Ok (set_shares p (totalSupply p - value)
        (<[account := shares p account - value]> (balanceOf p))).

(** The Babylonian loop of [_sqrt]; [fuel] bounds the iterations, and a
    loop that exhausts it is a transaction that ran out of gas. *)
Fixpoint _sqrt_loop (fuel : nat) (y z x : Z) : result Z :=
  match fuel with
  | O => Revert OutOfGas
  | S fuel' =>
      if x <? z then _sqrt_loop fuel' y x ((y / x + x) / 2) else Ok z
  end.

Definition _sqrt (y : Z) : result Z :=
  if 3 <? y then _sqrt_loop 600 y y (y / 2 + 1)
  else if negb (y =? 0) then Ok 1
  else Ok 0.

Definition addLiquidity (p : state) (sender : address) (timestamp : Z)
    (amount0 amount1 : Z) (received0 received1 : pulled)
    : result (state * Z) :=
  check! negb (paused p) else PoolPaused in
  check! negb ((amount0 =? 0) || (amount1 =? 0)) else ZeroAmount in
  let p := _updateTWAP p timestamp in
  let! actual0 := measure received0 in
  let! actual1 := measure received1 in
  let! (p, liquidity) :=
    (if totalSupply p =? 0 then
       let! prod := mul actual0 actual1 in
       let! root := _sqrt prod in
       let! liquidity := sub root MINIMUM_LIQUIDITY in
       let! p := _mint p 1 MINIMUM_LIQUIDITY in
       Ok (p, liquidity)
     else
       let! n0 := mul actual0 (totalSupply p) in
       let! liq0 := div n0 (reserve0 p) in
       let! n1 := mul actual1 (totalSupply p) in
       let! liq1 := div n1 (reserve1 p) in
       Ok (p, if liq0 <? liq1 then liq0 else liq1)) in
  check! negb (liquidity =? 0) else InsufficientLiquidity in
  let! p := _mint p sender liquidity in
  let! r0 := add (reserve0 p) actual0 in
  let! r1 := add (reserve1 p) actual1 in
  Ok (set_reserves p r0 r1, liquidity).

Definition removeLiquidity (p : state) (sender : address) (timestamp : Z)
    (liquidity : Z) (sent0 sent1 : bool) : result (state * (Z * Z)) :=
  check! negb (liquidity =? 0) else ZeroAmount in
  check! negb (shares p sender <? liquidity) else InsufficientLiquidity in
  let p := _updateTWAP p timestamp in
  let! n0 := mul liquidity (reserve0 p) in
  let! amount0 := div n0 (totalSupply p) in
  let! n1 := mul liquidity (reserve1 p) in
  let! amount1 := div n1 (totalSupply p) in
  check! negb ((amount0 =? 0) || (amount1 =? 0))
    else InsufficientLiquidity in
  let! p := _burn p sender liquidity in
  let! r0 := sub (reserve0 p) amount0 in
  let! r1 := sub (reserve1 p) amount1 in
  let p := set_reserves p r0 r1 in
  let! _ := pushed sent0 in
  let! _ := pushed sent1 in
  Ok (p, (amount0, amount1)).

Definition updateParameters (p : state) (sender : address) (blockNumber : Z)
    (_feeBps _curveBeta : Z) (_curveMode : CurveMode) (_agent : address)
    : result state :=
  check! (sender =? controller p) || (sender =? epochManager p)
    else OnlyController in
  check! negb (MAX_FEE_BPS <? _feeBps) else FeeTooHigh in
  check! negb (2 <? uint8_of_mode _curveMode) else InvalidCurveMode in
  Ok (set_parameters p _feeBps _curveBeta _curveMode blockNumber).

End EvoPool.

(** ** AgentController (src/contracts/AgentController.sol) and
    IAgentController (src/unnamed/part_006) *)

Module AgentController.

Record AgentInfo := mkAgent {
  agentAddress : address;
  bondAmount : Z;
  tokenBondAmount : Z;
  registeredAt : Z;
  lastUpdateTime : Z;
  active : bool
}.

(** The value a mapping returns for an address never written. *)
Definition noAgent : AgentInfo := mkAgent 0 0 0 0 0 false.

Record state := mk {
  bondToken : address;
  minBond : Z;
  cooldownSeconds : Z;
  maxFeeDelta : Z;
  maxBetaDelta : Z;
  agents : gmap address AgentInfo;
  agentList : list address;
  updateCount : gmap address Z;
  paused : bool;
  owner : address
}.

Definition MAX_FEE_BPS : Z := 500.

Definition set_bounds (c : state) (mb cd fd bd : Z) : state :=
  mk (bondToken c) mb cd fd bd (agents c) (agentList c) (updateCount c)
     (paused c) (owner c).

Definition set_agents (c : state) (m : gmap address AgentInfo)
    (l : list address) : state :=
  mk (bondToken c) (minBond c) (cooldownSeconds c) (maxFeeDelta c)
     (maxBetaDelta c) m l (updateCount c) (paused c) (owner c).

Definition set_updateCount (c : state) (u : gmap address Z) : state :=
  mk (bondToken c) (minBond c) (cooldownSeconds c) (maxFeeDelta c)
     (maxBetaDelta c) (agents c) (agentList c) u (paused c) (owner c).

Definition set_paused (c : state) (b : bool) : state :=
  mk (bondToken c) (minBond c) (cooldownSeconds c) (maxFeeDelta c)
     (maxBetaDelta c) (agents c) (agentList c) (updateCount c) b (owner c).

Definition set_lastUpdateTime (a : AgentInfo) (t : Z) : AgentInfo :=
  mkAgent (agentAddress a) (bondAmount a) (tokenBondAmount a)
          (registeredAt a) t (active a).

Definition set_bond (a : AgentInfo) (b : Z) (act : bool) : AgentInfo :=
  mkAgent (agentAddress a) b (tokenBondAmount a) (registeredAt a)
          (lastUpdateTime a) act.

Definition getAgentInfo (c : state) (agent : address) : AgentInfo :=
  default noAgent (agents c !! agent).

Definition updatesOf (c : state) (agent : address) : Z :=
  default 0 (updateCount c !! agent).

Definition constructor (_minBond _cooldownSeconds _maxFeeDelta _maxBetaDelta : Z)
    (_owner : address) : state :=
  mk 0 _minBond _cooldownSeconds _maxFeeDelta _maxBetaDelta ∅ [] ∅ false
     _owner.

Definition pause (c : state) (sender : address) : result state :=
  check! sender =? owner c else OwnableUnauthorized in
  Ok (set_paused c true).

Definition unpause (c : state) (sender : address) : result state :=
  check! sender =? owner c else OwnableUnauthorized in
  Ok (set_paused c false).

Definition setCooldown (c : state) (sender : address) (_v : Z) : result state :=
  check! sender =? owner c else OwnableUnauthorized in
  Ok (set_bounds c (minBond c) _v (maxFeeDelta c) (maxBetaDelta c)).

Definition setMaxFeeDelta (c : state) (sender : address) (_v : Z)
    : result state :=
  check! sender =? owner c else OwnableUnauthorized in
  Ok (set_bounds c (minBond c) (cooldownSeconds c) _v (maxBetaDelta c)).

Definition setMaxBetaDelta (c : state) (sender : address) (_v : Z)
    : result state :=
  check! sender =? owner c else OwnableUnauthorized in
  Ok (set_bounds c (minBond c) (cooldownSeconds c) (maxFeeDelta c) _v).

(** [value] is [msg.value], [timestamp] is [block.timestamp]. *)
Definition registerAgent (c : state) (sender : address) (value timestamp : Z)
    : result state :=
  check! negb (paused c) else Paused in
  check! negb (active (getAgentInfo c sender)) else AlreadyRegistered in
  check! negb (value <? minBond c) else BondTooLow in
  Ok (set_agents c
        (<[sender := mkAgent sender value 0 timestamp 0 true]> (agents c))
        (agentList c ++ [sender])).

(** [refunded] tells whether the native-value call returning the bond to
    the caller succeeded. *)
Definition deregisterAgent (c : state) (sender : address) (refunded : bool)
    : result state :=
  check! negb (paused c) else Paused in
  check! active (getAgentInfo c sender) else NotRegistered in
  let info := getAgentInfo c sender in
  let bondToReturn := bondAmount info in
  let c := set_agents c (<[sender := set_bond info 0 false]> (agents c))
             (agentList c) in
  check! (if 0 <? bondToReturn then refunded else true)
    else TransferFailed in
  Ok c.

Definition topUpBond (c : state) (sender : address) (value : Z)
    : result state :=
  check! negb (paused c) else Paused in
  check! active (getAgentInfo c sender) else NotRegistered in
  check! negb (value =? 0) else ZeroAmount in
  let info := getAgentInfo c sender in
  let! b := add (bondAmount info) value in
  Ok (set_agents c (<[sender := set_bond info b (active info)]> (agents c))
        (agentList c)).

(** [self] is the controller's own address, the [msg.sender] the pool sees;
    [p] is the linked pool. *)
Definition submitParameterUpdate (self : address) (c : state)
    (p : EvoPool.state) (sender : address) (timestamp blockNumber : Z)
    (newFeeBps newCurveBeta newCurveMode : Z)
    : result (state * EvoPool.state) :=
  check! negb (paused c) else Paused in
  check! active (getAgentInfo c sender) else NotRegistered in
  let agent := getAgentInfo c sender in
  let! cooling :=
    (if negb (lastUpdateTime agent =? 0) then
       let! until := add (lastUpdateTime agent) (cooldownSeconds c) in
       Ok (timestamp <? until)
     else Ok false) in
  check! negb cooling else CooldownActive in
  check! negb (MAX_FEE_BPS <? newFeeBps) else FeeTooHigh in
  check! negb (2 <? newCurveMode) else InvalidCurveMode in
  let currentFee := EvoPool.feeBps p in
  let currentBeta := EvoPool.curveBeta p in
  let feeDiff :=
    if currentFee <? newFeeBps then newFeeBps - currentFee
    else currentFee - newFeeBps in
  let betaDiff :=
    if currentBeta <? newCurveBeta then newCurveBeta - currentBeta
    else currentBeta - newCurveBeta in
  check! negb (maxFeeDelta c <? feeDiff) else DeltaExceedsLimit in
  check! negb (maxBetaDelta c <? betaDiff) else DeltaExceedsLimit in
  let c := set_agents c
             (<[sender := set_lastUpdateTime agent timestamp]> (agents c))
             (agentList c) in
  let! n := add (updatesOf c sender) 1 in
  let c := set_updateCount c (<[sender := n]> (updateCount c)) in
  let! m := EvoPool.mode_of_uint8 newCurveMode in
  let! p := EvoPool.updateParameters p self blockNumber newFeeBps
              newCurveBeta m sender in
  Ok (c, p).

(** [paid] tells whether the native-value call to the owner succeeded. *)
Definition slashAgent (c : state) (sender agent : address) (amount : Z)
    (paid : bool) : result state :=
  check! sender =? owner c else OwnableUnauthorized in
  let info := getAgentInfo c agent in
  check! active info else NotRegistered in
  check! negb (bondAmount info <? amount) else InsufficientSlashAmount in
  let c := set_agents c
             (<[agent := set_bond info (bondAmount info - amount)
                           (active info)]> (agents c))
             (agentList c) in
  check! paid else TransferFailed in
  Ok c.

(** The remaining entry points of the controller. *)

Definition set_bondToken (c : state) (t : address) : state :=
  mk t (minBond c) (cooldownSeconds c) (maxFeeDelta c) (maxBetaDelta c)
     (agents c) (agentList c) (updateCount c) (paused c) (owner c).

Definition set_tokenBond (a : AgentInfo) (t : Z) : AgentInfo :=
  mkAgent (agentAddress a) (bondAmount a) t (registeredAt a)
          (lastUpdateTime a) (active a).

Definition setMinBond (c : state) (sender : address) (_v : Z) : result state :=
  check! sender =? owner c else OwnableUnauthorized in
  Ok (set_bounds c _v (cooldownSeconds c) (maxFeeDelta c) (maxBetaDelta c)).

Definition setBondToken (c : state) (sender _token : address)
    : result state :=
  check! sender =? owner c else OwnableUnauthorized in
  Ok (set_bondToken c _token).

(** [pulled] tells whether the [safeTransferFrom] of the bond token
    succeeded; the record is credited with [amount] as requested. *)
Definition depositTokenBond (c : state) (sender : address) (amount : Z)
    (pulled : bool) : result state :=
  check! negb (paused c) else Paused in
  check! active (getAgentInfo c sender) else NotRegistered in
  check! negb (amount =? 0) else ZeroAmount in
  check! negb (bondToken c =? 0) else ZeroAmount in
  check! pulled else TokenCallFailed in
  let info := getAgentInfo c sender in
  let! t := add (tokenBondAmount info) amount in
  Ok (set_agents c (<[sender := set_tokenBond info t]> (agents c))
        (agentList c)).

(** Returns the new state and the amount handed to [safeTransfer]; [sent]
    tells whether that transfer succeeded. *)
Definition withdrawTokenBond (c : state) (sender : address) (sent : bool)
    : result (state * Z) :=
  let info := getAgentInfo c sender in
  check! negb (active info) else StillActive in
  let amount := tokenBondAmount info in
  check! negb (amount =? 0) else ZeroAmount in
  let c := set_agents c (<[sender := set_tokenBond info 0]> (agents c))
             (agentList c) in
  check! sent else TokenCallFailed in
  Ok (c, amount).

Definition getAgentCount (c : state) : Z := Z.of_nat (length (agentList c)).

End AgentController.

(** ** EpochManager (src/unnamed/part_005) and IEpochManager
    (src/unnamed/part_007) *)

Module EpochManager.

Record Proposal := mkProposal {
  agent : address;
  feeBps : Z;
  curveBeta : Z;
  curveMode : Z;
  timestamp : Z
}.

Record EpochData := mkEpoch {
  epochId : Z;
  startTime : Z;
  endTime : Z;
  winner : address;
  winnerScore : Z;
  proposalCount : Z;
  finalized : bool
}.

Definition noEpoch : EpochData := mkEpoch 0 0 0 0 0 0 false.

Record state := mk {
  epochDuration : Z;
  currentEpochId : Z;
  epochStartTime : Z;
  scorer : address;
  epochs : gmap Z EpochData;
  epochProposals : gmap Z (list Proposal);
  hasProposed : gmap (Z * address) bool;
  agentScores : gmap (Z * address) Z;
  epochAgents : gmap Z (list address);
  epochRewardAmount : Z;
  rewardClaimed : gmap (Z * address) bool;
  totalScore : gmap address Z;
  epochsWon : gmap address Z;
  epochsParticipated : gmap address Z;
  owner : address
}.

Definition set_clock (e : state) (id start : Z) (m : gmap Z EpochData)
    : state :=
  mk (epochDuration e) id start (scorer e) m (epochProposals e)
     (hasProposed e) (agentScores e) (epochAgents e) (epochRewardAmount e)
     (rewardClaimed e) (totalScore e) (epochsWon e) (epochsParticipated e)
     (owner e).

Definition set_epochs (e : state) (m : gmap Z EpochData) : state :=
  set_clock e (currentEpochId e) (epochStartTime e) m.

Definition set_proposals (e : state) (ps : gmap Z (list Proposal))
    (hp : gmap (Z * address) bool) (ags : gmap Z (list address))
    (part : gmap address Z) : state :=
  mk (epochDuration e) (currentEpochId e) (epochStartTime e) (scorer e)
     (epochs e) ps hp (agentScores e) ags (epochRewardAmount e)
     (rewardClaimed e) (totalScore e) (epochsWon e) part (owner e).

Definition set_scores (e : state) (sc : gmap (Z * address) Z)
    (tot won : gmap address Z) : state :=
  mk (epochDuration e) (currentEpochId e) (epochStartTime e) (scorer e)
     (epochs e) (epochProposals e) (hasProposed e) sc (epochAgents e)
     (epochRewardAmount e) (rewardClaimed e) tot won (epochsParticipated e)
     (owner e).

Definition set_config (e : state) (d : Z) (s : address) (r : Z) : state :=
  mk d (currentEpochId e) (epochStartTime e) s (epochs e) (epochProposals e)
     (hasProposed e) (agentScores e) (epochAgents e) r (rewardClaimed e)
     (totalScore e) (epochsWon e) (epochsParticipated e) (owner e).

Definition set_outcome (ep : EpochData) (w : address) (s : Z) (f : bool)
    : EpochData :=
  mkEpoch (epochId ep) (startTime ep) (endTime ep) w s (proposalCount ep) f.

Definition set_proposalCount (ep : EpochData) (n : Z) : EpochData :=
  mkEpoch (epochId ep) (startTime ep) (endTime ep) (winner ep)
          (winnerScore ep) n (finalized ep).

(** Mapping reads, with the zero value for keys never written. *)
Definition epochOf (e : state) (id : Z) : EpochData :=
  default noEpoch (epochs e !! id).
Definition proposalsOf (e : state) (id : Z) : list Proposal :=
  default [] (epochProposals e !! id).
Definition agentsOf (e : state) (id : Z) : list address :=
  default [] (epochAgents e !! id).
Definition proposed (e : state) (id : Z) (a : address) : bool :=
  default false (hasProposed e !! (id, a)).
Definition counter (m : gmap address Z) (a : address) : Z :=
  default 0 (m !! a).

Definition constructor (_epochDuration : Z) (_scorer _owner : address)
    (now : Z) : result state :=
  let! fin := add now _epochDuration in
  Ok (mk _epochDuration 1 now _scorer
         (<[1 := mkEpoch 1 now fin 0 0 0 false]> ∅)
         ∅ ∅ ∅ ∅ 0 ∅ ∅ ∅ ∅ _owner).

Definition setScorer (e : state) (sender _scorer : address) : result state :=
  check! sender =? owner e else OwnableUnauthorized in
  Ok (set_config e (epochDuration e) _scorer (epochRewardAmount e)).

Definition setEpochDuration (e : state) (sender : address) (_duration : Z)
    : result state :=
  check! sender =? owner e else OwnableUnauthorized in
  Ok (set_config e _duration (scorer e) (epochRewardAmount e)).

Definition setEpochReward (e : state) (sender : address) (_amount : Z)
    : result state :=
  check! sender =? owner e else OwnableUnauthorized in
  Ok (set_config e (epochDuration e) (scorer e) _amount).

Definition _startNextEpoch (e : state) (now : Z) : result state :=
  let! id := add (currentEpochId e) 1 in
  let start := now in
  let! fin := add start (epochDuration e) in
  Ok (set_clock e id start
        (<[id := mkEpoch id start fin 0 0 0 false]> (epochs e))).

Definition _checkAndAdvanceEpoch (e : state) (now : Z) : result state :=
  let ep := epochOf e (currentEpochId e) in
  if (endTime ep <=? now) && negb (finalized ep) && (proposalCount ep =? 0)
  then
    _startNextEpoch
      (set_epochs e
         (<[currentEpochId e := set_outcome ep (winner ep) (winnerScore ep)
                                  true]> (epochs e)))
      now
  else Ok e.

(** [c] is the AgentController the manager reads [getAgentInfo] from. *)
Definition submitProposal (e : state) (c : AgentController.state)
    (sender : address) (now : Z) (feeBps curveBeta curveMode_ : Z)
    : result state :=
  let! e := _checkAndAdvanceEpoch e now in
  let eid := currentEpochId e in
  check! negb (endTime (epochOf e eid) <=? now) else EpochNotActive in
  check! negb (proposed e eid sender) else AlreadyProposed in
  let info := AgentController.getAgentInfo c sender in
  check! AgentController.active info else AgentNotRegistered in
  check! negb (500 <? feeBps) else BareRevert in
  check! negb (2 <? curveMode_) else BareRevert in
  let p := mkProposal sender feeBps curveBeta curveMode_ now in
  let! n := add (proposalCount (epochOf e eid)) 1 in
  let! k := add (counter (epochsParticipated e) sender) 1 in
  let e := set_proposals e
             (<[eid := proposalsOf e eid ++ [p]]> (epochProposals e))
             (<[(eid, sender) := true]> (hasProposed e))
             (<[eid := agentsOf e eid ++ [sender]]> (epochAgents e))
             (<[sender := k]> (epochsParticipated e)) in
  Ok (set_epochs e
        (<[eid := set_proposalCount (epochOf e eid) n]> (epochs e))).

Definition getEpochProposals := proposalsOf.
Definition getEpochAgents := agentsOf.

(** The first loop of [finalizeEpoch]: record every score, add it to the
    lifetime total, keep the strict maximum. *)
Fixpoint recordScores (id : Z) (agents : list address) (scores : list Z)
    (sc : gmap (Z * address) Z) (tot : gmap address Z)
    (bestAgent : address) (bestScore : Z)
    : result (gmap (Z * address) Z * gmap address Z * address * Z) :=
  match agents, scores with
  | [], _ => Ok (sc, tot, bestAgent, bestScore)
  | _ :: _, [] => Revert PanicArrayIndex
  | a :: agents', s :: scores' =>
      let sc := <[(id, a) := s]> sc in
      let! t := add (counter tot a) s in
      let tot := <[a := t]> tot in
      if bestScore <? s then recordScores id agents' scores' sc tot a s
      else recordScores id agents' scores' sc tot bestAgent bestScore
  end.

(** The second loop: the first proposal of [bestAgent], if any, goes to the
    pool. [self] is the manager's own address. *)
Fixpoint applyWinner (self : address) (p : EvoPool.state) (blockNumber : Z)
    (proposals : list Proposal) (bestAgent : address)
    : result EvoPool.state :=
  match proposals with
  | [] => Ok p
  | q :: rest =>
      if agent q =? bestAgent then
        let! m := EvoPool.mode_of_uint8 (curveMode q) in
        EvoPool.updateParameters p self blockNumber (feeBps q) (curveBeta q)
          m bestAgent
      else applyWinner self p blockNumber rest bestAgent
  end.

Definition finalizeEpoch (self : address) (e : state) (p : EvoPool.state)
    (sender : address) (now blockNumber : Z) (id : Z)
    (agents : list address) (scores : list Z)
    : result (state * EvoPool.state) :=
  check! sender =? scorer e else NotScorer in
  let ep := epochOf e id in
  check! negb (finalized ep) else AlreadyFinalized in
  check! negb (proposalCount ep =? 0) else NoProposals in
  check! Z.of_nat (length agents) =? Z.of_nat (length scores)
    else InvalidScoreCount in
  check! Z.of_nat (length agents) =? proposalCount ep
    else InvalidScoreCount in
  let! (sc, tot, bestAgent, bestScore) :=
    recordScores id agents scores (agentScores e) (totalScore e) 0 0 in
  let! won := add (counter (epochsWon e) bestAgent) 1 in
  let e := set_scores e sc tot (<[bestAgent := won]> (epochsWon e)) in
  let e := set_epochs e
             (<[id := set_outcome ep bestAgent bestScore true]> (epochs e)) in
  let! p := applyWinner self p blockNumber (proposalsOf e id) bestAgent in
  let! e := _startNextEpoch e now in
  Ok (e, p).

Definition getCurrentEpoch (e : state) : EpochData :=
  epochOf e (currentEpochId e).

Definition getTimeRemaining (e : state) (now : Z) : Z :=
  let fin := endTime (epochOf e (currentEpochId e)) in
  if fin <=? now then 0 else fin - now.

Definition set_rewardClaimed (e : state) (rc : gmap (Z * address) bool)
    : state :=
  mk (epochDuration e) (currentEpochId e) (epochStartTime e) (scorer e)
     (epochs e) (epochProposals e) (hasProposed e) (agentScores e)
     (epochAgents e) (epochRewardAmount e) rc (totalScore e) (epochsWon e)
     (epochsParticipated e) (owner e).

Definition claimed (e : state) (id : Z) (a : address) : bool :=
  default false (rewardClaimed e !! (id, a)).

(** Returns the new state and the value sent to the caller; [paid] tells
    whether that native-value call succeeded. *)
Definition claimReward (e : state) (sender : address) (id : Z) (paid : bool)
    : result (state * Z) :=
  let ep := epochOf e id in
  check! finalized ep else EpochNotActive in
  check! winner ep =? sender else NothingToClaim in
  check! negb (claimed e id sender) else NothingToClaim in
  check! negb (epochRewardAmount e =? 0) else NothingToClaim in
  let e := set_rewardClaimed e (<[(id, sender) := true]> (rewardClaimed e)) in
  check! paid else TransferFailed in
  Ok (e, epochRewardAmount e).

Definition getAgentStats (e : state) (a : address) : Z * Z * Z :=
  (counter (totalScore e) a, counter (epochsWon e) a,
   counter (epochsParticipated e) a).

End EpochManager.

(** ** TimeLock (src/contracts/TimeLock.sol)

    The transaction hash [keccak256(abi.encode(...))] and the selector
    [bytes4(keccak256(signature))] are parameters of the model, and so is
    the answer of the outside world to the low-level call. Nothing is
    assumed about any of them. The called contract is taken not to call
    back into the timelock. *)

Module TimeLock.

Inductive error :=
  | DelayOutOfRange
  | TransactionNotQueued
  | TransactionAlreadyQueued
  | TimelockNotReached
  | TimelockExpired
  | ExecutionFailed
  | Unauthorized           (* OwnableUnauthorizedAccount *)
  | Overflow.              (* Panic(0x11) *)

Inductive outcome (A : Type) : Type :=
  | Done (a : A)
  | Failed (e : error).
Arguments Done {A} a.
Arguments Failed {A} e.

Definition bytes := list Byte.byte.

Record transaction := mkTx {
  target : address;
  value : Z;
  signature : String.string;
  data : bytes;
  eta : Z
}.

Record state := mk {
  delay : Z;
  queuedTransactions : gmap Z bool;
  owner : address
}.

Definition MIN_DELAY : Z := 24 * 3600.
Definition MAX_DELAY : Z := 7 * 86400.
Definition GRACE_PERIOD : Z := 3 * 86400.

Definition queued (t : state) (h : Z) : bool :=
  default false (queuedTransactions t !! h).

Definition set_queued (t : state) (h : Z) (b : bool) : state :=
  mk (delay t) (<[h := b]> (queuedTransactions t)) (owner t).

Definition constructor (_delay : Z) (_owner : address) : outcome state :=
  if (_delay <? MIN_DELAY) || (MAX_DELAY <? _delay)
  then Failed DelayOutOfRange
  else Done (mk _delay ∅ _owner).

Definition setDelay (t : state) (sender : address) (_delay : Z)
    : outcome state :=
  if negb (sender =? owner t) then Failed Unauthorized
  else if (_delay <? MIN_DELAY) || (MAX_DELAY <? _delay)
  then Failed DelayOutOfRange
  else Done (mk _delay (queuedTransactions t) (owner t)).

Section Hashing.

(** [keccak256(abi.encode(target, value, signature, data, eta))]. *)
Variable txHash : transaction -> Z.
(** [bytes4(keccak256(bytes(signature)))]. *)
Variable selector : String.string -> bytes.
(** [target.call{value: value}(callData)]: [None] when the call fails. *)
Variable call : address -> Z -> bytes -> option bytes.

Definition queueTransaction (t : state) (sender : address) (now : Z)
    (x : transaction) : outcome (state * Z) :=
  if negb (sender =? owner t) then Failed Unauthorized
  else if MAX_UINT256 <? now + delay t then Failed Overflow
  else if eta x <? now + delay t then Failed TimelockNotReached
  else
    let h := txHash x in
    if queued t h then Failed TransactionAlreadyQueued
    else Done (set_queued t h true, h).

Definition cancelTransaction (t : state) (sender : address)
    (x : transaction) : outcome state :=
  if negb (sender =? owner t) then Failed Unauthorized
  else
    let h := txHash x in
    if negb (queued t h) then Failed TransactionNotQueued
    else Done (set_queued t h false).

Definition callDataOf (x : transaction) : bytes :=
  if (0 <? Z.of_nat (String.length (signature x)))
  then selector (signature x) ++ data x
  else data x.

Definition executeTransaction (t : state) (sender : address) (now : Z)
    (x : transaction) : outcome (state * bytes) :=
  if negb (sender =? owner t) then Failed Unauthorized
  else
    let h := txHash x in
    if negb (queued t h) then Failed TransactionNotQueued
    else if now <? eta x then Failed TimelockNotReached
    else if MAX_UINT256 <? eta x + GRACE_PERIOD then Failed Overflow
    else if eta x + GRACE_PERIOD <? now then Failed TimelockExpired
    else
      let t := set_queued t h false in
      match call (target x) (value x) (callDataOf x) with
      | None => Failed ExecutionFailed
      | Some returnData => Done (t, returnData)
      end.

End Hashing.

End TimeLock.

(** ** Observers and the specification's wording of the curve *)

Module PoolSpec.
Import EvoPool.

(** The locals [reserveIn] and [reserveOut] of [swap], and the accumulator
    on the side of [reserveIn]. *)
Definition reserveIn (p : state) (zeroForOne : bool) : Z :=
  if zeroForOne then reserve0 p else reserve1 p.

Definition reserveOut (p : state) (zeroForOne : bool) : Z :=
  if zeroForOne then reserve1 p else reserve0 p.

Definition accumIn (p : state) (zeroForOne : bool) : Z :=
  if zeroForOne then protocolFeeAccum0 p else protocolFeeAccum1 p.

Definition accumOut (p : state) (zeroForOne : bool) : Z :=
  if zeroForOne then protocolFeeAccum1 p else protocolFeeAccum0 p.

(** The local [protocolFee] of [swap] for a given [feeAmount]. *)
Definition protocolFeeOf (p : state) (feeAmount : Z) : Z :=
  if (0 <? protocolFeeBps p) && (0 <? feeAmount)
  then feeAmount * protocolFeeBps p / 10000
  else 0.

(** The constant-product invariant. *)
Definition k (p : state) : Z := reserve0 p * reserve1 p.

(** The curve as the specification words it, over the rationals:
    [beta = curveBeta / 10000], [w = amountIn / reserveIn]. *)
Definition spec_effectiveIn (m : CurveMode) (beta_scaled amountIn rIn : Z)
    : Q :=
  let beta := (inject_Z beta_scaled / inject_Z 10000)%Q in
  let w := (inject_Z amountIn / inject_Z rIn)%Q in
  match m with
  | Normal => inject_Z amountIn
  | Defensive => (inject_Z amountIn * (1 + beta * (w * w)))%Q
  | VolatilityAdaptive => (inject_Z amountIn * (1 + beta * w))%Q
  end.

(** Apply a function to the state a transaction returns. *)
Definition on_state {A : Type} (f : state -> state) (r : result (state * A))
    : result (state * A) :=
  match r with
  | Ok (p, a) => Ok (f p, a)
  | Revert e => Revert e
  end.

Definition on_pool (f : state -> state) (r : result state) : result state :=
  match r with
  | Ok p => Ok (f p)
  | Revert e => Revert e
  end.

End PoolSpec.

Module EpochSpec.
Import EpochManager.

(** The proposal the second loop of [finalizeEpoch] picks for [best]: the
    first one in the epoch's list whose agent is [best]. *)
Definition proposalOf (ps : list Proposal) (best : address)
    : option Proposal :=
  List.find (fun q => agent q =? best) ps.

(** The arithmetic of one finalization stays inside [uint256]. *)
Definition in_range (e : state) (now : Z) (best : address) : Prop :=
  counter (epochsWon e) best < MAX_UINT256 /\
  currentEpochId e < MAX_UINT256 /\
  now + epochDuration e <= MAX_UINT256.

End EpochSpec.

Module ControllerSpec.
Import AgentController.

(** The cooldown of [sender] has elapsed at [now]: either no update was
    made since registration, or [cooldownSeconds] have passed. *)
Definition cooled (c : state) (sender : address) (now : Z) : Prop :=
  lastUpdateTime (getAgentInfo c sender) = 0 \/
  (lastUpdateTime (getAgentInfo c sender) + cooldownSeconds c <= now /\
   now <= MAX_UINT256).

End ControllerSpec.

(** ** Concrete states used by the examples *)

Module Scenario.
Import EvoPool.

Definition OWNER : address := 7.
Definition SCORER : address := 8.
Definition LP : address := 9.
Definition TRADER : address := 10.
Definition TOKEN_A : address := 11.
Definition TOKEN_B : address := 12.
Definition CONTROLLER : address := 500.
Definition EPOCH_MANAGER : address := 600.
Definition AGENT_A : address := 1001.
Definition AGENT_B : address := 1002.
Definition AGENT_C : address := 1003.

Definition ether : Z := 10 ^ 18.

(** The pool of the test suite: fee 30 bps, beta 0.5, 10000 tokens of
    liquidity on each side, in the given curve mode. *)
Definition funded (m : CurveMode) : state :=
  mk TOKEN_A TOKEN_B (10000 * ether) (10000 * ether) 30 5000 m
     CONTROLLER EPOCH_MANAGER 0 0 0 0 0 0 0 OWNER 0 0 0 false OWNER
     (10000 * ether) (<[LP := 10000 * ether - 1000]> (<[1 := 1000]> ∅)).

(** The same pool with a protocol fee of 10% of the swap fee. *)
Definition skimming : state := set_protocol (funded Normal) 1000 OWNER.

(** That pool after a swap of 100 token0, then paused by the owner: it
    holds 0.03 token0 of accrued protocol fee. *)
Definition halted : state :=
  mk TOKEN_A TOKEN_B 10099970000000000000000 9901284196560293870115 30 5000
     Normal CONTROLLER EPOCH_MANAGER 1 (100 * ether) 0 0 0 0 1000 OWNER
     30000000000000000 0 0 true OWNER
     (10000 * ether) (<[LP := 10000 * ether - 1000]> (<[1 := 1000]> ∅)).

(** The controller of the test suite (bond 0.01, cooldown 300 s, fee delta
    50 bps, beta delta 0.2) after [AGENT_A], [AGENT_B] and [AGENT_C]
    registered at time 1000. *)
Definition bonded (a : address) : AgentController.AgentInfo :=
  AgentController.mkAgent a (ether / 100) 0 1000 0 true.

Definition registry : AgentController.state :=
  AgentController.mk 0 (ether / 100) 300 50 2000
    (<[AGENT_C := bonded AGENT_C]>
       (<[AGENT_B := bonded AGENT_B]> (<[AGENT_A := bonded AGENT_A]> ∅)))
    [AGENT_A; AGENT_B; AGENT_C] ∅ false OWNER.

(** The epoch manager of the test suite (epochs of 600 s) as deployed at
    time 1000, and after [AGENT_A] proposed [(50, 6000, 1)] at time 1001. *)
Definition arena : EpochManager.state :=
  EpochManager.mk 600 1 1000 SCORER
    (<[1 := EpochManager.mkEpoch 1 1000 1600 0 0 0 false]> ∅)
    ∅ ∅ ∅ ∅ 0 ∅ ∅ ∅ ∅ OWNER.

Definition arena_one : EpochManager.state :=
  EpochManager.mk 600 1 1000 SCORER
    (<[1 := EpochManager.mkEpoch 1 1000 1600 0 0 1 false]> ∅)
    (<[1 := [EpochManager.mkProposal AGENT_A 50 6000 1 1001]]> ∅)
    (<[(1, AGENT_A) := true]> ∅) ∅ (<[1 := [AGENT_A]]> ∅) 0 ∅ ∅ ∅
    (<[AGENT_A := 1]> ∅) OWNER.

End Scenario.
(** ** Sequences of calls

    The states a contract can be in are those reached from its constructor
    by successful calls; every argument and every answer of the outside
    world is arbitrary. For the pool, the transfer functions of the share
    token are inherited library code outside the repository and are not
    among the calls. *)

Module PoolRuns.
Import EvoPool.

Inductive call :=
  | Swap (timestamp : Z) (zeroForOne : bool) (amountIn minAmountOut : Z)
      (received : pulled) (sent : bool)
  | AddLiquidity (sender : address) (timestamp amount0 amount1 : Z)
      (received0 received1 : pulled)
  | RemoveLiquidity (sender : address) (timestamp liquidity : Z)
      (sent0 sent1 : bool)
  | UpdateParameters (sender : address) (blockNumber _feeBps _curveBeta : Z)
      (_curveMode : CurveMode) (_agent : address)
  | CollectProtocolFees (sent0 sent1 : bool)
  | SetController (sender _controller : address)
  | SetEpochManager (sender _epochManager : address)
  | SetProtocolFee (sender : address) (_protocolFeeBps : Z)
  | SetTreasury (sender _treasury : address)
  | Pause (sender : address)
  | Unpause (sender : address).

Definition exec (p : state) (c : call) : result state :=
  match c with
  | Swap ts zf a m r s => let! (p', _) := swap p ts zf a m r s in Ok p'
  | AddLiquidity sd ts a0 a1 r0 r1 =>
      let! (p', _) := addLiquidity p sd ts a0 a1 r0 r1 in Ok p'
  | RemoveLiquidity sd ts l s0 s1 =>
      let! (p', _) := removeLiquidity p sd ts l s0 s1 in Ok p'
  | UpdateParameters sd blk f b m a => updateParameters p sd blk f b m a
  | CollectProtocolFees s0 s1 => collectProtocolFees p s0 s1
  | SetController sd c => setController p sd c
  | SetEpochManager sd e => setEpochManager p sd e
  | SetProtocolFee sd f => setProtocolFee p sd f
  | SetTreasury sd t => setTreasury p sd t
  | Pause sd => pause p sd
  | Unpause sd => unpause p sd
  end.

Inductive reachable : state -> Prop :=
  | deployed (t0 t1 : address) (fee beta : Z) (o : address) (p : state) :
      constructor t0 t1 fee beta o = Ok p -> reachable p
  | called (p p' : state) (c : call) :
      reachable p -> exec p c = Ok p' -> reachable p'.

End PoolRuns.

Module EpochRuns.
Import EpochManager.

Inductive call :=
  | SubmitProposal (c : AgentController.state) (sender : address)
      (now feeBps curveBeta curveMode_ : Z)
  | FinalizeEpoch (self : address) (p : EvoPool.state) (sender : address)
      (now blockNumber id : Z) (agents : list address) (scores : list Z)
  | ClaimReward (sender : address) (id : Z) (paid : bool)
  | SetScorer (sender _scorer : address)
  | SetEpochDuration (sender : address) (_duration : Z)
  | SetEpochReward (sender : address) (_amount : Z).

Definition exec (e : state) (c : call) : result state :=
  match c with
  | SubmitProposal c sd now f b m => submitProposal e c sd now f b m
  | FinalizeEpoch self p sd now blk id ags scs =>
      let! (e', _) := finalizeEpoch self e p sd now blk id ags scs in Ok e'
  | ClaimReward sd id paid =>
      let! (e', _) := claimReward e sd id paid in Ok e'
  | SetScorer sd s => setScorer e sd s
  | SetEpochDuration sd d => setEpochDuration e sd d
  | SetEpochReward sd a => setEpochReward e sd a
  end.

Inductive reachable : state -> Prop :=
  | deployed (d : Z) (s o : address) (now : Z) (e : state) :
      constructor d s o now = Ok e -> reachable e
  | called (e e' : state) (c : call) :
      reachable e -> exec e c = Ok e' -> reachable e'.

(** The states that follow a given one by successful calls. *)
Inductive follows (e : state) : state -> Prop :=
  | here : follows e e
  | later (e1 e2 : state) (c : call) :
      follows e e1 -> exec e1 c = Ok e2 -> follows e e2.

(** What the bookkeeping of epochs and proposals keeps true. *)
Record consistent (e : state) : Prop := {
  (* epoch ids run from 1 to the current one, without gaps *)
  started : 1 <= currentEpochId e;
  existing : forall id,
    is_Some (epochs e !! id) <-> 1 <= id <= currentEpochId e;
  named : forall id ep, epochs e !! id = Some ep -> epochId ep = id;
  (* the current epoch is open, every earlier one is finalized *)
  open_current : finalized (epochOf e (currentEpochId e)) = false;
  sealed : forall id,
    1 <= id < currentEpochId e -> finalized (epochOf e id) = true;
  (* proposals: counted, listed in order, one per agent, within the caps *)
  counted : forall id,
    proposalCount (epochOf e id) = Z.of_nat (length (proposalsOf e id));
  listed : forall id, map agent (proposalsOf e id) = agentsOf e id;
  flagged : forall id a, proposed e id a = true <-> a ∈ agentsOf e id;
  distinct : forall id, NoDup (agentsOf e id);
  capped : forall id q, q ∈ proposalsOf e id ->
    feeBps q <= 500 /\ curveMode q <= 2;
  unopened : forall id, epochs e !! id = None -> agentsOf e id = []
}.

(** The winner the first loop of [finalizeEpoch] must select: the earliest
    position holding the greatest score, provided that score is positive. *)
Definition earliest_best (agents : list address) (scores : list Z)
    (best : address) (bestScore : Z) : Prop :=
  (forall j s, scores !! j = Some s -> s <= bestScore) /\
  exists i, agents !! i = Some best /\ scores !! i = Some bestScore /\
            forall j s, (j < i)%nat -> scores !! j = Some s -> s < bestScore.

End EpochRuns.

Module TimeLockRuns.
Import TimeLock.

Section Hashing.
Variable txHash : transaction -> Z.

Inductive reachable : state -> Prop :=
  | deployed (d : Z) (o : address) (t : state) :
      constructor d o = Done t -> reachable t
  | delay_set (t t' : state) (sender : address) (d : Z) :
      reachable t -> setDelay t sender d = Done t' -> reachable t'
  | queued_tx (t t' : state) (sender : address) (now h : Z)
      (x : transaction) :
      reachable t -> queueTransaction txHash t sender now x = Done (t', h) ->
      reachable t'
  | cancelled (t t' : state) (sender : address) (x : transaction) :
      reachable t -> cancelTransaction txHash t sender x = Done t' ->
      reachable t'
  | executed (t t' : state) (sender : address) (now : Z) (x : transaction)
      (selector : String.string -> bytes)
      (call : address -> Z -> bytes -> option bytes) (r : bytes) :
      reachable t ->
      executeTransaction txHash selector call t sender now x = Done (t', r) ->
      reachable t'.

(** The states that follow [t0] by successful calls made at time [now0] or
    later. *)
Inductive since (now0 : Z) (t0 : state) : state -> Prop :=
  | at_once : since now0 t0 t0
  | then_delay_set (t t' : state) (sender : address) (d : Z) :
      since now0 t0 t -> setDelay t sender d = Done t' -> since now0 t0 t'
  | then_queued (t t' : state) (sender : address) (now h : Z)
      (x : transaction) :
      since now0 t0 t -> now0 <= now ->
      queueTransaction txHash t sender now x = Done (t', h) ->
      since now0 t0 t'
  | then_cancelled (t t' : state) (sender : address) (x : transaction) :
      since now0 t0 t -> cancelTransaction txHash t sender x = Done t' ->
      since now0 t0 t'
  | then_executed (t t' : state) (sender : address) (now : Z)
      (x : transaction) (selector : String.string -> bytes)
      (call : address -> Z -> bytes -> option bytes) (r : bytes) :
      since now0 t0 t -> now0 <= now ->
      executeTransaction txHash selector call t sender now x = Done (t', r) ->
      since now0 t0 t'.

End Hashing.

End TimeLockRuns.

(** ** Further concrete states *)

Module MoreScenario.
Import Scenario.
Import Stdlib.Strings.String.

(** The pool right after deployment and wiring, before any deposit. *)
Definition fresh : EvoPool.state :=
  EvoPool.mk TOKEN_A TOKEN_B 0 0 30 5000 EvoPool.Normal CONTROLLER
    EPOCH_MANAGER 0 0 0 0 0 0 0 OWNER 0 0 0 false OWNER 0 ∅.

(** The controller of the test suite once the owner has named a bond
    token. *)
Definition staking : AgentController.state :=
  AgentController.set_bondToken registry TOKEN_A.

(** A timelock with a delay of two days, and a transaction for the
    controller due at time 1000 plus that delay. In the examples the hash
    of a transaction is its [eta], the selector is empty and the target
    answers every call with no data. *)
Definition guard : TimeLock.state := TimeLock.mk (2 * 86400) ∅ OWNER.

Definition raise_bond : TimeLock.transaction :=
  TimeLock.mkTx CONTROLLER 0 "setMinBond(uint256)"%string [] (1000 + 2 * 86400).

Definition hash_of_eta (x : TimeLock.transaction) : Z := TimeLock.eta x.

Definition no_selector (_ : String.string) : TimeLock.bytes := [].

Definition answers (_ : address) (_ : Z) (_ : TimeLock.bytes)
    : option TimeLock.bytes := Some [].

End MoreScenario.

(** ** Facts about the error monad and checked arithmetic *)

Section MonadFacts.

Lemma bind_Ok {A B : Type} (r : result A) (f : A -> result B) (b : B) :
  bind r f = Ok b -> exists a, r = Ok a /\ f a = Ok b.
Proof. destruct r as [a|e]; simpl; [eauto | discriminate]. Qed.

Lemma require_Ok (b : bool) (e : error) (u : unit) :
  require b e = Ok u -> b = true.
Proof. destruct b; simpl; [reflexivity | discriminate]. Qed.

Lemma add_Ok (a b c : Z) :
  add a b = Ok c -> c = a + b /\ a + b <= MAX_UINT256.
Proof.
  unfold add. destruct (Z.leb_spec (a + b) MAX_UINT256); [|discriminate].
  intros [= <-]. split; [reflexivity | assumption].
Qed.

Lemma sub_Ok (a b c : Z) : sub a b = Ok c -> c = a - b /\ b <= a.
Proof.
  unfold sub. destruct (Z.leb_spec b a); [|discriminate].
  intros [= <-]. split; [reflexivity | assumption].
Qed.

Lemma mul_Ok (a b c : Z) :
  mul a b = Ok c -> c = a * b /\ a * b <= MAX_UINT256.
Proof.
  unfold mul. destruct (Z.leb_spec (a * b) MAX_UINT256); [|discriminate].
  intros [= <-]. split; [reflexivity | assumption].
Qed.

Lemma div_Ok (a b c : Z) : div a b = Ok c -> c = a / b /\ b <> 0.
Proof.
  unfold div. destruct (Z.eqb_spec b 0); [discriminate|].
  intros [= <-]. split; [reflexivity | assumption].
Qed.

Lemma add_fits (a b : Z) : a + b <= MAX_UINT256 -> add a b = Ok (a + b).
Proof. intros H. unfold add. apply Z.leb_le in H. now rewrite H. Qed.

End MonadFacts.

(** Peel the outermost [let!] or [check!] off a successful run. *)
Tactic Notation "unbind" hyp(H) "as" ident(x) ident(E) :=
  apply bind_Ok in H as (x & E & H).

Tactic Notation "uncheck" hyp(H) "as" ident(C) :=
  let u := fresh "u" in
  apply bind_Ok in H as (u & C & H); apply require_Ok in C; clear u.

Ltac arith_inv :=
  repeat match goal with
  | H : add _ _ = Ok _ |- _ => apply add_Ok in H as [? ?]
  | H : sub _ _ = Ok _ |- _ => apply sub_Ok in H as [? ?]
  | H : mul _ _ = Ok _ |- _ => apply mul_Ok in H as [? ?]
  | H : div _ _ = Ok _ |- _ => apply div_Ok in H as [? ?]
  end.

(** ** The pool *)

Section PoolFacts.
Import EvoPool PoolSpec Scenario.

(** The states of [Scenario] are reached from deployment. *)
Lemma funded_reachable (m : CurveMode) :
  (let! p := constructor TOKEN_A TOKEN_B 30 5000 OWNER in
   let! p := setController p OWNER CONTROLLER in
   let! p := setEpochManager p OWNER EPOCH_MANAGER in
   let! (p, _) := addLiquidity p LP 0 (10000 * ether) (10000 * ether)
                    (Pulled (10000 * ether)) (Pulled (10000 * ether)) in
   updateParameters p CONTROLLER 0 30 5000 m CONTROLLER) = Ok (funded m).
Proof. destruct m; vm_compute; reflexivity. Qed.

Lemma skimming_reachable :
  setProtocolFee (funded Normal) OWNER 1000 = Ok skimming.
Proof. vm_compute. reflexivity. Qed.

Lemma halted_reachable :
  (let! (p, _) := swap skimming 0 true (100 * ether) 0
                    (Pulled (100 * ether)) true in
   pause p OWNER) = Ok halted.
Proof. vm_compute. reflexivity. Qed.

(** The TWAP update leaves everything but the accumulators alone. *)
Lemma updateTWAP_frame (p : state) (ts : Z) :
  let q := _updateTWAP p ts in
  reserve0 q = reserve0 p /\ reserve1 q = reserve1 p /\
  feeBps q = feeBps p /\ curveBeta q = curveBeta p /\
  curveMode q = curveMode p /\ protocolFeeBps q = protocolFeeBps p /\
  protocolFeeAccum0 q = protocolFeeAccum0 p /\
  protocolFeeAccum1 q = protocolFeeAccum1 p.
Proof.
  unfold _updateTWAP.
  destruct ((0 <? _) && (0 <? reserve0 p) && (0 <? reserve1 p))%bool;
    simpl; repeat split; reflexivity.
Qed.

Lemma applyCurve_ext (p q : state) (a : Z) (zf : bool) :
  reserve0 q = reserve0 p -> reserve1 q = reserve1 p ->
  curveBeta q = curveBeta p -> curveMode q = curveMode p ->
  _applyCurve q a zf = _applyCurve p a zf.
Proof. unfold _applyCurve. intros -> -> -> ->. reflexivity. Qed.

Lemma applyCurve_updateTWAP (p : state) (ts a : Z) (zf : bool) :
  _applyCurve (_updateTWAP p ts) a zf = _applyCurve p a zf.
Proof.
  destruct (updateTWAP_frame p ts) as (H0 & H1 & _ & Hb & Hm & _).
  now apply applyCurve_ext.
Qed.

(** What a successful [swap] did, step by step. *)
Lemma swap_Ok_inv (p : state) (ts : Z) (zf : bool) (amountIn minOut : Z)
    (received : pulled) (sent : bool) (p' : state) (out : Z) :
  swap p ts zf amountIn minOut received sent = Ok (p', out) ->
  exists actualIn effectiveIn,
    received = Pulled actualIn /\
    paused p = false /\ amountIn <> 0 /\
    reserve0 p <> 0 /\ reserve1 p <> 0 /\
    _applyCurve p actualIn zf = Ok effectiveIn /\
    let feeAmount := effectiveIn * feeBps p / 10000 in
    let amountInAfterFee := effectiveIn - feeAmount in
    let protocolFee := protocolFeeOf p feeAmount in
    feeAmount <= effectiveIn /\
    reserveIn p zf + amountInAfterFee <> 0 /\
    out = reserveOut p zf * amountInAfterFee
          / (reserveIn p zf + amountInAfterFee) /\
    minOut <= out /\ out <= reserveOut p zf /\
    reserveIn p' zf = reserveIn p zf + actualIn - protocolFee /\
    reserveOut p' zf = reserveOut p zf - out /\
    accumIn p' zf = accumIn p zf + protocolFee /\
    accumOut p' zf = accumOut p zf.
Proof.
  unfold swap. intros H.
  uncheck H as C0. uncheck H as C1. uncheck H as C2.
  apply negb_true_iff in C0. apply negb_true_iff, Z.eqb_neq in C1.
  apply negb_true_iff, orb_false_iff in C2 as [R0 R1].
  apply Z.eqb_neq in R0, R1.
  destruct (updateTWAP_frame p ts)
    as (T0 & T1 & Tf & Tb & Tm & Tp & Ta0 & Ta1).
  set (q := _updateTWAP p ts) in *. cbv zeta in *.
  unbind H as actualIn E0. destruct received as [|a]; [discriminate|].
  simpl in E0. injection E0 as <-.
  unbind H as effectiveIn E1.
  unfold q in E1 at 1. rewrite applyCurve_updateTWAP in E1.
  unbind H as ef E2. unbind H as feeAmount E3. unbind H as aAF E4.
  unbind H as protocolFee E5. unbind H as num E6. unbind H as den E7.
  unbind H as amountOut E8.
  uncheck H as C3. unbind H as q1 E9. unbind H as u E10. unbind H as tc E11.
  unbind H as q2 E12.
  injection H as <- <-.
  exists a, effectiveIn.
  rewrite ?T0, ?T1, ?Tf, ?Tp, ?Ta0, ?Ta1 in *.
  apply negb_true_iff, Z.ltb_ge in C3.
  apply mul_Ok in E2 as [-> _]. apply div_Ok in E3 as [-> _].
  apply sub_Ok in E4 as [-> Hfee].
  apply mul_Ok in E6 as [-> _]. apply add_Ok in E7 as [-> _].
  apply div_Ok in E8 as [-> Hden].
  set (feeAmount := effectiveIn * feeBps p / 10000) in *.
  assert (Hpf : protocolFee = protocolFeeOf p feeAmount /\ 0 <= protocolFee).
  { unfold protocolFeeOf.
    destruct ((0 <? protocolFeeBps p) && (0 <? feeAmount))%bool eqn:Hb.
    - unbind E5 as fp E5a. arith_inv. subst. split; [reflexivity|].
      apply andb_true_iff in Hb as [Hb1 Hb2]. apply Z.ltb_lt in Hb1, Hb2.
      apply Z.div_pos; nia.
    - injection E5 as <-. split; [reflexivity | lia]. }
  destruct Hpf as [<- Hpf0]. clear E5.
  unfold reserveIn, reserveOut, accumIn, accumOut in *.
  destruct zf.
  - unbind E9 as r0 Ea. unbind E9 as r1 Eb.
    unbind E12 as v0 Ec. injection E12 as <-. arith_inv. subst r0 r1 v0 tc.
    destruct (Z.ltb_spec 0 protocolFee).
    + unbind E9 as a0 Ed. unbind E9 as r2 Ee. injection E9 as <-.
      arith_inv. subst. simpl. rewrite ?Ta0, ?Ta1.
      repeat split; (assumption || lia).
    + injection E9 as <-. simpl. rewrite ?Ta0, ?Ta1.
      repeat split; (assumption || lia).
  - unbind E9 as r1 Ea. unbind E9 as r0 Eb.
    unbind E12 as v1 Ec. injection E12 as <-. arith_inv. subst r0 r1 v1 tc.
    destruct (Z.ltb_spec 0 protocolFee).
    + unbind E9 as a1 Ed. unbind E9 as r2 Ee. injection E9 as <-.
      arith_inv. subst. simpl. rewrite ?Ta0, ?Ta1.
      repeat split; (assumption || lia).
    + injection E9 as <-. simpl. rewrite ?Ta0, ?Ta1.
      repeat split; (assumption || lia).
Qed.

Lemma k_sides (p : state) (zf : bool) :
  k p = reserveIn p zf * reserveOut p zf.
Proof. unfold k, reserveIn, reserveOut. destruct zf; lia. Qed.

(** X5. Where the priced input, net of the fee, does not exceed what the
    pool keeps of the received input, the product cannot fall: this is the
    constant-product argument, and Normal mode is its instance. In Normal
    mode no successful swap lowers [reserve0 * reserve1], whatever the fee,
    the protocol fee up to 100% of it, and the amount the token really
    delivered. *)
Lemma swap_normal_k_nondecreasing (p : state) (ts : Z) (zf : bool)
    (amountIn minOut actualIn : Z) (sent : bool) (p' : state) (out : Z) :
  curveMode p = Normal ->
  0 <= reserve0 p -> 0 <= reserve1 p -> 0 <= actualIn ->
  0 <= feeBps p -> 0 <= protocolFeeBps p <= 10000 ->
  swap p ts zf amountIn minOut (Pulled actualIn) sent = Ok (p', out) ->
  k p <= k p'.
Proof.
  intros Hm H0 H1 Ha Hf Hp H.
  apply swap_Ok_inv in H
    as (a & eff & [= <-] & _ & _ & R0 & R1 & Hc & Hfee & Hden & Hout & _
        & Hle & Hin & Hou & _).
  unfold _applyCurve in Hc. rewrite Hm in Hc. injection Hc as <-.
  rewrite (k_sides p zf), (k_sides p' zf), Hin, Hou.
  set (fA := actualIn * feeBps p / 10000) in *.
  set (rI := reserveIn p zf) in *. set (rO := reserveOut p zf) in *.
  assert (HrI : 0 < rI) by (unfold rI, reserveIn; destruct zf; lia).
  assert (HrO : 0 < rO) by (unfold rO, reserveOut; destruct zf; lia).
  assert (HfA : 0 <= fA) by (apply Z.div_pos; nia).
  assert (Hpf : protocolFeeOf p fA <= fA).
  { unfold protocolFeeOf.
    destruct ((0 <? protocolFeeBps p) && (0 <? fA))%bool; [|lia].
    apply Z.div_le_upper_bound; nia. }
  assert (Hd : 0 < rI + (actualIn - fA)) by lia.
  assert (Hfl : out * (rI + (actualIn - fA)) <= rO * (actualIn - fA)).
  { rewrite Hout, Z.mul_comm. apply Z.mul_div_le. exact Hd. }
  nia.
Qed.

(** C3, as amended. In every successful swap the output-side reserve falls
    by exactly [amountOut]; the input-side reserve rises by the amount
    actually received less the protocol fee, and that fee is credited to the
    input-side accumulator: the skim is taken on the input side. *)
Theorem swap_reserve_accounting (p : state) (ts : Z) (zf : bool)
    (amountIn minOut actualIn : Z) (sent : bool) (p' : state) (out : Z) :
  swap p ts zf amountIn minOut (Pulled actualIn) sent = Ok (p', out) ->
  exists effectiveIn,
    _applyCurve p actualIn zf = Ok effectiveIn /\
    let protocolFee := protocolFeeOf p (effectiveIn * feeBps p / 10000) in
    reserveIn p' zf = reserveIn p zf + actualIn - protocolFee /\
    reserveOut p' zf = reserveOut p zf - out /\
    accumIn p' zf = accumIn p zf + protocolFee /\
    accumOut p' zf = accumOut p zf.
Proof.
  intros H.
  apply swap_Ok_inv in H
    as (a & eff & [= <-] & _ & _ & _ & _ & Hc & _ & _ & _ & _ & _
        & Hin & Hou & Hai & Hao).
  exists eff. cbv zeta. auto.
Qed.

Lemma swap_reserve_accounting_witness :
  exists p' out,
    swap skimming 0 true (100 * ether) 0 (Pulled (100 * ether)) true
      = Ok (p', out) /\
    reserveIn p' true
      = reserve0 skimming + 100 * ether - 30000000000000000 /\
    reserveOut p' true = reserve1 skimming - out /\
    accumIn p' true = 30000000000000000.
Proof.
  assert (E : exists p' out,
             swap skimming 0 true (100 * ether) 0 (Pulled (100 * ether)) true
               = Ok (p', out))
    by (eexists _, _; vm_compute; reflexivity).
  destruct E as (p' & out & E). exists p', out.
  destruct (swap_reserve_accounting _ _ _ _ _ _ _ _ _ E)
    as (eff & Hc & Hin & Hou & Hai & _).
  vm_compute in Hc. injection Hc as <-.
  split; [exact E|]. rewrite Hin, Hou, Hai.
  split; [vm_compute; reflexivity|].
  split; [reflexivity | vm_compute; reflexivity].
Defined.

(** C3, counterexample. With a protocol fee of 10% of a 30 bps swap fee, a
    swap of 100 tokens skims 0.03 token from the input-side reserve: the
    input reserve does not rise by the amount received, and the output
    reserve falls by [amountOut] only. *)
Lemma swap_skims_input_side :
  exists p' out,
    swap skimming 0 true (100 * ether) 0 (Pulled (100 * ether)) true
      = Ok (p', out) /\
    protocolFeeOf skimming (100 * ether * feeBps skimming / 10000)
      = 30000000000000000 /\
    reserve0 p' <> reserve0 skimming + 100 * ether /\
    reserve1 p' <> reserve1 skimming - out - 30000000000000000 /\
    reserve1 p' = reserve1 skimming - out.
Proof.
  eexists _, _. split; [vm_compute; reflexivity|].
  vm_compute. repeat split; discriminate.
Qed.

(** C1, at the failing input. The Defensive pool of the test suite (fee
    30 bps, beta 0.5, reserves 10000/10000) lets a swap of 2000 tokens
    through and ends with a smaller product [reserve0 * reserve1]. *)
Theorem swap_defensive_lowers_k :
  exists p' out,
    swap (funded Defensive) 0 true (2000 * ether) 0 (Pulled (2000 * ether))
      true = Ok (p', out) /\
    0 < reserve0 (funded Defensive) /\ 0 < reserve1 (funded Defensive) /\
    k p' < k (funded Defensive).
Proof.
  eexists _, _. split; [vm_compute; reflexivity|].
  vm_compute. repeat split; reflexivity.
Qed.

(** On the same pool and trade, Defensive mode pays the trader more than
    Normal mode does: the adjustment is a bonus, not a penalty. *)
Lemma defensive_pays_more_than_normal :
  exists pn outn pd outd,
    swap (funded Normal) 0 true (2000 * ether) 0 (Pulled (2000 * ether))
      true = Ok (pn, outn) /\
    swap (funded Defensive) 0 true (2000 * ether) 0 (Pulled (2000 * ether))
      true = Ok (pd, outd) /\
    outn < outd /\ k (funded Normal) <= k pn.
Proof.
  eexists _, _, _, _. split; [vm_compute; reflexivity|].
  split; [vm_compute; reflexivity|].
  vm_compute. split; [reflexivity | discriminate].
Qed.

(** The Normal and Defensive rows of the curve table. *)
Lemma applyCurve_normal (p : state) (a : Z) (zf : bool) :
  curveMode p = Normal -> _applyCurve p a zf = Ok a.
Proof. unfold _applyCurve. now intros ->. Qed.

(** X6. In Defensive mode the rounding is downwards only: the surcharge
    is never negative and never exceeds [amountIn * beta * w^2], here
    cleared of its denominators. *)
Lemma applyCurve_defensive_upper (p : state) (a : Z) (zf : bool) (eff : Z) :
  curveMode p = Defensive ->
  0 <= a -> 0 < reserveIn p zf -> 0 <= curveBeta p ->
  _applyCurve p a zf = Ok eff ->
  a <= eff /\
  (eff - a) * 10000 * (reserveIn p zf * reserveIn p zf)
  <= curveBeta p * (a * a * a).
Proof.
  unfold _applyCurve, reserveIn. intros -> Ha Hr Hb H.
  set (r := if zf then reserve0 p else reserve1 p) in *.
  unbind H as s E1. unbind H as w E2. unbind H as ww E3.
  unbind H as S E4. unbind H as bw E5. unbind H as P E6.
  unbind H as ap E7. unbind H as X E8. arith_inv. subst.
  unfold BETA_SCALE, E18 in *.
  set (E := 10 ^ 18) in *. assert (HE : 0 < E) by (unfold E; lia).
  set (w := a * E / r) in *.
  set (S := w * w / E) in *.
  set (P := curveBeta p * S / E) in *.
  set (X := a * P / 10000) in *.
  assert (Hw0 : 0 <= w) by (apply Z.div_pos; nia).
  assert (Hw : w * r <= a * E)
    by (unfold w; rewrite Z.mul_comm; apply Z.mul_div_le; lia).
  assert (HS0 : 0 <= S) by (apply Z.div_pos; nia).
  assert (HS : S * E <= w * w)
    by (unfold S; rewrite Z.mul_comm; apply Z.mul_div_le; lia).
  assert (HP0 : 0 <= P) by (apply Z.div_pos; nia).
  assert (HP : P * E <= curveBeta p * S)
    by (unfold P; rewrite Z.mul_comm; apply Z.mul_div_le; lia).
  assert (HX0 : 0 <= X) by (apply Z.div_pos; nia).
  assert (HX : X * 10000 <= a * P)
    by (unfold X; rewrite Z.mul_comm; apply Z.mul_div_le; lia).
  split; [lia|].
  replace (a + X - a) with X by lia.
  assert (Hwr : (w * r) * (w * r) <= (a * E) * (a * E)) by nia.
  assert (Hrr : 0 <= r * r) by nia.
  assert (A1 : (P * E) * (E * (r * r)) <= (curveBeta p * S) * (E * (r * r)))
    by (apply Z.mul_le_mono_nonneg_r; [nia | exact HP]).
  assert (A2 : (curveBeta p * (r * r)) * (S * E)
               <= (curveBeta p * (r * r)) * (w * w))
    by (apply Z.mul_le_mono_nonneg_l; [nia | exact HS]).
  assert (A3 : curveBeta p * ((w * r) * (w * r))
               <= curveBeta p * ((a * E) * (a * E)))
    by (apply Z.mul_le_mono_nonneg_l; [lia | exact Hwr]).
  assert (HPr : P * (r * r) <= curveBeta p * (a * a)).
  { apply Z.mul_le_mono_pos_r with (p := E * E); [nia | lia]. }
  assert (A4 : a * (P * (r * r)) <= a * (curveBeta p * (a * a)))
    by (apply Z.mul_le_mono_nonneg_l; [lia | exact HPr]).
  assert (A5 : (X * 10000) * (r * r) <= (a * P) * (r * r))
    by (apply Z.mul_le_mono_nonneg_r; [lia | exact HX]).
  lia.
Qed.

Lemma applyCurve_defensive_example :
  _applyCurve (funded Defensive) (2000 * ether) true = Ok (2040 * ether) /\
  (spec_effectiveIn Defensive (curveBeta (funded Defensive)) (2000 * ether)
     (reserve0 (funded Defensive)) == inject_Z (2040 * ether))%Q.
Proof. split; vm_compute; reflexivity. Qed.

(** X7. The VolatilityAdaptive penalty is divided by the scale once too
    often: whenever [beta * w < 1] it is zero and the input is left
    unchanged. *)
Lemma applyCurve_volatility_noop (p : state) (a : Z) (zf : bool) (eff : Z) :
  curveMode p = VolatilityAdaptive ->
  0 <= a -> 0 < reserveIn p zf -> 0 <= curveBeta p ->
  curveBeta p * a < 10000 * reserveIn p zf ->
  _applyCurve p a zf = Ok eff -> eff = a.
Proof.
  unfold _applyCurve, reserveIn. intros -> Ha Hr Hb Hsmall H.
  set (r := if zf then reserve0 p else reserve1 p) in *.
  unbind H as s E1. unbind H as ratio E2. unbind H as br E3.
  unbind H as scale E4. unbind H as penalty E5. unbind H as ap E6.
  unbind H as extra E7. arith_inv. subst.
  unfold BETA_SCALE in *.
  assert (Hratio : a * 10000 / r * r <= a * 10000).
  { rewrite Z.mul_comm. apply Z.mul_div_le. exact Hr. }
  assert (Hr0 : 0 <= a * 10000 / r) by (apply Z.div_pos; lia).
  assert (Hpen : curveBeta p * (a * 10000 / r) / (10000 * 10000) = 0).
  { apply Z.div_small. split; [nia|].
    apply Z.lt_le_trans with (m := 10000 * 10000 * 1); [|lia].
    nia. }
  rewrite Hpen, Z.mul_0_r. change (0 / 10000) with 0. lia.
Qed.

(** C2, at the failing input. In the VolatilityAdaptive pool of the test
    suite a trade of 500 tokens against a reserve of 10000 is priced with
    no adjustment at all, where the formula of the specification (and of the
    function's own comment) gives 512.5 tokens. *)
Theorem applyCurve_volatility_misses_formula :
  _applyCurve (funded VolatilityAdaptive) (500 * ether) true
    = Ok (500 * ether) /\
  (spec_effectiveIn VolatilityAdaptive (curveBeta (funded VolatilityAdaptive))
     (500 * ether) (reserve0 (funded VolatilityAdaptive))
   == inject_Z (512 * ether + ether / 2))%Q.
Proof. split; vm_compute; reflexivity. Qed.

(** The pause flag is read by the [whenNotPaused] modifier only; the three
    functions without the modifier run the same way on a paused pool. *)
Ltac pool_fields :=
  cbn [bind on_state on_pool
       set_paused set_reserves set_shares set_twap set_accum set_parameters
       token0 token1 reserve0 reserve1 feeBps curveBeta curveMode
       controller epochManager tradeCount cumulativeVolume0
       cumulativeVolume1 price0CumulativeLast price1CumulativeLast
       blockTimestampLast protocolFeeBps treasury protocolFeeAccum0
       protocolFeeAccum1 parameterUpdateBlock paused owner
       totalSupply balanceOf].

Ltac pool_step :=
  pool_fields;
  match goal with
  | |- bind (bind ?r _) _ = _ => destruct r
  | |- bind ?r _ = _ => destruct r
  | |- (if ?b then _ else _) = _ => destruct b
  end.

Lemma updateTWAP_set_paused (p : state) (b : bool) (ts : Z) :
  _updateTWAP (set_paused p b) ts = set_paused (_updateTWAP p ts) b.
Proof.
  destruct p. unfold _updateTWAP. pool_fields.
  destruct (_ && _ && _)%bool; reflexivity.
Qed.

Lemma removeLiquidity_ignores_pause (p : state) (b : bool) (sender : address)
    (ts liquidity : Z) (sent0 sent1 : bool) :
  removeLiquidity (set_paused p b) sender ts liquidity sent0 sent1
  = on_state (fun q => set_paused q b)
      (removeLiquidity p sender ts liquidity sent0 sent1).
Proof.
  unfold removeLiquidity. rewrite updateTWAP_set_paused.
  change (shares (set_paused p b) sender) with (shares p sender).
  destruct (_updateTWAP p ts) as [].
  unfold _burn, shares. repeat pool_step; reflexivity.
Qed.

Lemma updateParameters_ignores_pause (p : state) (b : bool)
    (sender : address) (blk fee beta : Z) (m : CurveMode) (a : address) :
  updateParameters (set_paused p b) sender blk fee beta m a
  = on_pool (fun q => set_paused q b)
      (updateParameters p sender blk fee beta m a).
Proof.
  destruct p. unfold updateParameters. repeat pool_step; reflexivity.
Qed.

Lemma collectProtocolFees_ignores_pause (p : state) (b sent0 sent1 : bool) :
  collectProtocolFees (set_paused p b) sent0 sent1
  = on_pool (fun q => set_paused q b) (collectProtocolFees p sent0 sent1).
Proof.
  destruct p. unfold collectProtocolFees. repeat pool_step; reflexivity.
Qed.

Lemma set_paused_id (p : state) :
  paused p = true -> set_paused (set_paused p false) true = p.
Proof. destruct p. simpl. now intros ->. Qed.

(** C6, as amended. While the pause flag is set, [swap] and [addLiquidity]
    are rejected with [PoolPaused] and change nothing; [removeLiquidity],
    [updateParameters] and [collectProtocolFees] carry no pause guard and
    run exactly as on the unpaused pool, leaving the flag set; the owner's
    [unpause] lifts the flag. *)
Theorem pause_gates_swap_and_addLiquidity (p : state) :
  paused p = true ->
  (forall ts zf amountIn minOut received sent,
     swap p ts zf amountIn minOut received sent = Revert PoolPaused) /\
  (forall sender ts amount0 amount1 received0 received1,
     addLiquidity p sender ts amount0 amount1 received0 received1
     = Revert PoolPaused) /\
  (forall sender ts liquidity sent0 sent1,
     removeLiquidity p sender ts liquidity sent0 sent1
     = on_state (fun q => set_paused q true)
         (removeLiquidity (set_paused p false) sender ts liquidity
            sent0 sent1)) /\
  (forall sender blk fee beta m a,
     updateParameters p sender blk fee beta m a
     = on_pool (fun q => set_paused q true)
         (updateParameters (set_paused p false) sender blk fee beta m a)) /\
  (forall sent0 sent1,
     collectProtocolFees p sent0 sent1
     = on_pool (fun q => set_paused q true)
         (collectProtocolFees (set_paused p false) sent0 sent1)) /\
  unpause p (owner p) = Ok (set_paused p false).
Proof.
  intros Hp. repeat split; intros.
  - unfold swap. rewrite Hp. reflexivity.
  - unfold addLiquidity. rewrite Hp. reflexivity.
  - rewrite <- removeLiquidity_ignores_pause.
    now rewrite (set_paused_id p Hp).
  - rewrite <- updateParameters_ignores_pause.
    now rewrite (set_paused_id p Hp).
  - rewrite <- collectProtocolFees_ignores_pause.
    now rewrite (set_paused_id p Hp).
  - unfold unpause. rewrite Z.eqb_refl. reflexivity.
Qed.

Lemma pause_gates_swap_and_addLiquidity_witness :
  paused halted = true /\
  swap halted 0 true ether 0 (Pulled ether) true = Revert PoolPaused /\
  addLiquidity halted LP 0 ether ether (Pulled ether) (Pulled ether)
    = Revert PoolPaused /\
  unpause halted OWNER = Ok (set_paused halted false).
Proof.
  assert (Hp : paused halted = true) by reflexivity.
  destruct (pause_gates_swap_and_addLiquidity halted Hp)
    as (Hs & Ha & _ & _ & _ & Hu).
  split; [exact Hp|]. split; [apply Hs|]. split; [apply Ha|]. exact Hu.
Defined.

(** C6, counterexample. On a paused pool the controller still updates the
    parameters, anyone still collects the accrued protocol fee, and a
    liquidity provider still withdraws: each call succeeds and changes the
    state. *)
Lemma pause_leaves_three_entry_points_open :
  paused halted = true /\
  (exists p', updateParameters halted CONTROLLER 1 40 5500 Defensive AGENT_A
              = Ok p' /\ feeBps p' <> feeBps halted) /\
  (exists p', collectProtocolFees halted true true = Ok p' /\
              protocolFeeAccum0 p' <> protocolFeeAccum0 halted) /\
  (exists p' out, removeLiquidity halted LP 0 ether true true = Ok (p', out)
                  /\ reserve0 p' <> reserve0 halted).
Proof.
  split; [reflexivity|].
  split; [|split].
  - eexists. split; [vm_compute; reflexivity | vm_compute; discriminate].
  - eexists. split; [vm_compute; reflexivity | vm_compute; discriminate].
  - eexists _, _. split; [vm_compute; reflexivity | vm_compute; discriminate].
Qed.

End PoolFacts.

(** ** The agent controller *)

Section ControllerFacts.
Import AgentController ControllerSpec Scenario.

Lemma mode_of_uint8_Ok (m : Z) :
  0 <= m <= 2 ->
  exists mode, EvoPool.mode_of_uint8 m = Ok mode /\
               EvoPool.uint8_of_mode mode = m.
Proof.
  intros H. assert (m = 0 \/ m = 1 \/ m = 2) as [-> | [-> | ->]] by lia;
    eexists; split; reflexivity.
Qed.

Lemma updateParameters_Ok (p : EvoPool.state) (sender : address)
    (blk fee beta : Z) (m : EvoPool.CurveMode) (a : address) :
  (sender = EvoPool.controller p \/ sender = EvoPool.epochManager p) ->
  fee <= 500 ->
  EvoPool.updateParameters p sender blk fee beta m a
  = Ok (EvoPool.set_parameters p fee beta m blk).
Proof.
  intros Hauth Hfee. unfold EvoPool.updateParameters.
  replace ((sender =? EvoPool.controller p)
           || (sender =? EvoPool.epochManager p))%bool with true
    by (symmetry; apply orb_true_iff; destruct Hauth as [-> | ->];
        [left|right]; apply Z.eqb_refl).
  unfold EvoPool.MAX_FEE_BPS.
  replace (500 <? fee) with false by (symmetry; apply Z.ltb_ge; lia).
  replace (2 <? EvoPool.uint8_of_mode m) with false
    by (destruct m; reflexivity).
  reflexivity.
Qed.

Lemma updateParameters_Ok_inv (p p' : EvoPool.state) (sender : address)
    (blk fee beta : Z) (m : EvoPool.CurveMode) (a : address) :
  EvoPool.updateParameters p sender blk fee beta m a = Ok p' ->
  (sender = EvoPool.controller p \/ sender = EvoPool.epochManager p) /\
  fee <= 500 /\ p' = EvoPool.set_parameters p fee beta m blk.
Proof.
  unfold EvoPool.updateParameters. intros H.
  uncheck H as C0. uncheck H as C1. uncheck H as C2. injection H as <-.
  apply orb_true_iff in C0. apply negb_true_iff, Z.ltb_ge in C1.
  unfold EvoPool.MAX_FEE_BPS in C1.
  repeat split; [|assumption].
  destruct C0 as [C0|C0]; apply Z.eqb_eq in C0; auto.
Qed.

(** The source's [feeDiff] and [betaDiff] are the absolute difference. *)
Lemma diff_abs (cur new : Z) :
  (if cur <? new then new - cur else cur - new) = Z.abs (new - cur).
Proof. destruct (Z.ltb_spec cur new); lia. Qed.

Lemma submit_past_cooldown (self : address) (c : state) (p : EvoPool.state)
    (sender : address) (now blk fee beta m : Z) :
  paused c = false ->
  active (getAgentInfo c sender) = true ->
  cooled c sender now ->
  submitParameterUpdate self c p sender now blk fee beta m
  = (check! negb (MAX_FEE_BPS <? fee) else FeeTooHigh in
     check! negb (2 <? m) else InvalidCurveMode in
     check! negb (maxFeeDelta c <? Z.abs (fee - EvoPool.feeBps p))
       else DeltaExceedsLimit in
     check! negb (maxBetaDelta c <? Z.abs (beta - EvoPool.curveBeta p))
       else DeltaExceedsLimit in
     let c1 := set_agents c
                 (<[sender := set_lastUpdateTime (getAgentInfo c sender)
                                now]> (agents c))
                 (agentList c) in
     let! n := add (updatesOf c sender) 1 in
     let c2 := set_updateCount c1 (<[sender := n]> (updateCount c)) in
     let! mode := EvoPool.mode_of_uint8 m in
     let! p' := EvoPool.updateParameters p self blk fee beta mode sender in
     Ok (c2, p')).
Proof.
  intros Hp Ha Hc. unfold submitParameterUpdate.
  rewrite Hp, Ha. cbn [negb require bind].
  rewrite !diff_abs.
  destruct Hc as [H0 | [Hle Hmax]].
  - rewrite H0. reflexivity.
  - destruct (lastUpdateTime (getAgentInfo c sender) =? 0); [reflexivity|].
    cbn [negb]. rewrite add_fits by lia. cbn [bind].
    replace (now <? _) with false by (symmetry; apply Z.ltb_ge; lia).
    reflexivity.
Qed.

Lemma registry_reachable :
  (let! c := registerAgent (constructor (ether / 100) 300 50 2000 OWNER)
               AGENT_A (ether / 100) 1000 in
   let! c := registerAgent c AGENT_B (ether / 100) 1000 in
   registerAgent c AGENT_C (ether / 100) 1000) = Ok registry.
Proof. vm_compute. reflexivity. Qed.

Lemma submit_Ok_inv (self : address) (c : state) (p : EvoPool.state)
    (sender : address) (now blk fee beta m : Z) (c' : state)
    (p' : EvoPool.state) :
  submitParameterUpdate self c p sender now blk fee beta m = Ok (c', p') ->
  paused c = false /\
  (self = EvoPool.controller p \/ self = EvoPool.epochManager p) /\
  (exists mode, p' = EvoPool.set_parameters p fee beta mode blk) /\
  c' = set_updateCount
         (set_agents c
            (<[sender := set_lastUpdateTime (getAgentInfo c sender) now]>
               (agents c))
            (agentList c))
         (<[sender := updatesOf c sender + 1]> (updateCount c)).
Proof.
  unfold submitParameterUpdate. intros H.
  uncheck H as C0. uncheck H as C1. cbv zeta in H.
  unbind H as cooling E0. uncheck H as C2. uncheck H as C3.
  uncheck H as C4. uncheck H as C5. uncheck H as C6.
  unbind H as n E1. unbind H as mode E2. unbind H as q E3.
  injection H as <- <-.
  apply updateParameters_Ok_inv in E3 as (Hauth & _ & ->).
  apply add_Ok in E1 as [-> _].
  apply negb_true_iff in C0.
  repeat split; eauto.
Qed.

(** An update inside every bound goes through. *)
Lemma delta_free_submit (self : address) (c : state) (p : EvoPool.state)
    (sender : address) (now blk fee beta m : Z) :
  paused c = false ->
  active (getAgentInfo c sender) = true ->
  cooled c sender now ->
  fee <= 500 -> 0 <= m <= 2 ->
  Z.abs (fee - EvoPool.feeBps p) <= maxFeeDelta c ->
  Z.abs (beta - EvoPool.curveBeta p) <= maxBetaDelta c ->
  self = EvoPool.controller p \/ self = EvoPool.epochManager p ->
  updatesOf c sender < MAX_UINT256 ->
  exists c' p',
    submitParameterUpdate self c p sender now blk fee beta m = Ok (c', p')
    /\ EvoPool.feeBps p' = fee /\ EvoPool.curveBeta p' = beta
    /\ EvoPool.uint8_of_mode (EvoPool.curveMode p') = m
    /\ lastUpdateTime (getAgentInfo c' sender) = now.
Proof.
  intros Hp Ha Hc Hfee Hm Hdf Hdb Hauth Hcount.
  rewrite (submit_past_cooldown self c p sender now blk fee beta m Hp Ha Hc).
  unfold MAX_FEE_BPS.
  replace (500 <? fee) with false by (symmetry; apply Z.ltb_ge; lia).
  replace (2 <? m) with false by (symmetry; apply Z.ltb_ge; lia).
  replace (maxFeeDelta c <? _) with false
    by (symmetry; apply Z.ltb_ge; lia).
  replace (maxBetaDelta c <? _) with false
    by (symmetry; apply Z.ltb_ge; lia).
  cbn [negb require bind]. rewrite add_fits by lia. cbn [bind].
  destruct (mode_of_uint8_Ok m Hm) as (mode & -> & Hmode). cbn [bind].
  rewrite updateParameters_Ok by assumption. cbn [bind].
  eexists _, _. split; [reflexivity|].
  repeat split; try assumption.
  unfold getAgentInfo. cbn [agents set_agents set_updateCount].
  now rewrite lookup_insert_eq.
Qed.

(** C7. For an active agent of an unpaused controller whose cooldown has
    elapsed and whose fee and mode pass the absolute caps: an update whose
    fee lies [maxFeeDelta + 1] from the pool's fee, or whose beta lies
    [maxBetaDelta + 1] from the pool's beta, is rejected with
    [DeltaExceedsLimit]; an update at distance exactly [maxFeeDelta]
    (resp. [maxBetaDelta]), the other parameter being within its own bound,
    is accepted and reaches the pool. *)
Theorem delta_bound_is_sharp (self : address) (c : state)
    (p : EvoPool.state) (sender : address) (now blk fee beta m : Z) :
  paused c = false ->
  active (getAgentInfo c sender) = true ->
  cooled c sender now ->
  fee <= 500 -> 0 <= m <= 2 ->
  (Z.abs (fee - EvoPool.feeBps p) = maxFeeDelta c + 1 \/
   Z.abs (beta - EvoPool.curveBeta p) = maxBetaDelta c + 1 ->
   submitParameterUpdate self c p sender now blk fee beta m
   = Revert DeltaExceedsLimit) /\
  ((Z.abs (fee - EvoPool.feeBps p) = maxFeeDelta c /\
    Z.abs (beta - EvoPool.curveBeta p) <= maxBetaDelta c) \/
   (Z.abs (fee - EvoPool.feeBps p) <= maxFeeDelta c /\
    Z.abs (beta - EvoPool.curveBeta p) = maxBetaDelta c) ->
   self = EvoPool.controller p \/ self = EvoPool.epochManager p ->
   updatesOf c sender < MAX_UINT256 ->
   exists c' p',
     submitParameterUpdate self c p sender now blk fee beta m = Ok (c', p')
     /\ EvoPool.feeBps p' = fee /\ EvoPool.curveBeta p' = beta
     /\ EvoPool.uint8_of_mode (EvoPool.curveMode p') = m
     /\ lastUpdateTime (getAgentInfo c' sender) = now).
Proof.
  intros Hp Ha Hc Hfee Hm.
  rewrite (submit_past_cooldown self c p sender now blk fee beta m Hp Ha Hc).
  split.
  - unfold MAX_FEE_BPS.
    replace (500 <? fee) with false by (symmetry; apply Z.ltb_ge; lia).
    replace (2 <? m) with false by (symmetry; apply Z.ltb_ge; lia).
    cbn [negb require bind].
    intros [Hd | Hd].
    + replace (maxFeeDelta c <? _) with true
        by (symmetry; apply Z.ltb_lt; lia).
      reflexivity.
    + destruct (maxFeeDelta c <? _); [reflexivity|]. cbn [negb bind].
      replace (maxBetaDelta c <? _) with true
        by (symmetry; apply Z.ltb_lt; lia).
      reflexivity.
  - intros Hd Hauth Hcount.
    rewrite <- (submit_past_cooldown self c p sender now blk fee beta m
                  Hp Ha Hc).
    apply delta_free_submit; try assumption; lia.
Qed.

Lemma delta_bound_is_sharp_witness :
  submitParameterUpdate CONTROLLER registry (funded EvoPool.Normal) AGENT_A
    2000 1 81 5000 0 = Revert DeltaExceedsLimit /\
  submitParameterUpdate CONTROLLER registry (funded EvoPool.Normal) AGENT_A
    2000 1 30 7001 0 = Revert DeltaExceedsLimit /\
  (exists c' p',
     submitParameterUpdate CONTROLLER registry (funded EvoPool.Normal)
       AGENT_A 2000 1 80 5000 0 = Ok (c', p') /\ EvoPool.feeBps p' = 80) /\
  (exists c' p',
     submitParameterUpdate CONTROLLER registry (funded EvoPool.Normal)
       AGENT_A 2000 1 30 7000 0 = Ok (c', p')
     /\ EvoPool.curveBeta p' = 7000).
Proof.
  assert (Hp : paused registry = false) by reflexivity.
  assert (Ha : active (getAgentInfo registry AGENT_A) = true)
    by reflexivity.
  assert (Hc : cooled registry AGENT_A 2000) by (left; reflexivity).
  assert (Hm : 0 <= 0 <= 2) by lia.
  split; [|split; [|split]].
  - apply (delta_bound_is_sharp CONTROLLER registry (funded EvoPool.Normal)
             AGENT_A 2000 1 81 5000 0 Hp Ha Hc); [lia | lia |].
    left. reflexivity.
  - apply (delta_bound_is_sharp CONTROLLER registry (funded EvoPool.Normal)
             AGENT_A 2000 1 30 7001 0 Hp Ha Hc); [lia | lia |].
    right. reflexivity.
  - destruct (delta_bound_is_sharp CONTROLLER registry
                (funded EvoPool.Normal) AGENT_A 2000 1 80 5000 0 Hp Ha Hc)
      as [_ Hok]; [lia | lia |].
    destruct Hok as (c' & p' & E & Hf & _).
    + left. split; [reflexivity | vm_compute; discriminate].
    + left. reflexivity.
    + reflexivity.
    + exists c', p'. split; assumption.
  - destruct (delta_bound_is_sharp CONTROLLER registry
                (funded EvoPool.Normal) AGENT_A 2000 1 30 7000 0 Hp Ha Hc)
      as [_ Hok]; [lia | lia |].
    destruct Hok as (c' & p' & E & _ & Hb & _).
    + right. split; [vm_compute; discriminate | reflexivity].
    + left. reflexivity.
    + reflexivity.
    + exists c', p'. split; assumption.
Defined.

Lemma registerAgent_Ok_inv (c : state) (sender : address)
    (value now : Z) (c' : state) :
  registerAgent c sender value now = Ok c' ->
  paused c = false /\
  c' = set_agents c
         (<[sender := mkAgent sender value 0 now 0 true]> (agents c))
         (agentList c ++ [sender]).
Proof.
  unfold registerAgent. intros H.
  uncheck H as C0. uncheck H as C1. uncheck H as C2. injection H as <-.
  apply negb_true_iff in C0. split; [assumption | reflexivity].
Qed.

Lemma deregisterAgent_Ok_inv (c : state) (sender : address)
    (refunded : bool) (c' : state) :
  deregisterAgent c sender refunded = Ok c' ->
  c' = set_agents c
         (<[sender := set_bond (getAgentInfo c sender) 0 false]> (agents c))
         (agentList c).
Proof.
  unfold deregisterAgent. intros H.
  uncheck H as C0. uncheck H as C1. cbv zeta in H. uncheck H as C2.
  now injection H as <-.
Qed.

(** C10. [registerAgent] always writes [lastUpdateTime = 0], also over the
    record of an agent that deregistered; hence after the sequence update,
    deregister, register, a second update of the same agent within the
    caps and the delta bounds succeeds at any time whatever, in particular
    less than [cooldownSeconds] after the first one. *)
Theorem reregistration_skips_cooldown (self : address) (c : state)
    (p : EvoPool.state) (agent : address) (t1 blk1 f1 b1 m1 : Z)
    (c1 : state) (p1 : EvoPool.state) (refunded : bool) (c2 : state)
    (bond t3 : Z) (c3 : state) :
  submitParameterUpdate self c p agent t1 blk1 f1 b1 m1 = Ok (c1, p1) ->
  deregisterAgent c1 agent refunded = Ok c2 ->
  registerAgent c2 agent bond t3 = Ok c3 ->
  lastUpdateTime (getAgentInfo c3 agent) = 0 /\
  forall t2 blk2 f2 b2 m2,
    f2 <= 500 -> 0 <= m2 <= 2 ->
    Z.abs (f2 - f1) <= maxFeeDelta c -> Z.abs (b2 - b1) <= maxBetaDelta c ->
    updatesOf c1 agent < MAX_UINT256 ->
    exists c4 p4,
      submitParameterUpdate self c3 p1 agent t2 blk2 f2 b2 m2 = Ok (c4, p4)
      /\ EvoPool.feeBps p4 = f2 /\ EvoPool.curveBeta p4 = b2.
Proof.
  intros H1 H2 H3.
  apply submit_Ok_inv in H1 as (_ & Hauth & (mode & ->) & ->).
  apply deregisterAgent_Ok_inv in H2 as ->.
  apply registerAgent_Ok_inv in H3 as (Hp & ->).
  split.
  - unfold getAgentInfo. cbn [agents set_agents].
    now rewrite lookup_insert_eq.
  - intros t2 blk2 f2 b2 m2 Hf Hm Hdf Hdb Hcount.
    match goal with
    | |- context [submitParameterUpdate self ?c3 ?p1 agent _ _ _ _ _] =>
        destruct (delta_free_submit self c3 p1 agent t2 blk2 f2 b2 m2)
          as (c4 & p4 & E & Hf4 & Hb4 & _)
    end.
    + exact Hp.
    + unfold getAgentInfo. cbn [agents set_agents].
      now rewrite lookup_insert_eq.
    + left. unfold getAgentInfo. cbn [agents set_agents].
      now rewrite lookup_insert_eq.
    + exact Hf.
    + exact Hm.
    + exact Hdf.
    + exact Hdb.
    + exact Hauth.
    + exact Hcount.
    + exists c4, p4. auto.
Qed.

Lemma reregistration_skips_cooldown_witness :
  exists c1 p1 c2 c3,
    submitParameterUpdate CONTROLLER registry (funded EvoPool.Normal)
      AGENT_A 2000 1 40 5500 0 = Ok (c1, p1) /\
    submitParameterUpdate CONTROLLER c1 p1 AGENT_A 2002 2 50 6000 1
      = Revert CooldownActive /\
    deregisterAgent c1 AGENT_A true = Ok c2 /\
    registerAgent c2 AGENT_A (ether / 100) 2001 = Ok c3 /\
    2002 < 2000 + cooldownSeconds c3 /\
    exists c4 p4,
      submitParameterUpdate CONTROLLER c3 p1 AGENT_A 2002 2 50 6000 1
        = Ok (c4, p4) /\
      EvoPool.feeBps p4 = 50 /\ EvoPool.curveBeta p4 = 6000.
Proof.
  eassert (E1 : submitParameterUpdate CONTROLLER registry
                  (funded EvoPool.Normal) AGENT_A 2000 1 40 5500 0
                = Ok (_, _)) by (vm_compute; reflexivity).
  match type of E1 with
  | _ = Ok (?c1, ?p1) =>
      eassert (E2 : deregisterAgent c1 AGENT_A true = Ok _)
        by (vm_compute; reflexivity);
      exists c1, p1
  end.
  match type of E2 with
  | _ = Ok ?c2 =>
      eassert (E3 : registerAgent c2 AGENT_A (ether / 100) 2001 = Ok _)
        by (vm_compute; reflexivity);
      exists c2
  end.
  match type of E3 with _ = Ok ?c3 => exists c3 end.
  split; [exact E1|]. split; [vm_compute; reflexivity|].
  split; [exact E2|]. split; [exact E3|].
  split; [vm_compute; reflexivity|].
  destruct (reregistration_skips_cooldown _ _ _ _ _ _ _ _ _ _ _ _ _ _ _ _
              E1 E2 E3) as [_ H].
  apply (H 2002 2 50 6000 1); [lia | lia | | | ].
  - vm_compute. discriminate.
  - vm_compute. discriminate.
  - vm_compute. reflexivity.
Defined.

End ControllerFacts.

(** ** The epoch manager *)

Section EpochFacts.
Import EpochManager EpochSpec Scenario.

Lemma applyWinner_proposalOf (self : address) (p : EvoPool.state) (blk : Z)
    (ps : list Proposal) (best : address) (q : Proposal) :
  proposalOf ps best = Some q ->
  applyWinner self p blk ps best
  = (let! m := EvoPool.mode_of_uint8 (curveMode q) in
     EvoPool.updateParameters p self blk (feeBps q) (curveBeta q) m best).
Proof.
  unfold proposalOf. induction ps as [|x ps IH]; simpl; [discriminate|].
  destruct (agent x =? best); [now intros [= ->] | exact IH].
Qed.

(** What [finalizeEpoch] does once the scores are recorded: the epoch takes
    the best agent and score, the first proposal of the best agent goes to
    the pool, the next epoch opens. *)
Lemma finalizeEpoch_applies (self : address) (e : state)
    (p : EvoPool.state) (now blk id : Z) (agents : list address)
    (scores : list Z) (sc : gmap (Z * address) Z) (tot : gmap address Z)
    (best : address) (bestScore : Z) (q : Proposal) :
  finalized (epochOf e id) = false ->
  proposalCount (epochOf e id) = Z.of_nat (length agents) ->
  agents <> [] ->
  length agents = length scores ->
  id <= currentEpochId e ->
  recordScores id agents scores (agentScores e) (totalScore e) 0 0
    = Ok (sc, tot, best, bestScore) ->
  proposalOf (proposalsOf e id) best = Some q ->
  feeBps q <= 500 -> 0 <= curveMode q <= 2 ->
  self = EvoPool.controller p \/ self = EvoPool.epochManager p ->
  in_range e now best ->
  exists e' mode,
    finalizeEpoch self e p (scorer e) now blk id agents scores
      = Ok (e', EvoPool.set_parameters p (feeBps q) (curveBeta q) mode blk)
    /\ EvoPool.uint8_of_mode mode = curveMode q
    /\ epochOf e' id = set_outcome (epochOf e id) best bestScore true
    /\ currentEpochId e' = currentEpochId e + 1.
Proof.
  intros Hfin Hcount Hne Hlen Hid Hrec Hq Hfee Hmode Hauth (Hwon & Hcur & Hend).
  unfold finalizeEpoch. rewrite Z.eqb_refl. cbn [require bind].
  rewrite Hfin, Hcount, Hlen, Z.eqb_refl. cbn [negb require bind].
  replace (Z.of_nat (length scores) =? 0) with false
    by (symmetry; apply Z.eqb_neq; rewrite <- Hlen;
        destruct agents; [congruence | simpl; lia]).
  cbn [negb require bind]. rewrite Hrec. cbn [bind].
  rewrite add_fits by lia. cbn [bind].
  match goal with
  | |- context [applyWinner _ _ _ (proposalsOf ?e1 id) _] =>
      change (proposalsOf e1 id) with (proposalsOf e id)
  end.
  rewrite (applyWinner_proposalOf _ _ _ _ _ _ Hq).
  destruct (mode_of_uint8_Ok (curveMode q) Hmode) as (mode & -> & Hm).
  cbn [bind]. rewrite updateParameters_Ok by assumption. cbn [bind].
  unfold _startNextEpoch.
  cbn [currentEpochId epochDuration set_epochs set_clock set_scores].
  rewrite !add_fits by lia. cbn [bind].
  eexists _, mode. split; [reflexivity|]. split; [exact Hm|].
  split; [|reflexivity].
  unfold epochOf. cbn [epochs set_clock].
  rewrite lookup_insert_ne by lia.
  cbn [epochs set_epochs set_clock set_scores].
  now rewrite lookup_insert_eq.
Qed.

Lemma arena_reachable : constructor 600 SCORER OWNER 1000 = Ok arena.
Proof. vm_compute. reflexivity. Qed.

Lemma arena_one_reachable :
  submitProposal arena registry AGENT_A 1001 50 6000 1 = Ok arena_one.
Proof. vm_compute. reflexivity. Qed.

(** The two guards [finalizeEpoch] does have. *)
Lemma finalizeEpoch_guards (self : address) (e : state) (p : EvoPool.state)
    (sender : address) (now blk id : Z) (agents : list address)
    (scores : list Z) :
  (sender <> scorer e ->
   finalizeEpoch self e p sender now blk id agents scores
   = Revert NotScorer) /\
  (sender = scorer e -> finalized (epochOf e id) = true ->
   finalizeEpoch self e p sender now blk id agents scores
   = Revert AlreadyFinalized).
Proof.
  unfold finalizeEpoch. split.
  - intros H. apply Z.eqb_neq in H. now rewrite H.
  - intros -> H. rewrite Z.eqb_refl, H. reflexivity.
Qed.

(** C4, at the failing input. Epoch 1 of the test suite ends at time 1600;
    the scorer's [finalizeEpoch] at time 1002 is accepted, marks the epoch
    finalized, applies the proposal to the pool and opens epoch 2. *)
Theorem finalizeEpoch_before_endTime :
  exists e' p',
    finalizeEpoch EPOCH_MANAGER arena_one (funded EvoPool.Normal) SCORER
      1002 1 1 [AGENT_A] [7000] = Ok (e', p') /\
    1002 < endTime (epochOf arena_one 1) /\
    finalized (epochOf arena_one 1) = false /\
    finalized (epochOf e' 1) = true /\
    currentEpochId e' = 2 /\
    EvoPool.feeBps p' = 50.
Proof.
  eexists _, _. split; [vm_compute; reflexivity|].
  vm_compute. repeat split; reflexivity.
Qed.

(** C5, at the failing input. One agent proposed in epoch 1; the scorer
    finalizes with that agent and the score 0. No score is strictly above
    the initial best of 0, so the recorded winner is the zero address,
    which proposed nothing, while [proposalCount] is 1. The same happens
    with any address the scorer lists in place of the proposer. *)
Theorem finalizeEpoch_winner_not_a_proposer :
  (exists e' p',
     finalizeEpoch EPOCH_MANAGER arena_one (funded EvoPool.Normal) SCORER
       1700 1 1 [AGENT_A] [0] = Ok (e', p') /\
     finalized (epochOf e' 1) = true /\
     proposalCount (epochOf e' 1) = 1 /\
     agentsOf e' 1 = [AGENT_A] /\
     winner (epochOf e' 1) = 0 /\
     ~ In (winner (epochOf e' 1)) (agentsOf e' 1)) /\
  (exists e' p',
     finalizeEpoch EPOCH_MANAGER arena_one (funded EvoPool.Normal) SCORER
       1700 1 1 [TRADER] [7000] = Ok (e', p') /\
     finalized (epochOf e' 1) = true /\
     proposalCount (epochOf e' 1) = 1 /\
     winner (epochOf e' 1) = TRADER /\
     ~ In (winner (epochOf e' 1)) (agentsOf e' 1)).
Proof.
  split.
  - eexists _, _. split; [vm_compute; reflexivity|].
    vm_compute. repeat split; try reflexivity.
    intros [H | []]. discriminate H.
  - eexists _, _. split; [vm_compute; reflexivity|].
    vm_compute. repeat split; try reflexivity.
    intros [H | []]. discriminate H.
Qed.

Lemma counter_insert_ne (m : gmap address Z) (a b : address) (v : Z) :
  a <> b -> counter (<[a := v]> m) b = counter m b.
Proof. intros H. unfold counter. now rewrite lookup_insert_ne. Qed.

(** The first loop on the scores [5000, 8000, 6000] of three distinct
    agents: the second agent is the strict maximum. *)
Lemma recordScores_three (id : Z) (A B C : address)
    (sc : gmap (Z * address) Z) (tot : gmap address Z) :
  A <> B -> A <> C -> B <> C ->
  counter tot A + 5000 <= MAX_UINT256 ->
  counter tot B + 8000 <= MAX_UINT256 ->
  counter tot C + 6000 <= MAX_UINT256 ->
  exists sc' tot',
    recordScores id [A; B; C] [5000; 8000; 6000] sc tot 0 0
    = Ok (sc', tot', B, 8000).
Proof.
  intros AB AC BC HA HB HC. cbn [recordScores].
  rewrite add_fits by assumption. cbn [bind].
  change (0 <? 5000) with true. cbv iota.
  rewrite counter_insert_ne by assumption.
  rewrite add_fits by assumption. cbn [bind].
  change (5000 <? 8000) with true. cbv iota.
  rewrite !counter_insert_ne by assumption.
  rewrite add_fits by assumption. cbn [bind].
  change (8000 <? 6000) with false. cbv iota.
  eexists _, _. reflexivity.
Qed.

(** C8. Three distinct agents proposed in an open epoch; the scorer
    finalizes it with the matching agent list and the scores
    [5000, 8000, 6000]. The call succeeds, records the second agent as the
    winner with score 8000, and leaves the pool with exactly the fee, beta
    and mode of the second agent's proposal. *)
Theorem epoch_determinism (self : address) (e : state) (p : EvoPool.state)
    (now blk id : Z) (pA pB pC : Proposal) :
  proposalsOf e id = [pA; pB; pC] ->
  proposalCount (epochOf e id) = 3 ->
  finalized (epochOf e id) = false ->
  id <= currentEpochId e ->
  agent pA <> agent pB -> agent pA <> agent pC -> agent pB <> agent pC ->
  feeBps pB <= 500 -> 0 <= curveMode pB <= 2 ->
  self = EvoPool.controller p \/ self = EvoPool.epochManager p ->
  counter (totalScore e) (agent pA) + 5000 <= MAX_UINT256 ->
  counter (totalScore e) (agent pB) + 8000 <= MAX_UINT256 ->
  counter (totalScore e) (agent pC) + 6000 <= MAX_UINT256 ->
  in_range e now (agent pB) ->
  exists e' p',
    finalizeEpoch self e p (scorer e) now blk id
      [agent pA; agent pB; agent pC] [5000; 8000; 6000] = Ok (e', p') /\
    winner (epochOf e' id) = agent pB /\
    winnerScore (epochOf e' id) = 8000 /\
    finalized (epochOf e' id) = true /\
    EvoPool.feeBps p' = feeBps pB /\
    EvoPool.curveBeta p' = curveBeta pB /\
    EvoPool.uint8_of_mode (EvoPool.curveMode p') = curveMode pB.
Proof.
  intros Hps Hcount Hfin Hid AB AC BC Hfee Hmode Hauth HA HB HC Hrange.
  destruct (recordScores_three id _ _ _ (agentScores e) (totalScore e)
              AB AC BC HA HB HC) as (sc & tot & Hrec).
  destruct (finalizeEpoch_applies self e p now blk id
              [agent pA; agent pB; agent pC] [5000; 8000; 6000] sc tot
              (agent pB) 8000 pB) as (e' & mode & E & Hm & Hep & _);
    try assumption; try reflexivity; try discriminate.
  - rewrite Hps. unfold proposalOf. simpl.
    replace (agent pA =? agent pB) with false
      by (symmetry; now apply Z.eqb_neq).
    now rewrite Z.eqb_refl.
  - eexists _, _. split; [exact E|]. rewrite Hep.
    repeat split; assumption.
Qed.

Lemma epoch_determinism_witness :
  exists e3 e' p',
    (let! e := submitProposal arena registry AGENT_A 1001 50 6000 1 in
     let! e := submitProposal e registry AGENT_B 1002 40 5500 0 in
     submitProposal e registry AGENT_C 1003 45 7000 2) = Ok e3 /\
    finalizeEpoch EPOCH_MANAGER e3 (funded EvoPool.Defensive) SCORER 1700 9 1
      [AGENT_A; AGENT_B; AGENT_C] [5000; 8000; 6000] = Ok (e', p') /\
    winner (epochOf e' 1) = AGENT_B /\
    winnerScore (epochOf e' 1) = 8000 /\
    EvoPool.feeBps p' = 40 /\ EvoPool.curveBeta p' = 5500 /\
    EvoPool.curveMode p' = EvoPool.Normal.
Proof.
  eassert (E3 : (let! e := submitProposal arena registry AGENT_A 1001
                             50 6000 1 in
                 let! e := submitProposal e registry AGENT_B 1002
                             40 5500 0 in
                 submitProposal e registry AGENT_C 1003 45 7000 2) = Ok _)
    by (vm_compute; reflexivity).
  match type of E3 with
  | _ = Ok ?e3 =>
      exists e3;
      destruct (epoch_determinism EPOCH_MANAGER e3 (funded EvoPool.Defensive)
                  1700 9 1
                  (mkProposal AGENT_A 50 6000 1 1001)
                  (mkProposal AGENT_B 40 5500 0 1002)
                  (mkProposal AGENT_C 45 7000 2 1003))
        as (e' & p' & E & Hw & Hs & _ & Hf & Hb & Hm)
  end.
  - vm_compute. reflexivity.
  - vm_compute. reflexivity.
  - vm_compute. reflexivity.
  - vm_compute. discriminate.
  - vm_compute. discriminate.
  - vm_compute. discriminate.
  - vm_compute. discriminate.
  - vm_compute. discriminate.
  - split; vm_compute; discriminate.
  - right. reflexivity.
  - vm_compute. discriminate.
  - vm_compute. discriminate.
  - vm_compute. discriminate.
  - repeat split; vm_compute; (reflexivity || discriminate).
  - exists e', p'. split; [exact E3|]. split; [exact E|].
    repeat split; try assumption.
    destruct (EvoPool.curveMode p'); (reflexivity || discriminate Hm).
Defined.

(** [submitProposal] stores whatever [curveBeta] it is given: a call that
    is accepted with one beta is accepted with any other, and the proposal
    appended to the epoch carries that beta. *)
Lemma submitProposal_any_beta (e : state) (c : AgentController.state)
    (sender : address) (now fee beta1 beta2 m : Z) (e1 : state) :
  submitProposal e c sender now fee beta1 m = Ok e1 ->
  exists e2,
    submitProposal e c sender now fee beta2 m = Ok e2 /\
    last (proposalsOf e2 (currentEpochId e2))
    = Some (mkProposal sender fee beta2 m now).
Proof.
  unfold submitProposal. intros H.
  unbind H as e0 E0. rewrite E0. cbn [bind]. cbv zeta in *.
  uncheck H as C0. uncheck H as C1. uncheck H as C2. uncheck H as C3.
  uncheck H as C4. unbind H as n E1. unbind H as k E2.
  rewrite C0, C1, C2, C3, C4, E1, E2. cbn [require bind].
  eexists. split; [reflexivity|].
  unfold proposalsOf.
  cbn [currentEpochId epochProposals set_epochs set_clock set_proposals].
  rewrite lookup_insert_eq. cbn [default]. apply last_snoc.
Qed.

(** C9. No bound of any kind is placed on [curveBeta]:
    - [updateParameters], from an authorized caller with a fee of at most
      500, succeeds for every beta and stores it;
    - [submitProposal] accepts every beta and records it;
    - [finalizeEpoch] forwards the beta of the winning proposal, whatever
      it is and whatever beta the pool currently has. *)
Theorem curveBeta_is_unbounded :
  (forall (p : EvoPool.state) (sender : address) (blk fee beta : Z)
          (m : EvoPool.CurveMode) (a : address),
     sender = EvoPool.controller p \/ sender = EvoPool.epochManager p ->
     fee <= 500 ->
     exists p',
       EvoPool.updateParameters p sender blk fee beta m a = Ok p' /\
       EvoPool.curveBeta p' = beta) /\
  (forall (e : state) (c : AgentController.state) (sender : address)
          (now fee beta1 beta2 m : Z) (e1 : state),
     submitProposal e c sender now fee beta1 m = Ok e1 ->
     exists e2,
       submitProposal e c sender now fee beta2 m = Ok e2 /\
       last (proposalsOf e2 (currentEpochId e2))
       = Some (mkProposal sender fee beta2 m now)) /\
  (forall (self : address) (e : state) (p : EvoPool.state) (now blk id : Z)
          (agents : list address) (scores : list Z)
          (sc : gmap (Z * address) Z) (tot : gmap address Z)
          (best : address) (bestScore : Z) (q : Proposal),
     finalized (epochOf e id) = false ->
     proposalCount (epochOf e id) = Z.of_nat (length agents) ->
     agents <> [] -> length agents = length scores ->
     id <= currentEpochId e ->
     recordScores id agents scores (agentScores e) (totalScore e) 0 0
       = Ok (sc, tot, best, bestScore) ->
     proposalOf (proposalsOf e id) best = Some q ->
     feeBps q <= 500 -> 0 <= curveMode q <= 2 ->
     self = EvoPool.controller p \/ self = EvoPool.epochManager p ->
     in_range e now best ->
     exists e' p',
       finalizeEpoch self e p (scorer e) now blk id agents scores
         = Ok (e', p') /\
       EvoPool.curveBeta p' = curveBeta q).
Proof.
  split; [|split].
  - intros p sender blk fee beta m a Hauth Hfee.
    eexists. split; [now apply updateParameters_Ok | reflexivity].
  - intros. eapply submitProposal_any_beta. eassumption.
  - intros self e p now blk id agents scores sc tot best bestScore q
           Hfin Hcount Hne Hlen Hid Hrec Hq Hfee Hmode Hauth Hrange.
    destruct (finalizeEpoch_applies self e p now blk id agents scores sc tot
                best bestScore q Hfin Hcount Hne Hlen Hid Hrec Hq Hfee Hmode
                Hauth Hrange) as (e' & mode & E & _).
    eexists _, _. split; [exact E | reflexivity].
Qed.

Lemma curveBeta_is_unbounded_witness :
  (exists p',
     EvoPool.updateParameters (funded EvoPool.Normal) CONTROLLER 1 30
       MAX_UINT256 EvoPool.Defensive AGENT_A = Ok p' /\
     EvoPool.curveBeta p' = MAX_UINT256) /\
  (exists e2,
     submitProposal arena registry AGENT_A 1001 50 MAX_UINT256 1 = Ok e2 /\
     last (proposalsOf e2 (currentEpochId e2))
     = Some (mkProposal AGENT_A 50 MAX_UINT256 1 1001)) /\
  (exists e2 e' p',
     submitProposal arena registry AGENT_A 1001 50 MAX_UINT256 1 = Ok e2 /\
     finalizeEpoch EPOCH_MANAGER e2 (funded EvoPool.Normal) SCORER 1700 9 1
       [AGENT_A] [7000] = Ok (e', p') /\
     EvoPool.curveBeta p' = MAX_UINT256).
Proof.
  destruct curveBeta_is_unbounded as (Hu & Hs & Hf).
  split; [|split].
  - apply Hu; [left; reflexivity | lia].
  - apply (Hs arena registry AGENT_A 1001 50 6000 MAX_UINT256 1 arena_one).
    vm_compute. reflexivity.
  - eassert (E2 : submitProposal arena registry AGENT_A 1001 50
                    MAX_UINT256 1 = Ok _) by (vm_compute; reflexivity).
    match type of E2 with
    | _ = Ok ?e2 =>
        exists e2;
        edestruct (Hf EPOCH_MANAGER e2 (funded EvoPool.Normal) 1700 9 1
                     [AGENT_A] [7000])
          with (q := mkProposal AGENT_A 50 MAX_UINT256 1 1001)
          as (e' & p' & E & Hb)
    end.
    + vm_compute. reflexivity.
    + vm_compute. reflexivity.
    + discriminate.
    + reflexivity.
    + vm_compute. discriminate.
    + vm_compute. reflexivity.
    + vm_compute. reflexivity.
    + vm_compute. discriminate.
    + split; vm_compute; discriminate.
    + right. reflexivity.
    + repeat split; vm_compute; (reflexivity || discriminate).
    + exists e', p'. split; [exact E2|]. split; [exact E | exact Hb].
Defined.

End EpochFacts.

(** Close a goal about concrete numbers by evaluation. *)
Ltac by_compute := solve [vm_compute; (reflexivity || discriminate)].

(** Unfold a successful monadic run in the hypotheses, step by step. *)
Ltac peel :=
  repeat match goal with
  | H : bind (require _ _) _ = Ok _ |- _ =>
      let C := fresh "C" in uncheck H as C
  | H : bind _ _ = Ok _ |- _ =>
      let x := fresh "x" in let E := fresh "E" in unbind H as x E
  | H : (let (_, _) := ?x in _) = Ok _ |- _ => destruct x
  | H : Revert _ = Ok _ |- _ => discriminate H
  | H : require _ _ = Ok _ |- _ => apply require_Ok in H
  | H : EvoPool.pushed _ = Ok _ |- _ => apply require_Ok in H
  | H : EvoPool.measure ?r = Ok _ |- _ =>
      destruct r; [discriminate H | injection H as H]
  end.

(** ** More on the pool: liquidity, the square root, the oracle *)

Section PoolMore.
Import EvoPool PoolSpec PoolRuns Scenario MoreScenario.

(** One Babylonian step from any positive [x] stays at or above the root. *)
Lemma babylonian_above (y x : Z) :
  0 <= y -> 0 < x -> Z.sqrt y <= (y / x + x) / 2.
Proof.
  intros Hy Hx. apply Z.div_le_lower_bound; [lia|].
  pose proof (Z.sqrt_spec y Hy) as [Hs _].
  pose proof (Z.sqrt_nonneg y) as Hs0.
  pose proof (Z.mul_succ_div_gt y x Hx) as Hq.
  assert (Hq0 : 0 <= y / x) by (apply Z.div_pos; lia).
  set (s := Z.sqrt y) in *. set (q := y / x) in *.
  destruct (Z.le_gt_cases (2 * s) (q + x)) as [H | H]; [exact H|].
  exfalso.
  assert (H1 : (q + 1 + x) * (q + 1 + x) <= (2 * s) * (2 * s))
    by (apply Z.mul_le_mono_nonneg; lia).
  pose proof (Z.square_nonneg (q + 1 - x)) as H2.
  lia.
Qed.

(** From above the root, one step at least halves the distance to it. *)
Lemma babylonian_halves (y x : Z) :
  0 <= y -> Z.sqrt y < x ->
  (y / x + x) / 2 <= Z.sqrt y + (x - Z.sqrt y) / 2.
Proof.
  intros Hy Hx.
  pose proof (Z.sqrt_spec y Hy) as [_ Hs].
  pose proof (Z.sqrt_nonneg y) as Hs0.
  set (s := Z.sqrt y) in *.
  assert (Hq : y / x < s + 1).
  { apply Z.div_lt_upper_bound; [lia|]. nia. }
  replace (s + (x - s) / 2) with ((s * 2 + (x - s)) / 2)
    by (rewrite Z.div_add_l by lia; reflexivity).
  apply Z.div_le_mono; lia.
Qed.

Lemma sqrt_loop_converges (y : Z) (n : nat) :
  0 <= y -> 0 < Z.sqrt y ->
  forall (fuel : nat) (z x : Z),
    (n + 2 <= fuel)%nat ->
    Z.sqrt y <= x -> Z.sqrt y <= z -> (z <= x -> z = Z.sqrt y) ->
    x - Z.sqrt y < 2 ^ Z.of_nat n ->
    _sqrt_loop fuel y z x = Ok (Z.sqrt y).
Proof.
  intros Hy Hs. set (s := Z.sqrt y) in *.
  assert (Hstop : forall fuel z, (1 <= fuel)%nat -> s <= z ->
            _sqrt_loop (S fuel) y z s = Ok s).
  { intros fuel z Hf Hz. cbn [_sqrt_loop].
    destruct (Z.ltb_spec s z) as [Hlt | Hge].
    - destruct fuel as [|fuel]; [lia|]. cbn [_sqrt_loop].
      pose proof (babylonian_above y s Hy Hs) as Ha. fold s in Ha.
      destruct (Z.ltb_spec ((y / s + s) / 2) s); [lia | reflexivity].
    - f_equal. lia. }
  induction n as [|n IH]; intros fuel z x Hfuel Hx Hz Hzx Hd.
  - assert (x = s) by (change (2 ^ Z.of_nat 0) with 1 in Hd; lia). subst x.
    destruct fuel as [|fuel]; [lia|].
    destruct (Z.le_gt_cases z s) as [Hle | Hgt].
    + cbn [_sqrt_loop]. destruct (Z.ltb_spec s z); [lia|]. f_equal. lia.
    + apply Hstop; lia.
  - destruct fuel as [|fuel]; [lia|].
    destruct (Z.eq_dec x s) as [-> | Hne].
    { destruct (Z.le_gt_cases z s) as [Hle | Hgt].
      - cbn [_sqrt_loop]. destruct (Z.ltb_spec s z); [lia|]. f_equal. lia.
      - apply Hstop; lia. }
    cbn [_sqrt_loop]. destruct (Z.ltb_spec x z) as [Hlt | Hge].
    + assert (Hxs : s < x) by lia.
      pose proof (babylonian_halves y x Hy Hxs) as Hh. fold s in Hh.
      apply IH.
      * lia.
      * apply babylonian_above; lia.
      * exact Hx.
      * intros Hle. exfalso.
        assert ((x - s) / 2 < x - s) by (apply Z.div_lt; lia). lia.
      * rewrite Nat2Z.inj_succ, Z.pow_succ_r in Hd by lia.
        assert ((x - s) / 2 < 2 ^ Z.of_nat n)
          by (apply Z.div_lt_upper_bound; lia).
        lia.
    + f_equal. apply Hzx. lia.
Qed.

(** The loop of [_sqrt] ends well inside its fuel on every [uint256] and
    returns the integer square root. *)
Lemma sqrt_root (y : Z) :
  0 <= y <= MAX_UINT256 -> _sqrt y = Ok (Z.sqrt y).
Proof.
  intros [Hy Hmax]. unfold _sqrt.
  destruct (Z.ltb_spec 3 y) as [H3 | H3].
  - assert (Hs2 : 2 <= Z.sqrt y).
    { change 2 with (Z.sqrt 4). apply Z.sqrt_le_mono. lia. }
    pose proof (Z.sqrt_spec y Hy) as [Hlo _].
    assert (Hhalf : Z.sqrt y <= y / 2).
    { apply Z.div_le_lower_bound; [lia|]. nia. }
    unfold MAX_UINT256 in Hmax.
    assert (Hy2 : y / 2 <= y) by (apply Z.div_le_upper_bound; lia).
    assert (Hy3 : y / 2 + 1 < y).
    { assert (y / 2 * 2 <= y) by (rewrite Z.mul_comm; apply Z.mul_div_le; lia).
      lia. }
    apply (sqrt_loop_converges y 256); lia.
  - destruct (Z.eqb_spec y 0) as [-> | Hne]; [reflexivity|]. cbn [negb].
    assert (y = 1 \/ y = 2 \/ y = 3) as [-> | [-> | ->]] by lia;
      reflexivity.
Qed.

(** X1. [_sqrt] returns, for every [uint256], the floor of the square
    root. *)
Theorem sqrt_is_floor_root (y : Z) :
  0 <= y <= MAX_UINT256 ->
  exists z, _sqrt y = Ok z /\ 0 <= z /\ z * z <= y < (z + 1) * (z + 1).
Proof.
  intros H. exists (Z.sqrt y). split; [now apply sqrt_root|].
  split; [apply Z.sqrt_nonneg|].
  pose proof (Z.sqrt_spec y (proj1 H)) as Hs.
  unfold Z.succ in Hs. exact Hs.
Qed.

Lemma sqrt_is_floor_root_witness :
  exists z, _sqrt MAX_UINT256 = Ok z /\ 0 <= z /\
            z * z <= MAX_UINT256 < (z + 1) * (z + 1).
Proof.
  apply sqrt_is_floor_root. split; vm_compute; discriminate.
Defined.

Lemma updateTWAP_frame_shares (p : state) (ts : Z) :
  let q := _updateTWAP p ts in
  totalSupply q = totalSupply p /\ balanceOf q = balanceOf p /\
  paused q = paused p /\ controller q = controller p /\
  epochManager q = epochManager p /\ owner q = owner p.
Proof.
  unfold _updateTWAP.
  destruct ((0 <? _) && (0 <? reserve0 p) && (0 <? reserve1 p))%bool;
    simpl; repeat split; reflexivity.
Qed.

Lemma mul_fits (a b : Z) : a * b <= MAX_UINT256 -> mul a b = Ok (a * b).
Proof. intros H. unfold mul. apply Z.leb_le in H. now rewrite H. Qed.

(** X2. The first deposit into an empty pool mints the square root of the
    product of the received amounts: 1000 shares are locked at address 1
    and the rest goes to the depositor. A product whose root is below 1000
    makes the subtraction underflow, a root of exactly 1000 is rejected
    with [InsufficientLiquidity]. *)
Theorem first_deposit (p : state) (sender : address)
    (ts amount0 amount1 actual0 actual1 : Z) :
  paused p = false -> totalSupply p = 0 -> sender <> 1 ->
  amount0 <> 0 -> amount1 <> 0 ->
  0 <= actual0 -> 0 <= actual1 -> actual0 * actual1 <= MAX_UINT256 ->
  let root := Z.sqrt (actual0 * actual1) in
  let run := addLiquidity p sender ts amount0 amount1 (Pulled actual0)
               (Pulled actual1) in
  (root < 1000 -> run = Revert PanicOverflow) /\
  (root = 1000 -> run = Revert InsufficientLiquidity) /\
  (1000 < root ->
   reserve0 p + actual0 <= MAX_UINT256 ->
   reserve1 p + actual1 <= MAX_UINT256 ->
   exists p',
     run = Ok (p', root - 1000) /\
     totalSupply p' = root /\
     shares p' 1 = shares p 1 + 1000 /\
     shares p' sender = shares p sender + (root - 1000) /\
     reserve0 p' = reserve0 p + actual0 /\
     reserve1 p' = reserve1 p + actual1).
Proof.
  intros Hp Ht Hs H0 H1 Ha0 Ha1 Hprod root run.
  assert (Hroot : _sqrt (actual0 * actual1) = Ok root)
    by (apply sqrt_root; split; [nia | assumption]).
  assert (Hr0 : 0 <= root) by apply Z.sqrt_nonneg.
  assert (Hrmax : root <= MAX_UINT256).
  { assert (root <= actual0 * actual1) by (apply Z.sqrt_le_lin; nia).
    lia. }
  destruct (updateTWAP_frame p ts) as (T0 & T1 & _).
  destruct (updateTWAP_frame_shares p ts) as (Tt & Tb & _).
  assert (Hrun : run =
    (let q := _updateTWAP p ts in
     let! liquidity := sub root MINIMUM_LIQUIDITY in
     let! q1 := _mint q 1 MINIMUM_LIQUIDITY in
     check! negb (liquidity =? 0) else InsufficientLiquidity in
     let! q2 := _mint q1 sender liquidity in
     let! r0 := add (reserve0 q2) actual0 in
     let! r1 := add (reserve1 q2) actual1 in
     Ok (set_reserves q2 r0 r1, liquidity))).
  { unfold run, addLiquidity. rewrite Hp. cbn [negb require bind].
    replace (amount0 =? 0) with false by (symmetry; now apply Z.eqb_neq).
    replace (amount1 =? 0) with false by (symmetry; now apply Z.eqb_neq).
    cbn [orb negb require bind measure]. rewrite Tt, Ht. cbn [Z.eqb].
    rewrite mul_fits by assumption. cbn [bind]. rewrite Hroot. cbn [bind].
    destruct (sub root MINIMUM_LIQUIDITY); cbn [bind]; [|reflexivity].
    destruct (_mint (_updateTWAP p ts) 1 MINIMUM_LIQUIDITY); reflexivity. }
  rewrite Hrun. clear Hrun. cbv zeta. unfold MINIMUM_LIQUIDITY, sub.
  split; [|split].
  - intros Hlt. replace (1000 <=? root) with false
      by (symmetry; apply Z.leb_gt; lia). reflexivity.
  - intros Heq. rewrite Heq. cbn [Z.leb Z.compare Pos.compare
      Pos.compare_cont bind]. unfold _mint. rewrite Tt, Ht.
    rewrite add_fits by (unfold MAX_UINT256; lia). reflexivity.
  - intros Hgt Hm0 Hm1.
    replace (1000 <=? root) with true by (symmetry; apply Z.leb_le; lia).
    cbn [bind]. unfold _mint. rewrite Tt, Ht.
    rewrite add_fits by (unfold MAX_UINT256; lia). cbn [bind].
    replace (root - 1000 =? 0) with false
      by (symmetry; apply Z.eqb_neq; lia).
    cbn [negb require bind totalSupply set_shares].
    rewrite add_fits by lia. cbn [bind reserve0 reserve1 set_shares].
    rewrite T0, T1, !add_fits by lia. cbn [bind].
    eexists. split; [reflexivity|].
    unfold shares.
    cbn [totalSupply balanceOf reserve0 reserve1 set_reserves set_shares].
    rewrite Tb.
    rewrite lookup_insert_ne by congruence. rewrite lookup_insert_eq.
    rewrite lookup_insert_eq. rewrite lookup_insert_ne by congruence.
    cbn [default]. repeat split; lia.
Qed.

Lemma fresh_reachable :
  (let! p := constructor TOKEN_A TOKEN_B 30 5000 OWNER in
   let! p := setController p OWNER CONTROLLER in
   setEpochManager p OWNER EPOCH_MANAGER) = Ok fresh.
Proof. vm_compute. reflexivity. Qed.

Lemma first_deposit_witness :
  exists p',
    addLiquidity fresh LP 0 (10000 * ether) (10000 * ether)
      (Pulled (10000 * ether)) (Pulled (10000 * ether))
    = Ok (p', 10000 * ether - 1000) /\
    totalSupply p' = 10000 * ether /\ shares p' 1 = 1000.
Proof.
  destruct (first_deposit fresh LP 0 (10000 * ether) (10000 * ether)
              (10000 * ether) (10000 * ether))
    as (_ & _ & H);
    [by_compute | by_compute | by_compute | by_compute | by_compute
    | by_compute | by_compute | by_compute |].
  assert (Hr : Z.sqrt (10000 * ether * (10000 * ether)) = 10000 * ether)
    by (vm_compute; reflexivity).
  rewrite Hr in H.
  destruct H as (p' & E & Ht & H1 & _); [by_compute | by_compute ..|].
  exists p'. split; [exact E|]. split; [exact Ht | exact H1].
Defined.

(** What a successful [removeLiquidity] did. *)
Lemma removeLiquidity_Ok_inv (p : state) (sender : address)
    (ts liquidity : Z) (sent0 sent1 : bool) (p' : state) (out0 out1 : Z) :
  removeLiquidity p sender ts liquidity sent0 sent1 = Ok (p', (out0, out1)) ->
  liquidity <> 0 /\ liquidity <= shares p sender /\ totalSupply p <> 0 /\
  out0 = liquidity * reserve0 p / totalSupply p /\
  out1 = liquidity * reserve1 p / totalSupply p /\
  out0 <> 0 /\ out1 <> 0 /\ out0 <= reserve0 p /\ out1 <= reserve1 p /\
  reserve0 p' = reserve0 p - out0 /\ reserve1 p' = reserve1 p - out1 /\
  totalSupply p' = totalSupply p - liquidity /\
  shares p' sender = shares p sender - liquidity /\
  feeBps p' = feeBps p /\ protocolFeeBps p' = protocolFeeBps p.
Proof.
  unfold removeLiquidity. intros H.
  destruct (updateTWAP_frame p ts) as (T0 & T1 & Tf & _ & _ & Tp & _).
  destruct (updateTWAP_frame_shares p ts) as (Tt & Tb & _).
  set (q := _updateTWAP p ts) in *.
  peel. injection H as <- <- <-.
  unfold _burn in E3. peel. injection E3 as <-.
  apply negb_true_iff, Z.eqb_neq in C.
  apply negb_true_iff, Z.ltb_ge in C0.
  apply negb_true_iff, orb_false_iff in C1 as [N0 N1].
  apply Z.eqb_neq in N0, N1.
  arith_inv. subst.
  unfold shares in *.
  cbn [reserve0 reserve1 totalSupply balanceOf feeBps protocolFeeBps
       set_shares set_reserves] in *.
  rewrite lookup_insert_eq. cbn [default].
  rewrite ?T0, ?T1, ?Tt, ?Tb, ?Tf, ?Tp in *.
  repeat split; (assumption || lia).
Qed.



(** What a successful [addLiquidity] did. *)
Lemma addLiquidity_Ok_inv (p : state) (sender : address)
    (ts amount0 amount1 : Z) (received0 received1 : pulled) (p' : state)
    (liquidity : Z) :
  addLiquidity p sender ts amount0 amount1 received0 received1
    = Ok (p', liquidity) ->
  exists actual0 actual1,
    received0 = Pulled actual0 /\ received1 = Pulled actual1 /\
    paused p = false /\ liquidity <> 0 /\
    reserve0 p' = reserve0 p + actual0 /\
    reserve1 p' = reserve1 p + actual1 /\
    feeBps p' = feeBps p /\ protocolFeeBps p' = protocolFeeBps p /\
    curveBeta p' = curveBeta p /\ curveMode p' = curveMode p /\
    (totalSupply p <> 0 ->
     reserve0 p <> 0 /\ reserve1 p <> 0 /\
     liquidity = Z.min (actual0 * totalSupply p / reserve0 p)
                       (actual1 * totalSupply p / reserve1 p) /\
     totalSupply p' = totalSupply p + liquidity /\
     shares p' sender = shares p sender + liquidity).
Proof.
  unfold addLiquidity. intros H.
  destruct (updateTWAP_frame p ts)
    as (T0 & T1 & Tf & Tbeta & Tm & Tp & _).
  destruct (updateTWAP_frame_shares p ts) as (Tt & Tb & _).
  set (q := _updateTWAP p ts) in *.
  uncheck H as C0. uncheck H as C1.
  unbind H as actual0 E0. unbind H as actual1 E1. unbind H as pl E2.
  destruct pl as [q1 l]. uncheck H as C2. unbind H as q2 E3.
  unbind H as r0 E4. unbind H as r1 E5. injection H as <- <-.
  destruct received0 as [|a0]; [discriminate|]. injection E0 as <-.
  destruct received1 as [|a1]; [discriminate|]. injection E1 as <-.
  exists a0, a1. apply negb_true_iff in C0.
  apply negb_true_iff, Z.eqb_neq in C2.
  unfold _mint in E3. unbind E3 as ts2 E3a. injection E3 as <-.
  cbn [reserve0 reserve1 set_shares] in E4, E5.
  assert (Hq1 : reserve0 q1 = reserve0 p /\ reserve1 q1 = reserve1 p /\
                feeBps q1 = feeBps p /\ protocolFeeBps q1 = protocolFeeBps p
                /\ curveBeta q1 = curveBeta p /\ curveMode q1 = curveMode p
                /\ (totalSupply p <> 0 ->
                    q1 = q /\ reserve0 p <> 0 /\ reserve1 p <> 0 /\
                    l = Z.min (a0 * totalSupply p / reserve0 p)
                              (a1 * totalSupply p / reserve1 p))).
  { rewrite Tt in E2. destruct (Z.eqb_spec (totalSupply p) 0) as [Hz | Hnz].
    - unbind E2 as pr Ea. unbind E2 as root Eb. unbind E2 as l0 Ec.
      unbind E2 as q0 Ed. injection E2 as <- <-.
      unfold _mint in Ed. unbind Ed as t0 Ee. injection Ed as <-.
      simpl. repeat split; try assumption; contradiction.
    - unbind E2 as n0 Ea. unbind E2 as liq0 Eb. unbind E2 as n1 Ec.
      unbind E2 as liq1 Ed. injection E2 as <- <-.
      rewrite T0, T1 in *. arith_inv. subst.
      split; [reflexivity|]. split; [reflexivity|].
      split; [assumption|]. split; [assumption|].
      split; [assumption|]. split; [assumption|]. intros _.
      split; [reflexivity|]. split; [assumption|]. split; [assumption|].
      unfold Z.min. destruct (Z.ltb_spec (a0 * totalSupply p / reserve0 p)
                                (a1 * totalSupply p / reserve1 p));
        destruct (Z.compare_spec (a0 * totalSupply p / reserve0 p)
                    (a1 * totalSupply p / reserve1 p)); lia. }
  destruct Hq1 as (Q0 & Q1 & Qf & Qp & Qbeta & Qm & Hsub).
  arith_inv. subst r0 r1.
  cbn [reserve0 reserve1 feeBps protocolFeeBps curveBeta curveMode
       totalSupply balanceOf set_reserves set_shares].
  rewrite Q0, Q1.
  split; [reflexivity|]. split; [reflexivity|]. split; [assumption|].
  split; [assumption|]. split; [reflexivity|]. split; [reflexivity|].
  split; [assumption|]. split; [assumption|]. split; [assumption|].
  split; [assumption|].
  intros Hnz. destruct (Hsub Hnz) as (-> & R0 & R1 & Hl).
  split; [assumption|]. split; [assumption|]. split; [assumption|].
  split.
  - rewrite Tt in *. lia.
  - unfold shares. cbn [balanceOf set_shares set_reserves].
    rewrite lookup_insert_eq, Tb. reflexivity.
Qed.

(** X3. Depositing into a pool that already has liquidity and at once
    withdrawing the shares just minted returns no more of either token
    than was deposited. *)
Theorem deposit_then_withdraw_no_gain (p : state) (sender : address)
    (ts ts' amount0 amount1 actual0 actual1 : Z) (sent0 sent1 : bool)
    (p1 p2 : state) (liquidity out0 out1 : Z) :
  0 < totalSupply p -> 0 < reserve0 p -> 0 < reserve1 p ->
  0 <= actual0 -> 0 <= actual1 ->
  addLiquidity p sender ts amount0 amount1 (Pulled actual0) (Pulled actual1)
    = Ok (p1, liquidity) ->
  removeLiquidity p1 sender ts' liquidity sent0 sent1
    = Ok (p2, (out0, out1)) ->
  out0 <= actual0 /\ out1 <= actual1.
Proof.
  intros Ht H0 H1 Ha0 Ha1 Hadd Hrem.
  apply addLiquidity_Ok_inv in Hadd
    as (a0 & a1 & [= <-] & [= <-] & _ & Hl & R0 & R1 & _ & _ & _ & _ & Hsub).
  destruct Hsub as (_ & _ & Hmin & Hsup & _); [lia|].
  apply removeLiquidity_Ok_inv in Hrem
    as (_ & _ & _ & -> & -> & _).
  rewrite R0, R1, Hsup.
  set (T := totalSupply p) in *. set (r0 := reserve0 p) in *.
  set (r1 := reserve1 p) in *.
  assert (L0 : liquidity <= actual0 * T / r0) by lia.
  assert (L1 : liquidity <= actual1 * T / r1) by lia.
  assert (M0 : actual0 * T / r0 * r0 <= actual0 * T)
    by (rewrite Z.mul_comm; apply Z.mul_div_le; lia).
  assert (M1 : actual1 * T / r1 * r1 <= actual1 * T)
    by (rewrite Z.mul_comm; apply Z.mul_div_le; lia).
  assert (Hl0 : 0 <= liquidity).
  { assert (0 <= actual0 * T / r0) by (apply Z.div_pos; nia).
    assert (0 <= actual1 * T / r1) by (apply Z.div_pos; nia). lia. }
  split; apply Z.div_le_upper_bound; nia.
Qed.

Lemma deposit_then_withdraw_no_gain_witness :
  exists p1 l p2 out0 out1,
    addLiquidity (funded Normal) TRADER 0 (3 * ether) (7 * ether)
      (Pulled (3 * ether)) (Pulled (7 * ether)) = Ok (p1, l) /\
    removeLiquidity p1 TRADER 5 l true true = Ok (p2, (out0, out1)) /\
    out0 <= 3 * ether /\ out1 <= 7 * ether.
Proof.
  eassert (E1 : addLiquidity (funded Normal) TRADER 0 (3 * ether)
                  (7 * ether) (Pulled (3 * ether)) (Pulled (7 * ether))
                = Ok (_, _)) by (vm_compute; reflexivity).
  match type of E1 with
  | _ = Ok (?p1, ?l) =>
      eassert (E2 : removeLiquidity p1 TRADER 5 l true true
                    = Ok (_, (_, _))) by (vm_compute; reflexivity)
  end.
  assert (Ht : 0 < totalSupply (funded Normal)) by by_compute.
  assert (H0 : 0 < reserve0 (funded Normal)) by by_compute.
  assert (H1 : 0 < reserve1 (funded Normal)) by by_compute.
  assert (Ha0 : 0 <= 3 * ether) by by_compute.
  assert (Ha1 : 0 <= 7 * ether) by by_compute.
  eexists _, _, _, _, _. split; [exact E1|]. split; [exact E2|].
  exact (deposit_then_withdraw_no_gain _ _ _ _ _ _ _ _ _ _ _ _ _ _ _
           Ht H0 H1 Ha0 Ha1 E1 E2).
Defined.

(** X4. A successful swap pays strictly less than the output-side reserve:
    that reserve stays positive whatever the curve mode and the fee. *)
Theorem swap_never_drains_output (p : state) (ts : Z) (zf : bool)
    (amountIn minOut : Z) (received : pulled) (sent : bool) (p' : state)
    (out : Z) :
  0 < reserve0 p -> 0 < reserve1 p ->
  swap p ts zf amountIn minOut received sent = Ok (p', out) ->
  0 <= out < reserveOut p zf /\ 0 < reserveOut p' zf.
Proof.
  intros H0 H1 H.
  apply swap_Ok_inv in H
    as (a & eff & _ & _ & _ & _ & _ & _ & Hfee & Hden & Hout & _ & _ & _
        & Hou & _).
  set (aAF := eff - eff * feeBps p / 10000) in *.
  assert (HrI : 0 < reserveIn p zf) by (unfold reserveIn; destruct zf; lia).
  assert (HrO : 0 < reserveOut p zf)
    by (unfold reserveOut; destruct zf; lia).
  assert (Ha : 0 <= aAF) by (unfold aAF; lia).
  assert (Hlt : out < reserveOut p zf).
  { rewrite Hout. apply Z.div_lt_upper_bound; [lia | nia]. }
  assert (Hge : 0 <= out) by (rewrite Hout; apply Z.div_pos; nia).
  rewrite Hou. lia.
Qed.

Lemma swap_never_drains_output_witness :
  exists p' out,
    swap (funded Defensive) 0 true (2000 * ether) 0 (Pulled (2000 * ether))
      true = Ok (p', out) /\
    0 <= out < reserve1 (funded Defensive) /\ 0 < reserveOut p' true.
Proof.
  eassert (E : swap (funded Defensive) 0 true (2000 * ether) 0
                 (Pulled (2000 * ether)) true = Ok (_, _))
    by (vm_compute; reflexivity).
  assert (H0 : 0 < reserve0 (funded Defensive)) by by_compute.
  assert (H1 : 0 < reserve1 (funded Defensive)) by by_compute.
  eexists _, _. split; [exact E|].
  exact (swap_never_drains_output _ _ _ _ _ _ _ _ _ H0 H1 E).
Defined.

Lemma swap_normal_k_nondecreasing_witness :
  exists p' out,
    swap skimming 0 true (100 * ether) 0 (Pulled (100 * ether)) true
      = Ok (p', out) /\ k skimming <= k p'.
Proof.
  eassert (E : swap skimming 0 true (100 * ether) 0 (Pulled (100 * ether))
                 true = Ok (_, _)) by (vm_compute; reflexivity).
  assert (Hm : curveMode skimming = Normal) by reflexivity.
  assert (H0 : 0 <= reserve0 skimming) by by_compute.
  assert (H1 : 0 <= reserve1 skimming) by by_compute.
  assert (Ha : 0 <= 100 * ether) by by_compute.
  assert (Hf : 0 <= feeBps skimming) by by_compute.
  assert (Hp : 0 <= protocolFeeBps skimming <= 10000)
    by (split; by_compute).
  eexists _, _. split; [exact E|].
  exact (swap_normal_k_nondecreasing _ _ _ _ _ _ _ _ _ Hm H0 H1 Ha Hf Hp E).
Defined.

Lemma applyCurve_defensive_upper_witness :
  exists eff,
    _applyCurve (funded Defensive) (2000 * ether) true = Ok eff /\
    2000 * ether <= eff /\
    (eff - 2000 * ether) * 10000
    * (reserve0 (funded Defensive) * reserve0 (funded Defensive))
    <= curveBeta (funded Defensive)
       * (2000 * ether * (2000 * ether) * (2000 * ether)).
Proof.
  eassert (E : _applyCurve (funded Defensive) (2000 * ether) true = Ok _)
    by (vm_compute; reflexivity).
  assert (Hm : curveMode (funded Defensive) = Defensive) by reflexivity.
  assert (Ha : 0 <= 2000 * ether) by by_compute.
  assert (Hr : 0 < reserveIn (funded Defensive) true) by by_compute.
  assert (Hb : 0 <= curveBeta (funded Defensive)) by by_compute.
  eexists. split; [exact E|].
  exact (applyCurve_defensive_upper _ _ _ _ Hm Ha Hr Hb E).
Defined.

Lemma applyCurve_volatility_noop_witness :
  exists eff,
    _applyCurve (funded VolatilityAdaptive) (500 * ether) true = Ok eff /\
    eff = 500 * ether.
Proof.
  eassert (E : _applyCurve (funded VolatilityAdaptive) (500 * ether) true
               = Ok _) by (vm_compute; reflexivity).
  assert (Hm : curveMode (funded VolatilityAdaptive) = VolatilityAdaptive)
    by reflexivity.
  assert (Ha : 0 <= 500 * ether) by by_compute.
  assert (Hr : 0 < reserveIn (funded VolatilityAdaptive) true)
    by by_compute.
  assert (Hb : 0 <= curveBeta (funded VolatilityAdaptive)) by by_compute.
  assert (Hs : curveBeta (funded VolatilityAdaptive) * (500 * ether)
               < 10000 * reserveIn (funded VolatilityAdaptive) true)
    by by_compute.
  eexists. split; [exact E|].
  exact (applyCurve_volatility_noop _ _ _ _ Hm Ha Hr Hb Hs E).
Defined.

(** X8. The oracle accumulates once per timestamp: a second update at the
    same [block.timestamp] changes nothing. *)
Theorem updateTWAP_once_per_timestamp (p : state) (ts : Z) :
  _updateTWAP (_updateTWAP p ts) ts = _updateTWAP p ts.
Proof.
  unfold _updateTWAP at 2.
  destruct ((0 <? wrap32 (wrap32 ts - blockTimestampLast p))
            && (0 <? reserve0 p) && (0 <? reserve1 p))%bool eqn:Hc.
  - unfold _updateTWAP. rewrite Hc.
    cbn [blockTimestampLast reserve0 reserve1 set_twap].
    replace (wrap32 (wrap32 ts - wrap32 ts)) with 0
      by (rewrite Z.sub_diag; reflexivity).
    reflexivity.
  - unfold _updateTWAP. rewrite Hc. reflexivity.
Qed.

(** X12. [collectProtocolFees] empties both accumulators and leaves the
    reserves alone; once it has succeeded, a further call succeeds without
    touching the tokens and changes nothing. *)
Theorem collect_then_nothing_left (p p' : state) (sent0 sent1 : bool) :
  collectProtocolFees p sent0 sent1 = Ok p' ->
  protocolFeeAccum0 p' = 0 /\ protocolFeeAccum1 p' = 0 /\
  reserve0 p' = reserve0 p /\ reserve1 p' = reserve1 p /\
  forall again0 again1, collectProtocolFees p' again0 again1 = Ok p'.
Proof.
  unfold collectProtocolFees. intros H. cbv zeta in H.
  unbind H as u0 E0. unbind H as u1 E1. injection H as <-.
  split; [reflexivity|]. split; [reflexivity|]. split; [reflexivity|].
  split; [reflexivity|]. intros again0 again1. reflexivity.
Qed.

Lemma collect_then_nothing_left_witness :
  exists p',
    collectProtocolFees (set_paused halted false) true true = Ok p' /\
    protocolFeeAccum0 p' = 0 /\
    collectProtocolFees p' false false = Ok p'.
Proof.
  eassert (E : collectProtocolFees (set_paused halted false) true true
               = Ok _) by (vm_compute; reflexivity).
  destruct (collect_then_nothing_left _ _ _ _ E) as (H0 & _ & _ & _ & H).
  eexists. split; [exact E|]. split; [exact H0 | apply H].
Defined.

(** A swap touches reserves, accumulators, counters and the oracle only. *)
Lemma swap_frame (p : state) (ts : Z) (zf : bool) (amountIn minOut : Z)
    (received : pulled) (sent : bool) (p' : state) (out : Z) :
  swap p ts zf amountIn minOut received sent = Ok (p', out) ->
  feeBps p' = feeBps p /\ curveBeta p' = curveBeta p /\
  curveMode p' = curveMode p /\ protocolFeeBps p' = protocolFeeBps p.
Proof.
  unfold swap. intros H.
  destruct (updateTWAP_frame p ts) as (_ & _ & Tf & Tb & Tm & Tp & _).
  set (q := _updateTWAP p ts) in *.
  uncheck H as C0. uncheck H as C1. uncheck H as C2.
  unbind H as actualIn E0. unbind H as effectiveIn E1.
  unbind H as ef E2. unbind H as feeAmount E3. unbind H as aAF E4.
  unbind H as protocolFee E5. unbind H as num E6. unbind H as den E7.
  unbind H as amountOut E8. uncheck H as C3. unbind H as q1 E9.
  unbind H as u E10. unbind H as tc E11. unbind H as q2 E12.
  injection H as <- <-.
  assert (Hq1 : feeBps q1 = feeBps q /\ curveBeta q1 = curveBeta q /\
                curveMode q1 = curveMode q /\
                protocolFeeBps q1 = protocolFeeBps q).
  { destruct zf; unbind E9 as ra Ea; unbind E9 as rb Eb;
      destruct (0 <? protocolFee);
      try (unbind E9 as ac Ec; unbind E9 as rc Ed);
      injection E9 as <-; repeat split; reflexivity. }
  destruct Hq1 as (Qf & Qb & Qm & Qp).
  destruct zf; unbind E12 as v Ev; injection E12 as <-;
    cbn [feeBps curveBeta curveMode protocolFeeBps set_stats];
    rewrite Qf, Qb, Qm, Qp, Tf, Tb, Tm, Tp; repeat split; reflexivity.
Qed.

(** A call either keeps the swap fee or is an [updateParameters], whose
    fee passed the cap. *)
Lemma exec_keeps_or_caps_fee (p p' : state)
    (c : call) :
  exec p c = Ok p' -> feeBps p' = feeBps p \/ feeBps p' <= 500.
Proof.
  destruct c; cbn [exec]; intros H;
    try (apply updateParameters_Ok_inv in H as (_ & Hfee & ->);
         right; exact Hfee);
    left.
  - unbind H as x E. destruct x as [q o]. injection H as <-.
    now apply swap_frame in E as (Hf & _).
  - unbind H as x E. destruct x as [q l]. injection H as <-.
    now apply addLiquidity_Ok_inv in E
      as (a0 & a1 & _ & _ & _ & _ & _ & _ & Hf & _).
  - unbind H as x E. destruct x as [q [o0 o1]]. injection H as <-.
    now apply removeLiquidity_Ok_inv in E as (_ & _ & _ & _ & _ & _ & _ & _
      & _ & _ & _ & _ & _ & Hf & _).
  - unfold collectProtocolFees in H. cbv zeta in H. peel.
    now injection H as <-.
  - unfold setController in H. peel. now injection H as <-.
  - unfold setEpochManager in H. peel. now injection H as <-.
  - unfold setProtocolFee in H. peel. now injection H as <-.
  - unfold setTreasury in H. peel. now injection H as <-.
  - unfold pause in H. peel. now injection H as <-.
  - unfold unpause in H. peel. now injection H as <-.
Qed.

Lemma removeLiquidity_frame (p : state) (sender : address)
    (ts liquidity : Z) (sent0 sent1 : bool) (p' : state) (out : Z * Z) :
  removeLiquidity p sender ts liquidity sent0 sent1 = Ok (p', out) ->
  feeBps p' = feeBps p /\ curveBeta p' = curveBeta p /\
  curveMode p' = curveMode p.
Proof.
  unfold removeLiquidity. intros H.
  destruct (updateTWAP_frame p ts) as (_ & _ & Tf & Tb & Tm & _).
  set (q := _updateTWAP p ts) in *.
  peel. injection H as <- <-.
  unfold _burn in E3. peel. injection E3 as <-.
  cbn [feeBps curveBeta curveMode set_reserves set_shares]. auto.
Qed.

(** X9. The swap fee and the curve parameters of the pool change in no
    other way than by a successful [updateParameters], and only the
    controller or the epoch manager can make that call. *)
Theorem parameters_change_only_by_authorized_update (p p' : state)
    (c : call) :
  exec p c = Ok p' ->
  (feeBps p' = feeBps p /\ curveBeta p' = curveBeta p /\
   curveMode p' = curveMode p) \/
  (exists sender blk agent,
     c = UpdateParameters sender blk (feeBps p') (curveBeta p')
           (curveMode p') agent /\
     (sender = controller p \/ sender = epochManager p)).
Proof.
  destruct c; cbn [exec]; intros H.
  - unbind H as x E. destruct x as [q o]. injection H as <-.
    apply swap_frame in E as (Hf & Hb & Hm & _). left. auto.
  - unbind H as x E. destruct x as [q l]. injection H as <-.
    apply addLiquidity_Ok_inv in E
      as (a0 & a1 & _ & _ & _ & _ & _ & _ & Hf & _ & Hb & Hm & _).
    left. auto.
  - unbind H as x E. destruct x as [q [o0 o1]]. injection H as <-.
    apply removeLiquidity_frame in E. left. exact E.
  - apply updateParameters_Ok_inv in H as (Hauth & _ & ->).
    right. exists sender, blockNumber, _agent. split; [reflexivity|].
    exact Hauth.
  - unfold collectProtocolFees in H. cbv zeta in H. peel.
    injection H as <-. left. auto.
  - unfold setController in H. peel. injection H as <-. left. auto.
  - unfold setEpochManager in H. peel. injection H as <-. left. auto.
  - unfold setProtocolFee in H. peel. injection H as <-. left. auto.
  - unfold setTreasury in H. peel. injection H as <-. left. auto.
  - unfold pause in H. peel. injection H as <-. left. auto.
  - unfold unpause in H. peel. injection H as <-. left. auto.
Qed.

Lemma parameters_change_only_by_authorized_update_witness :
  exists p',
    exec (funded Normal) (UpdateParameters CONTROLLER 3 80 7000 Defensive
                            AGENT_A) = Ok p' /\
    feeBps p' = 80 /\
    exec (funded Normal) (UpdateParameters TRADER 3 80 7000 Defensive
                            AGENT_A) = Revert OnlyController.
Proof.
  eassert (E : exec (funded Normal) (UpdateParameters CONTROLLER 3 80 7000
                                       Defensive AGENT_A) = Ok _)
    by (vm_compute; reflexivity).
  eexists. split; [exact E|]. split; [|reflexivity].
  destruct (parameters_change_only_by_authorized_update _ _ _ E)
    as [(Hf & _) | (sd & blk & ag & Hc & _)].
  - vm_compute in Hf. discriminate Hf.
  - now injection Hc.
Defined.

(** X10. In every state the pool can reach, the swap fee is at most 500
    basis points and the protocol fee at most 2000 basis points of it. *)
Theorem fees_stay_capped (p : state) :
  reachable p -> feeBps p <= 500 /\ protocolFeeBps p <= 2000.
Proof.
  induction 1 as [t0 t1 fee beta o p H | p p' c Hr [IHf IHp] H].
  - unfold constructor in H. uncheck H as C0. uncheck H as C1.
    injection H as <-. apply negb_true_iff, Z.ltb_ge in C1.
    unfold MAX_FEE_BPS in C1. cbn [feeBps protocolFeeBps]. lia.
  - assert (Hp : protocolFeeBps p' <= 2000).
    { destruct c; cbn [exec] in H.
      - unbind H as x E. destruct x as [q o]. injection H as <-.
        apply swap_frame in E as (_ & _ & _ & ->). exact IHp.
      - unbind H as x E. destruct x as [q l]. injection H as <-.
        apply addLiquidity_Ok_inv in E
          as (a0 & a1 & _ & _ & _ & _ & _ & _ & _ & -> & _). exact IHp.
      - unbind H as x E. destruct x as [q [o0 o1]]. injection H as <-.
        apply removeLiquidity_Ok_inv in E as (_ & _ & _ & _ & _ & _ & _ & _
          & _ & _ & _ & _ & _ & _ & ->). exact IHp.
      - apply updateParameters_Ok_inv in H as (_ & _ & ->). exact IHp.
      - unfold collectProtocolFees in H. cbv zeta in H. peel.
        injection H as <-. exact IHp.
      - unfold setController in H. peel. injection H as <-. exact IHp.
      - unfold setEpochManager in H. peel. injection H as <-. exact IHp.
      - unfold setProtocolFee in H. peel. injection H as <-.
        apply negb_true_iff, Z.ltb_ge in C0.
        unfold MAX_PROTOCOL_FEE_BPS in C0. exact C0.
      - unfold setTreasury in H. peel. injection H as <-. exact IHp.
      - unfold pause in H. peel. injection H as <-. exact IHp.
      - unfold unpause in H. peel. injection H as <-. exact IHp. }
    split; [|exact Hp].
    destruct (exec_keeps_or_caps_fee p p' c H)
      as [-> | Hle]; [exact IHf | exact Hle].
Qed.

Lemma fees_stay_capped_witness :
  exists p,
    (let! p := constructor TOKEN_A TOKEN_B 30 5000 OWNER in
     let! p := exec p (SetController OWNER CONTROLLER) in
     exec p (UpdateParameters CONTROLLER 1 500 9000 Defensive AGENT_A))
    = Ok p /\
    feeBps p <= 500 /\ protocolFeeBps p <= 2000.
Proof.
  eassert (E0 : constructor TOKEN_A TOKEN_B 30 5000 OWNER = Ok _)
    by (vm_compute; reflexivity).
  match type of E0 with
  | _ = Ok ?p0 =>
      eassert (E1 : exec p0 (SetController OWNER CONTROLLER) = Ok _)
        by (vm_compute; reflexivity)
  end.
  match type of E1 with
  | _ = Ok ?p1 =>
      eassert (E2 : exec p1 (UpdateParameters CONTROLLER 1 500 9000
                               Defensive AGENT_A) = Ok _)
        by (vm_compute; reflexivity)
  end.
  eexists. split; [vm_compute; reflexivity|].
  exact (fees_stay_capped _
           (called _ _ _ (called _ _ _ (deployed _ _ _ _ _ _ E0) E1) E2)).
Defined.

End PoolMore.

(** ** More on the agent controller: bonds, slashing, cooldown *)

Section ControllerMore.
Import AgentController ControllerSpec Scenario MoreScenario.

Lemma getAgentInfo_insert (c : state) (a : address) (i : AgentInfo)
    (l : list address) :
  getAgentInfo (set_agents c (<[a := i]> (agents c)) l) a = i.
Proof.
  unfold getAgentInfo. cbn [agents set_agents].
  now rewrite lookup_insert_eq.
Qed.

Lemma getAgentInfo_insert_ne (c : state) (a b : address) (i : AgentInfo)
    (l : list address) :
  a <> b ->
  getAgentInfo (set_agents c (<[a := i]> (agents c)) l) b = getAgentInfo c b.
Proof.
  intros H. unfold getAgentInfo. cbn [agents set_agents].
  now rewrite lookup_insert_ne.
Qed.

(** X13. A token bond cannot leave while the agent is active; once the
    agent has deregistered, [withdrawTokenBond] hands out the whole token
    bond, the earlier one plus the deposit, and a second withdrawal finds
    nothing. *)
Theorem token_bond_round_trip (c : state) (agent : address) (amount : Z)
    (pulled refunded : bool) (c1 c2 : state) :
  0 <= tokenBondAmount (getAgentInfo c agent) -> 0 <= amount ->
  depositTokenBond c agent amount pulled = Ok c1 ->
  deregisterAgent c1 agent refunded = Ok c2 ->
  (forall sent, withdrawTokenBond c1 agent sent = Revert StillActive) /\
  exists c3,
    withdrawTokenBond c2 agent true
    = Ok (c3, tokenBondAmount (getAgentInfo c agent) + amount) /\
    tokenBondAmount (getAgentInfo c3 agent) = 0 /\
    forall sent, withdrawTokenBond c3 agent sent = Revert ZeroAmount.
Proof.
  intros Hold Hamt Hdep Hder.
  unfold depositTokenBond in Hdep.
  uncheck Hdep as C0. uncheck Hdep as C1. uncheck Hdep as C2.
  uncheck Hdep as C3. uncheck Hdep as C4. cbv zeta in Hdep.
  unbind Hdep as t E. injection Hdep as <-. apply add_Ok in E as [-> _].
  apply negb_true_iff, Z.eqb_neq in C2.
  apply deregisterAgent_Ok_inv in Hder. subst c2.
  rewrite getAgentInfo_insert.
  split.
  - intros sent. unfold withdrawTokenBond. rewrite getAgentInfo_insert.
    cbn [active set_tokenBond]. rewrite C1. reflexivity.
  - unfold withdrawTokenBond. rewrite !getAgentInfo_insert.
    cbn [active tokenBondAmount set_bond set_tokenBond negb require bind].
    replace (tokenBondAmount (getAgentInfo c agent) + amount =? 0)
      with false by (symmetry; apply Z.eqb_neq; lia).
    cbn [negb require bind]. eexists. split; [reflexivity|].
    rewrite !getAgentInfo_insert. split; [reflexivity|].
    intros sent. cbn [active tokenBondAmount set_bond set_tokenBond].
    reflexivity.
Qed.

Lemma staking_reachable :
  setBondToken registry OWNER TOKEN_A = Ok staking.
Proof. vm_compute. reflexivity. Qed.

Lemma token_bond_round_trip_witness :
  exists c1 c2 c3,
    depositTokenBond staking AGENT_A (5 * ether) true = Ok c1 /\
    withdrawTokenBond c1 AGENT_A true = Revert StillActive /\
    deregisterAgent c1 AGENT_A true = Ok c2 /\
    withdrawTokenBond c2 AGENT_A true = Ok (c3, 5 * ether) /\
    withdrawTokenBond c3 AGENT_A true = Revert ZeroAmount.
Proof.
  eassert (E1 : depositTokenBond staking AGENT_A (5 * ether) true = Ok _)
    by (vm_compute; reflexivity).
  match type of E1 with
  | _ = Ok ?c1 =>
      eassert (E2 : deregisterAgent c1 AGENT_A true = Ok _)
        by (vm_compute; reflexivity)
  end.
  assert (H0 : 0 <= tokenBondAmount (getAgentInfo staking AGENT_A))
    by by_compute.
  assert (H1 : 0 <= 5 * ether) by by_compute.
  destruct (token_bond_round_trip _ _ _ _ _ _ _ H0 H1 E1 E2)
    as (Hact & c3 & E3 & _ & Hz).
  eexists _, _, c3. split; [exact E1|]. split; [apply Hact|].
  split; [exact E2|]. split; [exact E3 | apply Hz].
Defined.

(** X14. [registerAgent] writes a whole new record: an agent that
    deregisters and registers again before withdrawing its token bond has
    that bond reset to zero in the books, and after leaving once more
    [withdrawTokenBond] finds nothing to pay. *)
Theorem reregistration_forfeits_token_bond (c : state) (agent : address)
    (amount : Z) (pulled refunded refunded' : bool) (bond now : Z)
    (c1 c2 c3 c4 : state) :
  depositTokenBond c agent amount pulled = Ok c1 ->
  deregisterAgent c1 agent refunded = Ok c2 ->
  registerAgent c2 agent bond now = Ok c3 ->
  deregisterAgent c3 agent refunded' = Ok c4 ->
  tokenBondAmount (getAgentInfo c2 agent)
    = tokenBondAmount (getAgentInfo c agent) + amount /\
  tokenBondAmount (getAgentInfo c3 agent) = 0 /\
  forall sent, withdrawTokenBond c4 agent sent = Revert ZeroAmount.
Proof.
  intros Hdep Hder Hreg Hder'.
  unfold depositTokenBond in Hdep.
  uncheck Hdep as C0. uncheck Hdep as C1. uncheck Hdep as C2.
  uncheck Hdep as C3. uncheck Hdep as C4. cbv zeta in Hdep.
  unbind Hdep as t E. injection Hdep as <-. apply add_Ok in E as [-> _].
  apply deregisterAgent_Ok_inv in Hder. subst c2.
  apply registerAgent_Ok_inv in Hreg as (_ & ->).
  apply deregisterAgent_Ok_inv in Hder'. subst c4.
  rewrite !getAgentInfo_insert. split; [reflexivity|].
  split; [reflexivity|]. intros sent.
  unfold withdrawTokenBond. rewrite !getAgentInfo_insert. reflexivity.
Qed.

Lemma reregistration_forfeits_token_bond_witness :
  exists c1 c2 c3 c4,
    depositTokenBond staking AGENT_A (5 * ether) true = Ok c1 /\
    deregisterAgent c1 AGENT_A true = Ok c2 /\
    tokenBondAmount (getAgentInfo c2 AGENT_A) = 5 * ether /\
    registerAgent c2 AGENT_A (ether / 100) 2000 = Ok c3 /\
    deregisterAgent c3 AGENT_A true = Ok c4 /\
    withdrawTokenBond c4 AGENT_A true = Revert ZeroAmount.
Proof.
  eassert (E1 : depositTokenBond staking AGENT_A (5 * ether) true = Ok _)
    by (vm_compute; reflexivity).
  match type of E1 with
  | _ = Ok ?c1 =>
      eassert (E2 : deregisterAgent c1 AGENT_A true = Ok _)
        by (vm_compute; reflexivity)
  end.
  match type of E2 with
  | _ = Ok ?c2 =>
      eassert (E3 : registerAgent c2 AGENT_A (ether / 100) 2000 = Ok _)
        by (vm_compute; reflexivity)
  end.
  match type of E3 with
  | _ = Ok ?c3 =>
      eassert (E4 : deregisterAgent c3 AGENT_A true = Ok _)
        by (vm_compute; reflexivity)
  end.
  destruct (reregistration_forfeits_token_bond _ _ _ _ _ _ _ _ _ _ _ _
              E1 E2 E3 E4) as (H2 & _ & Hz).
  eexists _, _, _, _. split; [exact E1|]. split; [exact E2|].
  split; [rewrite H2; by_compute|]. split; [exact E3|].
  split; [exact E4 | apply Hz].
Defined.

(** X15. Slashing takes exactly [amount] off the native bond, never more
    than the bond, and nothing else: the agent stays active with the same
    cooldown clock and no check against [minBond], other agents are
    untouched, and any parameter update the agent could submit before the
    slash it can still submit after it, with the same effect on the pool. *)
Theorem slashing_is_no_expulsion (c : state) (sender agent : address)
    (amount : Z) (paid : bool) (c' : state) :
  slashAgent c sender agent amount paid = Ok c' ->
  amount <= bondAmount (getAgentInfo c agent) /\
  bondAmount (getAgentInfo c' agent)
    = bondAmount (getAgentInfo c agent) - amount /\
  active (getAgentInfo c' agent) = true /\
  lastUpdateTime (getAgentInfo c' agent)
    = lastUpdateTime (getAgentInfo c agent) /\
  (forall other, other <> agent ->
     getAgentInfo c' other = getAgentInfo c other) /\
  forall self p now blk fee beta m c2 p2,
    submitParameterUpdate self c p agent now blk fee beta m = Ok (c2, p2) ->
    exists c2',
      submitParameterUpdate self c' p agent now blk fee beta m
      = Ok (c2', p2).
Proof.
  unfold slashAgent. intros H.
  uncheck H as C0. cbv zeta in H. uncheck H as C1. uncheck H as C2.
  uncheck H as C3. injection H as <-.
  apply negb_true_iff, Z.ltb_ge in C2.
  rewrite getAgentInfo_insert.
  split; [exact C2|]. split; [reflexivity|]. split; [exact C1|].
  split; [reflexivity|]. split.
  - intros other Hne. apply getAgentInfo_insert_ne. congruence.
  - intros self p now blk fee beta m c2 p2 Hs.
    unfold submitParameterUpdate in *.
    rewrite getAgentInfo_insert.
    cbn [paused set_agents active lastUpdateTime set_bond cooldownSeconds
         maxFeeDelta maxBetaDelta] in *.
    uncheck Hs as D0. uncheck Hs as D1. cbv zeta in Hs.
    unbind Hs as cooling F0. uncheck Hs as D2. uncheck Hs as D3.
    uncheck Hs as D4. uncheck Hs as D5. uncheck Hs as D6.
    unbind Hs as n F1. unbind Hs as mode F2. unbind Hs as q F3.
    injection Hs as <- <-.
    rewrite D0, D1. cbn [require bind]. rewrite F0. cbn [bind].
    rewrite D2, D3, D4. cbn [require bind]. cbv zeta.
    rewrite D5, D6. cbn [require bind].
    unfold updatesOf in *. cbn [updateCount set_agents] in *.
    rewrite F1. cbn [bind]. rewrite F2. cbn [bind]. rewrite F3.
    cbn [bind]. eexists. reflexivity.
Qed.

Lemma slashing_is_no_expulsion_witness :
  exists c' c2 p2,
    slashAgent registry OWNER AGENT_A (ether / 100) true = Ok c' /\
    bondAmount (getAgentInfo c' AGENT_A) = 0 /\
    bondAmount (getAgentInfo c' AGENT_A) < minBond c' /\
    submitParameterUpdate CONTROLLER c' (funded EvoPool.Normal) AGENT_A
      2000 1 40 5500 0 = Ok (c2, p2).
Proof.
  eassert (E : slashAgent registry OWNER AGENT_A (ether / 100) true = Ok _)
    by (vm_compute; reflexivity).
  eassert (E1 : submitParameterUpdate CONTROLLER registry
                  (funded EvoPool.Normal) AGENT_A 2000 1 40 5500 0
                = Ok (_, _)) by (vm_compute; reflexivity).
  destruct (slashing_is_no_expulsion _ _ _ _ _ _ E)
    as (_ & Hb & _ & _ & _ & Hs).
  destruct (Hs _ _ _ _ _ _ _ _ _ E1) as (c2' & E2).
  eexists _, c2', _. split; [exact E|].
  split; [rewrite Hb; by_compute|]. split; [rewrite Hb; by_compute|].
  exact E2.
Defined.



(** X27. [agentList] is a log of registrations, not the set of active
    agents: deregistering leaves the list as it is, and registering again
    appends the agent a second time, so that [getAgentCount] has grown by
    two while one agent is active. *)
Theorem agent_list_logs_registrations (c : state) (agent : address)
    (v1 now1 : Z) (refunded : bool) (v2 now2 : Z) (c1 c2 c3 : state) :
  registerAgent c agent v1 now1 = Ok c1 ->
  deregisterAgent c1 agent refunded = Ok c2 ->
  registerAgent c2 agent v2 now2 = Ok c3 ->
  agentList c2 = agentList c ++ [agent] /\
  active (getAgentInfo c2 agent) = false /\
  agentList c3 = agentList c ++ [agent; agent] /\
  getAgentCount c3 = getAgentCount c + 2.
Proof.
  intros H1 H2 H3.
  apply registerAgent_Ok_inv in H1 as (_ & ->).
  apply deregisterAgent_Ok_inv in H2 as ->.
  apply registerAgent_Ok_inv in H3 as (_ & ->).
  unfold getAgentCount. cbn [agentList set_agents].
  rewrite getAgentInfo_insert. cbn [active set_bond].
  rewrite <- app_assoc. cbn [app].
  rewrite length_app. cbn [length].
  repeat (split; [reflexivity|]). lia.
Qed.

Lemma agent_list_logs_registrations_witness :
  exists c1 c2 c3,
    registerAgent registry 1004 (ether / 100) 2000 = Ok c1 /\
    deregisterAgent c1 1004 true = Ok c2 /\
    registerAgent c2 1004 (ether / 100) 3000 = Ok c3 /\
    agentList c3 = agentList registry ++ [1004; 1004] /\
    getAgentCount c3 = getAgentCount registry + 2.
Proof.
  eassert (E1 : registerAgent registry 1004 (ether / 100) 2000 = Ok _)
    by (vm_compute; reflexivity).
  match type of E1 with
  | _ = Ok ?c1 =>
      eassert (E2 : deregisterAgent c1 1004 true = Ok _)
        by (vm_compute; reflexivity)
  end.
  match type of E2 with
  | _ = Ok ?c2 =>
      eassert (E3 : registerAgent c2 1004 (ether / 100) 3000 = Ok _)
        by (vm_compute; reflexivity)
  end.
  destruct (agent_list_logs_registrations _ _ _ _ _ _ _ _ _ _ E1 E2 E3)
    as (_ & _ & H3 & H4).
  eexists _, _, _. split; [exact E1|]. split; [exact E2|].
  split; [exact E3|]. split; [exact H3 | exact H4].
Defined.

(** X29. While the controller is paused, registering, deregistering,
    topping up, depositing a token bond and submitting an update all fail
    with [Paused], so that an agent cannot take its native bond back; the
    owner can nevertheless slash that bond, up to the whole of it. *)
Theorem pause_locks_agents_but_not_the_owner (self : address) (c : state)
    (sender : address) :
  paused c = true ->
  (forall v t, registerAgent c sender v t = Revert Paused) /\
  (forall refunded, deregisterAgent c sender refunded = Revert Paused) /\
  (forall v, topUpBond c sender v = Revert Paused) /\
  (forall amount pulled,
     depositTokenBond c sender amount pulled = Revert Paused) /\
  (forall p t blk fee beta m,
     submitParameterUpdate self c p sender t blk fee beta m
     = Revert Paused) /\
  (forall agent amount,
     active (getAgentInfo c agent) = true ->
     amount <= bondAmount (getAgentInfo c agent) ->
     exists c',
       slashAgent c (owner c) agent amount true = Ok c' /\
       bondAmount (getAgentInfo c' agent)
       = bondAmount (getAgentInfo c agent) - amount /\
       paused c' = true).
Proof.
  intros Hp.
  unfold registerAgent, deregisterAgent, topUpBond, depositTokenBond,
    submitParameterUpdate, slashAgent.
  rewrite Hp. cbn [negb require bind].
  repeat (split; [reflexivity|]).
  intros agent amount Ha Hb.
  rewrite Z.eqb_refl, Ha. cbn [require bind]. cbv zeta.
  replace (bondAmount (getAgentInfo c agent) <? amount) with false
    by (symmetry; apply Z.ltb_ge; lia).
  cbn [negb require bind]. eexists. split; [reflexivity|].
  rewrite getAgentInfo_insert. cbn [bondAmount set_bond paused set_agents].
  auto.
Qed.

Lemma pause_locks_agents_but_not_the_owner_witness :
  deregisterAgent (set_paused registry true) AGENT_A true = Revert Paused /\
  exists c',
    slashAgent (set_paused registry true) OWNER AGENT_A (ether / 100) true
    = Ok c' /\
    bondAmount (getAgentInfo c' AGENT_A) = 0.
Proof.
  assert (Hp : paused (set_paused registry true) = true) by reflexivity.
  destruct (pause_locks_agents_but_not_the_owner CONTROLLER _ AGENT_A Hp)
    as (_ & Hd & _ & _ & _ & Hs).
  split; [apply Hd|].
  assert (Ha : active (getAgentInfo (set_paused registry true) AGENT_A)
               = true) by (vm_compute; reflexivity).
  assert (Hb : ether / 100
               <= bondAmount (getAgentInfo (set_paused registry true)
                                AGENT_A)) by (vm_compute; discriminate).
  destruct (Hs AGENT_A (ether / 100) Ha Hb) as (c' & E & Hbond & _).
  exists c'. split; [exact E|]. rewrite Hbond. vm_compute. reflexivity.
Defined.

End ControllerMore.

(** ** More on the epoch manager: the ledger of epochs and proposals *)

Section EpochMore.
Import EpochManager EpochSpec EpochRuns Scenario MoreScenario.

Lemma startNextEpoch_Ok_inv (e e' : state) (now : Z) :
  _startNextEpoch e now = Ok e' ->
  let id := currentEpochId e + 1 in
  e' = set_clock e id now
         (<[id := mkEpoch id now (now + epochDuration e) 0 0 0 false]>
            (epochs e)).
Proof.
  unfold _startNextEpoch. intros H. peel. arith_inv. subst.
  cbv zeta in H. now injection H as <-.
Qed.

(** The invariant reads six components of the state only. *)
Lemma consistent_ext (e e1 : state) :
  currentEpochId e1 = currentEpochId e -> epochs e1 = epochs e ->
  epochProposals e1 = epochProposals e -> hasProposed e1 = hasProposed e ->
  epochAgents e1 = epochAgents e ->
  consistent e -> consistent e1.
Proof.
  intros H1 H2 H3 H4 H5 [].
  split; unfold epochOf, proposalsOf, agentsOf, proposed in *;
    rewrite ?H1, ?H2, ?H3, ?H4, ?H5; assumption.
Qed.

Lemma epochOf_Some (e : state) (id : Z) :
  consistent e -> 1 <= id <= currentEpochId e ->
  epochs e !! id = Some (epochOf e id).
Proof.
  intros He Hid. apply (existing e He) in Hid as [ep Hep].
  unfold epochOf. now rewrite Hep.
Qed.

Lemma proposalsOf_unopened (e : state) (id : Z) :
  consistent e -> epochs e !! id = None -> proposalsOf e id = [].
Proof.
  intros He Hid. apply (unopened e He) in Hid.
  rewrite <- (listed e He) in Hid. now destruct (proposalsOf e id).
Qed.

(** Sealing the current epoch and opening the next keeps the ledger
    consistent. *)
Lemma seal_and_open (e e1 e' : state) (now : Z) (w : address) (s : Z) :
  consistent e ->
  currentEpochId e1 = currentEpochId e ->
  epochs e1 = <[currentEpochId e :=
                  set_outcome (epochOf e (currentEpochId e)) w s true]>
                (epochs e) ->
  epochProposals e1 = epochProposals e -> hasProposed e1 = hasProposed e ->
  epochAgents e1 = epochAgents e ->
  _startNextEpoch e1 now = Ok e' ->
  consistent e'.
Proof.
  intros He H1 H2 H3 H4 H5 H.
  assert (Hfit : currentEpochId e1 + 1 <= MAX_UINT256).
  { unfold _startNextEpoch in H. peel. arith_inv. assumption. }
  apply startNextEpoch_Ok_inv in H. cbv zeta in H. subst e'.
  pose proof (started e He) as Hs.
  pose proof (epochOf_Some e _ He (conj Hs (Z.le_refl _))) as Hcur.
  set (cur := currentEpochId e) in *.
  assert (Hnone : epochs e !! (cur + 1) = None).
  { destruct (epochs e !! (cur + 1)) eqn:E; [|reflexivity].
    assert (is_Some (epochs e !! (cur + 1))) as Hx by (rewrite E; eauto).
    apply (existing e He) in Hx. fold cur in Hx. lia. }
  split; unfold epochOf, proposalsOf, agentsOf, proposed;
    cbn [currentEpochId epochs epochProposals hasProposed epochAgents
         set_clock]; rewrite ?H1, ?H2, ?H3, ?H4, ?H5; fold cur.
  - lia.
  - intros id. destruct (decide (id = cur + 1)) as [->|N1].
    + rewrite lookup_insert_eq. split; [lia | eauto].
    + rewrite lookup_insert_ne by congruence.
      destruct (decide (id = cur)) as [->|N2].
      * rewrite lookup_insert_eq. split; [lia | eauto].
      * rewrite lookup_insert_ne by congruence.
        rewrite (existing e He). fold cur. lia.
  - intros id ep. destruct (decide (id = cur + 1)) as [->|N1].
    + rewrite lookup_insert_eq. now intros [= <-].
    + rewrite lookup_insert_ne by congruence.
      destruct (decide (id = cur)) as [->|N2].
      * rewrite lookup_insert_eq. intros [= <-]. cbn [epochId set_outcome].
        exact (named e He _ _ Hcur).
      * rewrite lookup_insert_ne by congruence. apply (named e He).
  - now rewrite lookup_insert_eq.
  - intros id Hid. rewrite lookup_insert_ne by lia.
    destruct (decide (id = cur)) as [->|N2].
    + now rewrite lookup_insert_eq.
    + rewrite lookup_insert_ne by congruence.
      apply (sealed e He). fold cur. lia.
  - intros id. destruct (decide (id = cur + 1)) as [->|N1].
    + rewrite lookup_insert_eq. cbn [default from_option id proposalCount].
      pose proof (proposalsOf_unopened e _ He Hnone) as Hp.
      unfold proposalsOf in Hp. now rewrite Hp.
    + rewrite lookup_insert_ne by congruence.
      destruct (decide (id = cur)) as [->|N2].
      * rewrite lookup_insert_eq. cbn [default from_option id proposalCount set_outcome].
        apply (counted e He).
      * rewrite lookup_insert_ne by congruence. apply (counted e He).
  - apply (listed e He).
  - apply (flagged e He).
  - apply (distinct e He).
  - apply (capped e He).
  - intros id. destruct (decide (id = cur + 1)) as [->|N1].
    + now rewrite lookup_insert_eq.
    + rewrite lookup_insert_ne by congruence.
      destruct (decide (id = cur)) as [->|N2].
      * now rewrite lookup_insert_eq.
      * rewrite lookup_insert_ne by congruence. apply (unopened e He).
Qed.

Lemma checkAndAdvanceEpoch_Ok_inv (e e0 : state) (now : Z) :
  _checkAndAdvanceEpoch e now = Ok e0 ->
  let ep := epochOf e (currentEpochId e) in
  (e0 = e /\
   (endTime ep <=? now) && negb (finalized ep) && (proposalCount ep =? 0)
   = false) \/
  (endTime ep <= now /\ finalized ep = false /\ proposalCount ep = 0 /\
   _startNextEpoch
     (set_epochs e
        (<[currentEpochId e := set_outcome ep (winner ep) (winnerScore ep)
                                 true]> (epochs e))) now = Ok e0).
Proof.
  unfold _checkAndAdvanceEpoch. cbv zeta.
  destruct (_ && _ && _) eqn:C.
  - intros H. right.
    apply andb_true_iff in C as [C C2]. apply andb_true_iff in C as [C0 C1].
    apply Z.leb_le in C0. apply negb_true_iff in C1. apply Z.eqb_eq in C2.
    auto.
  - intros [= <-]. now left.
Qed.

Lemma checkAndAdvanceEpoch_consistent (e e0 : state) (now : Z) :
  consistent e -> _checkAndAdvanceEpoch e now = Ok e0 -> consistent e0.
Proof.
  intros He H.
  apply checkAndAdvanceEpoch_Ok_inv in H as [[-> _]|(_ & _ & _ & H)];
    [assumption|].
  eapply (seal_and_open e); [exact He | .. | exact H]; reflexivity.
Qed.

(** What an accepted proposal writes. *)
Lemma submitProposal_Ok_inv (e : state) (c : AgentController.state)
    (sender : address) (now fee beta m : Z) (e' : state) :
  submitProposal e c sender now fee beta m = Ok e' ->
  exists e0,
    _checkAndAdvanceEpoch e now = Ok e0 /\
    let eid := currentEpochId e0 in
    now < endTime (epochOf e0 eid) /\
    proposed e0 eid sender = false /\
    AgentController.active (AgentController.getAgentInfo c sender) = true /\
    fee <= 500 /\ m <= 2 /\
    proposalCount (epochOf e0 eid) + 1 <= MAX_UINT256 /\
    currentEpochId e' = eid /\
    epochs e' = <[eid := set_proposalCount (epochOf e0 eid)
                           (proposalCount (epochOf e0 eid) + 1)]>
                  (epochs e0) /\
    epochProposals e'
    = <[eid := proposalsOf e0 eid ++ [mkProposal sender fee beta m now]]>
        (epochProposals e0) /\
    hasProposed e' = <[(eid, sender) := true]> (hasProposed e0) /\
    epochAgents e' = <[eid := agentsOf e0 eid ++ [sender]]> (epochAgents e0) /\
    rewardClaimed e' = rewardClaimed e0.
Proof.
  unfold submitProposal. intros H.
  unbind H as e0 E0. cbv zeta in H.
  uncheck H as C0. uncheck H as C1. uncheck H as C2. uncheck H as C3.
  uncheck H as C4. unbind H as n E1. unbind H as k E2.
  injection H as <-. arith_inv. subst.
  apply negb_true_iff in C0, C1, C3, C4.
  apply Z.leb_gt in C0. apply Z.ltb_ge in C3, C4.
  exists e0. split; [exact E0|]. cbv zeta.
  repeat (split; [first [assumption | reflexivity]|]). reflexivity.
Qed.

Lemma submitProposal_consistent (e : state) (c : AgentController.state)
    (sender : address) (now fee beta m : Z) (e' : state) :
  consistent e -> submitProposal e c sender now fee beta m = Ok e' ->
  consistent e'.
Proof.
  intros He H.
  apply submitProposal_Ok_inv in H
    as (e0 & E0 & _ & Hnew & _ & Hfee & Hmode & _ & H1 & H2 & H3 & H4 & H5
        & _).
  apply (checkAndAdvanceEpoch_consistent _ _ _ He) in E0. clear e He.
  rename e0 into e, E0 into He.
  pose proof (started e He) as Hs.
  pose proof (epochOf_Some e _ He (conj Hs (Z.le_refl _))) as Hcur.
  set (cur := currentEpochId e) in *.
  split; unfold epochOf, proposalsOf, agentsOf, proposed;
    rewrite ?H1, ?H2, ?H3, ?H4, ?H5.
  - exact Hs.
  - intros id. destruct (decide (id = cur)) as [->|N].
    + rewrite lookup_insert_eq. split; [lia | eauto].
    + rewrite lookup_insert_ne by congruence. apply (existing e He).
  - intros id ep. destruct (decide (id = cur)) as [->|N].
    + rewrite lookup_insert_eq. intros [= <-].
      exact (named e He _ _ Hcur).
    + rewrite lookup_insert_ne by congruence. apply (named e He).
  - rewrite lookup_insert_eq. exact (open_current e He).
  - intros id Hid. rewrite lookup_insert_ne by lia. now apply (sealed e He).
  - intros id. destruct (decide (id = cur)) as [->|N].
    + rewrite !lookup_insert_eq. cbn [default from_option id proposalCount set_proposalCount].
      rewrite (counted e He), length_app. simpl. lia.
    + rewrite !lookup_insert_ne by congruence. apply (counted e He).
  - intros id. destruct (decide (id = cur)) as [->|N].
    + rewrite !lookup_insert_eq. cbn [default from_option id].
      rewrite map_app, (listed e He). reflexivity.
    + rewrite !lookup_insert_ne by congruence. apply (listed e He).
  - intros id a. destruct (decide (id = cur)) as [->|N].
    + rewrite lookup_insert_eq. cbn [default from_option id].
      rewrite elem_of_app, list_elem_of_singleton.
      destruct (decide (a = sender)) as [->|Na].
      * rewrite lookup_insert_eq. cbn [default from_option id]. tauto.
      * rewrite lookup_insert_ne by congruence.
        pose proof (flagged e He cur a) as F.
        unfold proposed in F. rewrite F. tauto.
    + rewrite !lookup_insert_ne by congruence. apply (flagged e He).
  - intros id. destruct (decide (id = cur)) as [->|N].
    + rewrite lookup_insert_eq. cbn [default from_option id].
      apply NoDup_app. split; [apply (distinct e He)|].
      split; [|apply NoDup_singleton].
      intros a Ha ->%list_elem_of_singleton.
      apply (flagged e He) in Ha. congruence.
    + rewrite lookup_insert_ne by congruence. apply (distinct e He).
  - intros id q. destruct (decide (id = cur)) as [->|N].
    + rewrite lookup_insert_eq. cbn [default from_option id].
      rewrite elem_of_app, list_elem_of_singleton. intros [Hq| ->].
      * now apply (capped e He cur).
      * cbn [feeBps curveMode]. lia.
    + rewrite lookup_insert_ne by congruence. apply (capped e He).
  - intros id. destruct (decide (id = cur)) as [->|N].
    + rewrite lookup_insert_eq. discriminate.
    + rewrite !lookup_insert_ne by congruence. apply (unopened e He).
Qed.

(** The first loop of [finalizeEpoch] keeps the greatest score seen so far
    and the first agent that reached it. *)
Lemma recordScores_best (id : Z) (agents : list address) :
  forall (scores : list Z) (sc : gmap (Z * address) Z) (tot : gmap address Z)
         (b0 : address) (s0 : Z) sc' tot' (b : address) (s : Z),
  recordScores id agents scores sc tot b0 s0 = Ok (sc', tot', b, s) ->
  length agents = length scores ->
  (s = s0 /\ b = b0 /\ forall j x, scores !! j = Some x -> x <= s0) \/
  (s0 < s /\ earliest_best agents scores b s).
Proof.
  induction agents as [|a agents IH]; intros [|x scores] sc tot b0 s0
    sc' tot' b s H Hlen; try discriminate Hlen.
  - injection H as <- <- <- <-. left. split; [reflexivity|].
    split; [reflexivity|]. intros j y Hj. destruct j; discriminate.
  - cbn [recordScores] in H. unbind H as t E. cbv zeta in H.
    injection Hlen as Hlen.
    destruct (s0 <? x) eqn:C; apply IH in H as [(-> & -> & Hall)|(Hlt & Hbest)];
      try assumption.
    + apply Z.ltb_lt in C. right. split; [assumption|]. split.
      * intros [|j] y Hj; [injection Hj as <-; lia | exact (Hall _ _ Hj)].
      * exists 0%nat. split; [reflexivity|]. split; [reflexivity|]. lia.
    + apply Z.ltb_lt in C. right. split; [lia|].
      destruct Hbest as (Hall & i & Ha & Hs & Hbefore). split.
      * intros [|j] y Hj; [injection Hj as <-; lia | exact (Hall _ _ Hj)].
      * exists (S i). split; [exact Ha|]. split; [exact Hs|].
        intros [|j] y Hj Hy; [injection Hy as <-; lia|].
        apply (Hbefore j); [lia | exact Hy].
    + apply Z.ltb_ge in C. left. split; [reflexivity|].
      split; [reflexivity|].
      intros [|j] y Hj; [injection Hj as <-; lia | exact (Hall _ _ Hj)].
    + apply Z.ltb_ge in C. right. split; [assumption|].
      destruct Hbest as (Hall & i & Ha & Hs & Hbefore). split.
      * intros [|j] y Hj; [injection Hj as <-; lia | exact (Hall _ _ Hj)].
      * exists (S i). split; [exact Ha|]. split; [exact Hs|].
        intros [|j] y Hj Hy; [injection Hy as <-; lia|].
        apply (Hbefore j); [lia | exact Hy].
Qed.

(** What an accepted [finalizeEpoch] went through. *)
Lemma finalizeEpoch_Ok_inv (self : address) (e : state) (p : EvoPool.state)
    (sender : address) (now blk id : Z) (agents : list address)
    (scores : list Z) (e' : state) (p' : EvoPool.state) :
  finalizeEpoch self e p sender now blk id agents scores = Ok (e', p') ->
  let ep := epochOf e id in
  sender = scorer e /\ finalized ep = false /\ proposalCount ep <> 0 /\
  length agents = length scores /\
  Z.of_nat (length agents) = proposalCount ep /\
  exists sc tot best bestScore,
    recordScores id agents scores (agentScores e) (totalScore e) 0 0
    = Ok (sc, tot, best, bestScore) /\
    applyWinner self p blk (proposalsOf e id) best = Ok p' /\
    _startNextEpoch
      (set_epochs
         (set_scores e sc tot
            (<[best := counter (epochsWon e) best + 1]> (epochsWon e)))
         (<[id := set_outcome ep best bestScore true]> (epochs e))) now
    = Ok e'.
Proof.
  unfold finalizeEpoch. intros H. cbv zeta in H.
  uncheck H as C0. uncheck H as C1. uncheck H as C2. uncheck H as C3.
  uncheck H as C4. unbind H as r E0. destruct r as [[[sc tot] best] bs].
  unbind H as won E1. unbind H as p1 E2. unbind H as e1 E3.
  injection H as <- <-.
  apply Z.eqb_eq in C0, C3, C4. apply negb_true_iff in C1, C2.
  apply Z.eqb_neq in C2. apply Nat2Z.inj in C3.
  arith_inv. subst won.
  repeat (split; [assumption|]).
  exists sc, tot, best, bs.
  split; [exact E0|]. split; [exact E2 | exact E3].
Qed.

(** In a consistent ledger only the current epoch passes the guards of
    [finalizeEpoch]. *)
Lemma finalizable_is_current (e : state) (id : Z) :
  consistent e -> finalized (epochOf e id) = false ->
  proposalCount (epochOf e id) <> 0 -> id = currentEpochId e.
Proof.
  intros He Hf Hc.
  destruct (epochs e !! id) as [ep|] eqn:E.
  - assert (is_Some (epochs e !! id)) as Hx by (rewrite E; eauto).
    apply (existing e He) in Hx.
    destruct (decide (id = currentEpochId e)) as [|N]; [assumption|].
    rewrite (sealed e He id) in Hf by lia. discriminate.
  - unfold epochOf in Hc. rewrite E in Hc. now contradiction Hc.
Qed.

Lemma finalizeEpoch_consistent (self : address) (e : state)
    (p : EvoPool.state) (sender : address) (now blk id : Z)
    (agents : list address) (scores : list Z) (e' : state)
    (p' : EvoPool.state) :
  consistent e ->
  finalizeEpoch self e p sender now blk id agents scores = Ok (e', p') ->
  consistent e'.
Proof.
  intros He H. apply finalizeEpoch_Ok_inv in H. cbv zeta in H.
  destruct H as (_ & Hf & Hc & _ & _ & sc & tot & best & bs & _ & _ & H).
  pose proof (finalizable_is_current e id He Hf Hc) as ->.
  eapply (seal_and_open e); [exact He | .. | exact H]; reflexivity.
Qed.

Lemma claimReward_Ok_inv (e : state) (sender : address) (id : Z)
    (paid : bool) (e' : state) (v : Z) :
  claimReward e sender id paid = Ok (e', v) ->
  finalized (epochOf e id) = true /\ winner (epochOf e id) = sender /\
  claimed e id sender = false /\ epochRewardAmount e <> 0 /\ paid = true /\
  v = epochRewardAmount e /\
  e' = set_rewardClaimed e (<[(id, sender) := true]> (rewardClaimed e)).
Proof.
  unfold claimReward. intros H. cbv zeta in H.
  uncheck H as C0. uncheck H as C1. uncheck H as C2. uncheck H as C3.
  uncheck H as C4. injection H as <- <-.
  apply Z.eqb_eq in C1. apply negb_true_iff in C2, C3. apply Z.eqb_neq in C3.
  auto 10.
Qed.

Lemma exec_consistent (e e' : state) (c : call) :
  consistent e -> exec e c = Ok e' -> consistent e'.
Proof.
  intros He H. destruct c; cbn [exec] in H.
  - exact (submitProposal_consistent _ _ _ _ _ _ _ _ He H).
  - unbind H as r E. destruct r as [e1 p1]. injection H as <-.
    exact (finalizeEpoch_consistent _ _ _ _ _ _ _ _ _ _ _ He E).
  - unbind H as r E. destruct r as [e1 v]. injection H as <-.
    apply claimReward_Ok_inv in E as (_ & _ & _ & _ & _ & _ & ->).
    now apply (consistent_ext e).
  - unfold setScorer in H. peel. injection H as <-.
    now apply (consistent_ext e).
  - unfold setEpochDuration in H. peel. injection H as <-.
    now apply (consistent_ext e).
  - unfold setEpochReward in H. peel. injection H as <-.
    now apply (consistent_ext e).
Qed.

Lemma reachable_consistent (e : state) : reachable e -> consistent e.
Proof.
  induction 1 as [d s o now e H | e e' c _ IH H];
    [|exact (exec_consistent _ _ _ IH H)].
  unfold constructor in H. unbind H as fin E. injection H as <-.
  split; unfold epochOf, proposalsOf, agentsOf, proposed;
    cbn [currentEpochId epochs epochProposals hasProposed epochAgents].
  - lia.
  - intros id. destruct (decide (id = 1)) as [->|N].
    + rewrite lookup_insert_eq. split; [lia | eauto].
    + rewrite lookup_insert_ne, lookup_empty by congruence.
      split; [intros [? [=]] | lia].
  - intros id ep. destruct (decide (id = 1)) as [->|N].
    + rewrite lookup_insert_eq. now intros [= <-].
    + rewrite lookup_insert_ne, lookup_empty by congruence. discriminate.
  - now rewrite lookup_insert_eq.
  - lia.
  - intros id. rewrite lookup_empty. destruct (decide (id = 1)) as [->|N].
    + now rewrite lookup_insert_eq.
    + now rewrite lookup_insert_ne, lookup_empty by congruence.
  - intros id. now rewrite !lookup_empty.
  - intros k a. rewrite !lookup_empty. cbn [default from_option id].
    split; [discriminate | intros []%elem_of_nil].
  - intros id. rewrite lookup_empty. apply NoDup_nil_2.
  - intros id q. rewrite lookup_empty. intros []%elem_of_nil.
  - intros id _. now rewrite lookup_empty.
Qed.

Lemma arena_one_is_reachable : reachable arena_one.
Proof.
  apply (called arena _ (SubmitProposal registry AGENT_A 1001 50 6000 1)).
  - exact (deployed _ _ _ _ _ arena_reachable).
  - exact arena_one_reachable.
Qed.

(** X17. In every state the manager can reach, the epochs on record are
    exactly those numbered 1 to [currentEpochId], each stored under its own
    number; the current epoch is open and every earlier one is finalized. *)
Theorem epochs_are_numbered_and_sealed (e : state) :
  reachable e ->
  1 <= currentEpochId e /\
  (forall id, is_Some (epochs e !! id) <-> 1 <= id <= currentEpochId e) /\
  (forall id ep, epochs e !! id = Some ep -> epochId ep = id) /\
  finalized (getCurrentEpoch e) = false /\
  (forall id, 1 <= id < currentEpochId e -> finalized (epochOf e id) = true).
Proof.
  intros H. apply reachable_consistent in H. destruct H.
  unfold getCurrentEpoch. auto.
Qed.

Lemma epochs_are_numbered_and_sealed_witness :
  1 <= currentEpochId arena_one /\
  (forall id,
     is_Some (epochs arena_one !! id) <-> 1 <= id <= currentEpochId arena_one)
  /\
  (forall id ep, epochs arena_one !! id = Some ep -> epochId ep = id) /\
  finalized (getCurrentEpoch arena_one) = false /\
  (forall id, 1 <= id < currentEpochId arena_one ->
              finalized (epochOf arena_one id) = true).
Proof.
  exact (epochs_are_numbered_and_sealed arena_one arena_one_is_reachable).
Defined.

(** X18. In every reachable state and for every epoch, no agent appears
    twice among the proposals; the list of agents is the list of the
    proposals' authors, in order; [proposalCount] is the number of
    proposals; [hasProposed] holds exactly for the listed agents; and every
    stored proposal has a fee of at most 500 and a curve mode of at most
    2. *)
Theorem one_proposal_per_agent_per_epoch (e : state) (id : Z) :
  reachable e ->
  NoDup (map agent (getEpochProposals e id)) /\
  getEpochAgents e id = map agent (getEpochProposals e id) /\
  proposalCount (epochOf e id) = Z.of_nat (length (getEpochProposals e id)) /\
  (forall a, proposed e id a = true <-> a ∈ getEpochAgents e id) /\
  (forall q, q ∈ getEpochProposals e id ->
             feeBps q <= 500 /\ curveMode q <= 2).
Proof.
  intros H. apply reachable_consistent in H.
  unfold getEpochProposals, getEpochAgents.
  rewrite (listed e H). split; [apply (distinct e H)|].
  split; [reflexivity|]. split; [apply (counted e H)|].
  split; [apply (flagged e H) | apply (capped e H)].
Qed.

Lemma one_proposal_per_agent_per_epoch_witness :
  NoDup (map agent (getEpochProposals arena_one 1)) /\
  getEpochAgents arena_one 1 = map agent (getEpochProposals arena_one 1) /\
  proposalCount (epochOf arena_one 1)
  = Z.of_nat (length (getEpochProposals arena_one 1)) /\
  (forall a, proposed arena_one 1 a = true <-> a ∈ getEpochAgents arena_one 1)
  /\
  (forall q, q ∈ getEpochProposals arena_one 1 ->
             feeBps q <= 500 /\ curveMode q <= 2).
Proof.
  exact (one_proposal_per_agent_per_epoch arena_one 1 arena_one_is_reachable).
Defined.

(** X19. From a reachable state, [finalizeEpoch] succeeds for the current
    epoch only. It then leaves that epoch finalized and opens the next one,
    empty, starting at the time of the call and lasting [epochDuration];
    the caller passed exactly as many agents and scores as the epoch has
    proposals. *)
Theorem only_the_current_epoch_finalizes (self : address) (e : state)
    (p : EvoPool.state) (sender : address) (now blk id : Z)
    (agents : list address) (scores : list Z) (e' : state)
    (p' : EvoPool.state) :
  reachable e ->
  finalizeEpoch self e p sender now blk id agents scores = Ok (e', p') ->
  id = currentEpochId e /\
  currentEpochId e' = id + 1 /\
  finalized (epochOf e' id) = true /\
  getCurrentEpoch e'
  = mkEpoch (id + 1) now (now + epochDuration e) 0 0 0 false /\
  length agents = length (getEpochProposals e id) /\
  length scores = length (getEpochProposals e id).
Proof.
  intros He H. apply reachable_consistent in He.
  apply finalizeEpoch_Ok_inv in H. cbv zeta in H.
  destruct H as (_ & Hf & Hc & Hlen & Hn & sc & tot & best & bs & _ & _
                 & H).
  pose proof (finalizable_is_current e id He Hf Hc) as ->.
  apply startNextEpoch_Ok_inv in H. cbv zeta in H. subst e'.
  unfold getCurrentEpoch, epochOf, getEpochProposals.
  cbn [currentEpochId epochs epochDuration set_clock set_epochs set_scores].
  split; [reflexivity|]. split; [reflexivity|].
  rewrite lookup_insert_ne by lia. rewrite !lookup_insert_eq.
  split; [reflexivity|]. split; [reflexivity|].
  rewrite (counted e He) in Hn. apply Nat2Z.inj in Hn.
  split; congruence.
Qed.

Lemma only_the_current_epoch_finalizes_witness :
  exists e' p',
    finalizeEpoch EPOCH_MANAGER arena_one (funded EvoPool.Normal) SCORER 1700
      5 1 [AGENT_A] [7000] = Ok (e', p') /\
    1 = currentEpochId arena_one /\
    currentEpochId e' = 1 + 1 /\
    finalized (epochOf e' 1) = true /\
    getCurrentEpoch e'
    = mkEpoch (1 + 1) 1700 (1700 + epochDuration arena_one) 0 0 0 false /\
    length [AGENT_A] = length (getEpochProposals arena_one 1) /\
    length [7000] = length (getEpochProposals arena_one 1).
Proof.
  eassert (E : finalizeEpoch EPOCH_MANAGER arena_one (funded EvoPool.Normal)
                 SCORER 1700 5 1 [AGENT_A] [7000] = Ok (_, _))
    by (vm_compute; reflexivity).
  eexists _, _. split; [exact E|].
  exact (only_the_current_epoch_finalizes _ _ _ _ _ _ _ _ _ _ _
           arena_one_is_reachable E).
Defined.

(** X20. The winner [finalizeEpoch] records from a reachable state is the
    earliest agent in the caller's list that holds the greatest score,
    provided some score is positive; when no score is positive, the epoch
    is finalized with the zero address as winner and a score of 0. *)
Theorem winner_is_earliest_best (self : address) (e : state)
    (p : EvoPool.state) (sender : address) (now blk id : Z)
    (agents : list address) (scores : list Z) (e' : state)
    (p' : EvoPool.state) :
  reachable e ->
  finalizeEpoch self e p sender now blk id agents scores = Ok (e', p') ->
  let ep' := epochOf e' id in
  (winnerScore ep' = 0 /\ winner ep' = 0 /\
   forall j x, scores !! j = Some x -> x <= 0) \/
  (0 < winnerScore ep' /\
   earliest_best agents scores (winner ep') (winnerScore ep')).
Proof.
  intros He H. apply reachable_consistent in He.
  apply finalizeEpoch_Ok_inv in H. cbv zeta in H.
  destruct H as (_ & Hf & Hc & Hlen & _ & sc & tot & best & bs & Hr & _
                 & H).
  pose proof (finalizable_is_current e id He Hf Hc) as ->.
  apply startNextEpoch_Ok_inv in H. cbv zeta in H. subst e'.
  unfold epochOf.
  cbn [currentEpochId epochs set_clock set_epochs set_scores].
  rewrite lookup_insert_ne by lia. rewrite lookup_insert_eq.
  cbn [default from_option id winner winnerScore set_outcome].
  apply recordScores_best in Hr; [|exact Hlen].
  destruct Hr as [(-> & -> & Hall)|Hbest]; [left | right]; auto.
Qed.

Lemma winner_is_earliest_best_witness :
  exists e' p',
    finalizeEpoch EPOCH_MANAGER arena_one (funded EvoPool.Normal) SCORER 1700
      5 1 [AGENT_A] [7000] = Ok (e', p') /\
    ((winnerScore (epochOf e' 1) = 0 /\ winner (epochOf e' 1) = 0 /\
      forall j x, [7000] !! j = Some x -> x <= 0) \/
     (0 < winnerScore (epochOf e' 1) /\
      earliest_best [AGENT_A] [7000] (winner (epochOf e' 1))
        (winnerScore (epochOf e' 1)))).
Proof.
  eassert (E : finalizeEpoch EPOCH_MANAGER arena_one (funded EvoPool.Normal)
                 SCORER 1700 5 1 [AGENT_A] [7000] = Ok (_, _))
    by (vm_compute; reflexivity).
  eexists _, _. split; [exact E|].
  exact (winner_is_earliest_best _ _ _ _ _ _ _ _ _ _ _
           arena_one_is_reachable E).
Defined.

Lemma arena_is_reachable : reachable arena.
Proof. exact (deployed _ _ _ _ _ arena_reachable). Qed.

(** X21. Once the current epoch has ended, a proposal is refused with
    [EpochNotActive] as long as that epoch holds proposals awaiting the
    scorer. If it holds none, the same call seals it, opens the next epoch
    at the time of the call and records the proposal there as the first
    one. *)
Theorem ended_epoch_rolls_over_only_if_empty (e : state)
    (c : AgentController.state) (sender : address) (now fee beta m : Z) :
  reachable e -> endTime (getCurrentEpoch e) <= now ->
  (proposalCount (getCurrentEpoch e) <> 0 ->
   submitProposal e c sender now fee beta m = Revert EpochNotActive) /\
  (proposalCount (getCurrentEpoch e) = 0 ->
   forall e', submitProposal e c sender now fee beta m = Ok e' ->
     currentEpochId e' = currentEpochId e + 1 /\
     finalized (epochOf e' (currentEpochId e)) = true /\
     startTime (getCurrentEpoch e') = now /\
     endTime (getCurrentEpoch e') = now + epochDuration e /\
     getEpochProposals e' (currentEpochId e')
     = [mkProposal sender fee beta m now]).
Proof.
  intros He Hend. apply reachable_consistent in He.
  unfold getCurrentEpoch in *. split.
  - intros Hc. unfold submitProposal, _checkAndAdvanceEpoch. cbv zeta.
    apply Z.eqb_neq in Hc. rewrite Hc, andb_false_r. cbn [bind].
    apply Z.leb_le in Hend. now rewrite Hend.
  - intros Hc e' H.
    apply submitProposal_Ok_inv in H as (e0 & E0 & H). cbv zeta in H.
    destruct H as (_ & _ & _ & _ & _ & _ & H1 & H2 & H3 & _).
    apply checkAndAdvanceEpoch_Ok_inv in E0. cbv zeta in E0.
    destruct E0 as [[_ C]|(_ & _ & _ & E0)].
    { rewrite (open_current e He), Hc in C. apply Z.leb_le in Hend.
      rewrite Hend in C. discriminate. }
    pose proof (started e He) as Hs.
    assert (Hnone : epochs e !! (currentEpochId e + 1) = None).
    { destruct (epochs e !! (currentEpochId e + 1)) eqn:E; [|reflexivity].
      assert (is_Some (epochs e !! (currentEpochId e + 1))) as Hx
        by (rewrite E; eauto).
      apply (existing e He) in Hx. lia. }
    apply (proposalsOf_unopened e _ He) in Hnone.
    apply startNextEpoch_Ok_inv in E0. cbv zeta in E0. subst e0.
    unfold getEpochProposals, epochOf, proposalsOf in *.
    cbn [currentEpochId epochs epochProposals epochDuration set_clock
         set_epochs] in *.
    rewrite H1, H2, H3. rewrite Hnone.
    split; [reflexivity|].
    rewrite lookup_insert_ne by lia.
    rewrite lookup_insert_ne by lia.
    rewrite !lookup_insert_eq. auto.
Qed.

Lemma ended_epoch_rolls_over_only_if_empty_witness :
  submitProposal arena_one registry AGENT_B 1700 50 6000 1
  = Revert EpochNotActive /\
  exists e',
    submitProposal arena registry AGENT_B 1700 50 6000 1 = Ok e' /\
    currentEpochId e' = currentEpochId arena + 1 /\
    finalized (epochOf e' (currentEpochId arena)) = true /\
    startTime (getCurrentEpoch e') = 1700 /\
    endTime (getCurrentEpoch e') = 1700 + epochDuration arena /\
    getEpochProposals e' (currentEpochId e')
    = [mkProposal AGENT_B 50 6000 1 1700].
Proof.
  assert (H1 : endTime (getCurrentEpoch arena_one) <= 1700)
    by (vm_compute; discriminate).
  assert (H2 : proposalCount (getCurrentEpoch arena_one) <> 0)
    by (vm_compute; discriminate).
  assert (H3 : endTime (getCurrentEpoch arena) <= 1700)
    by (vm_compute; discriminate).
  assert (H4 : proposalCount (getCurrentEpoch arena) = 0)
    by (vm_compute; reflexivity).
  eassert (E : submitProposal arena registry AGENT_B 1700 50 6000 1 = Ok _)
    by (vm_compute; reflexivity).
  split.
  - exact (proj1 (ended_epoch_rolls_over_only_if_empty arena_one registry
                    AGENT_B 1700 50 6000 1 arena_one_is_reachable H1) H2).
  - eexists. split; [exact E|].
    exact (proj2 (ended_epoch_rolls_over_only_if_empty arena registry
                    AGENT_B 1700 50 6000 1 arena_is_reachable H3) H4 _ E).
Defined.

(** No call clears a reward flag. *)
Lemma exec_keeps_claimed (e e' : state) (c : call) (id : Z) (a : address) :
  exec e c = Ok e' -> claimed e id a = true -> claimed e' id a = true.
Proof.
  intros H. unfold claimed. destruct c; cbn [exec] in H.
  - apply submitProposal_Ok_inv in H as (e0 & E0 & H). cbv zeta in H.
    destruct H as (_ & _ & _ & _ & _ & _ & _ & _ & _ & _ & _ & ->).
    apply checkAndAdvanceEpoch_Ok_inv in E0. cbv zeta in E0.
    destruct E0 as [[-> _]|(_ & _ & _ & E0)]; [auto|].
    apply startNextEpoch_Ok_inv in E0. cbv zeta in E0. now subst e0.
  - unbind H as r E. destruct r as [e1 p1]. injection H as <-.
    apply finalizeEpoch_Ok_inv in E. cbv zeta in E.
    destruct E as (_ & _ & _ & _ & _ & sc & tot & best & bs & _ & _
                   & E).
    apply startNextEpoch_Ok_inv in E. cbv zeta in E. now subst e1.
  - unbind H as r E. destruct r as [e1 v]. injection H as <-.
    apply claimReward_Ok_inv in E as (_ & _ & _ & _ & _ & _ & ->).
    cbn [rewardClaimed set_rewardClaimed].
    destruct (decide ((id0, sender) = (id, a))) as [->|N].
    + now rewrite lookup_insert_eq.
    + now rewrite lookup_insert_ne.
  - unfold setScorer in H. peel. now injection H as <-.
  - unfold setEpochDuration in H. peel. now injection H as <-.
  - unfold setEpochReward in H. peel. now injection H as <-.
Qed.

(** X22. A successful [claimReward] pays the reward amount in force at the
    time of the claim, which is not zero, to the recorded winner of a
    finalized epoch; whatever is called afterwards, the same agent never
    claims for the same epoch again. *)
Theorem reward_is_claimed_at_most_once (e : state) (sender : address)
    (id : Z) (paid : bool) (e1 : state) (v : Z) :
  claimReward e sender id paid = Ok (e1, v) ->
  v = epochRewardAmount e /\ v <> 0 /\
  finalized (epochOf e id) = true /\ winner (epochOf e id) = sender /\
  forall e2, follows e1 e2 ->
    forall paid' r, claimReward e2 sender id paid' <> Ok r.
Proof.
  intros H.
  apply claimReward_Ok_inv in H as (Hf & Hw & _ & Hr & _ & -> & ->).
  repeat (split; [assumption || reflexivity|]).
  intros e2 Hfol.
  assert (Hc : claimed e2 id sender = true).
  { induction Hfol as [|e2 e3 c _ IH Hx].
    - unfold claimed. cbn [rewardClaimed set_rewardClaimed].
      now rewrite lookup_insert_eq.
    - exact (exec_keeps_claimed _ _ _ _ _ Hx IH). }
  intros paid' [e3 v'] H.
  apply claimReward_Ok_inv in H as (_ & _ & H & _). congruence.
Qed.

Lemma reward_is_claimed_at_most_once_witness :
  exists e0 e1 e2 e3 p' v,
    finalizeEpoch EPOCH_MANAGER arena_one (funded EvoPool.Normal) SCORER 1700
      5 1 [AGENT_A] [7000] = Ok (e0, p') /\
    setEpochReward e0 OWNER ether = Ok e1 /\
    claimReward e1 AGENT_A 1 true = Ok (e2, v) /\
    v = ether /\
    setEpochReward e2 OWNER (2 * ether) = Ok e3 /\
    forall paid' r, claimReward e3 AGENT_A 1 paid' <> Ok r.
Proof.
  eassert (E0 : finalizeEpoch EPOCH_MANAGER arena_one (funded EvoPool.Normal)
                  SCORER 1700 5 1 [AGENT_A] [7000] = Ok (_, _))
    by (vm_compute; reflexivity).
  match type of E0 with
  | _ = Ok (?e0, _) =>
      eassert (E1 : setEpochReward e0 OWNER ether = Ok _)
        by (vm_compute; reflexivity)
  end.
  match type of E1 with
  | _ = Ok ?e1 =>
      eassert (E2 : claimReward e1 AGENT_A 1 true = Ok (_, _))
        by (vm_compute; reflexivity)
  end.
  match type of E2 with
  | _ = Ok (?e2, _) =>
      eassert (E3 : setEpochReward e2 OWNER (2 * ether) = Ok _)
        by (vm_compute; reflexivity)
  end.
  destruct (reward_is_claimed_at_most_once _ _ _ _ _ _ E2)
    as (Hv & _ & _ & _ & Hno).
  eexists _, _, _, _, _, _.
  split; [exact E0|]. split; [exact E1|]. split; [exact E2|].
  split; [rewrite Hv; vm_compute; reflexivity|]. split; [exact E3|].
  apply Hno.
  eapply (later _ _ _ (SetEpochReward OWNER (2 * ether))); [apply here|].
  exact E3.
Defined.

(** The first loop of [finalizeEpoch] credits every listed agent, when
    none is listed twice, with its own score. *)
Lemma recordScores_totals (id : Z) (agents : list address) :
  forall (scores : list Z) (sc : gmap (Z * address) Z) (tot : gmap address Z)
         (b0 : address) (s0 : Z) sc' tot' (b : address) (s : Z),
  recordScores id agents scores sc tot b0 s0 = Ok (sc', tot', b, s) ->
  NoDup agents ->
  (forall i a x, agents !! i = Some a -> scores !! i = Some x ->
     counter tot' a = counter tot a + x /\ sc' !! (id, a) = Some x) /\
  (forall a, a ∉ agents ->
     counter tot' a = counter tot a /\ sc' !! (id, a) = sc !! (id, a)).
Proof.
  induction agents as [|a agents IH]; intros scores sc tot b0 s0
    sc' tot' b s H Hnd.
  - injection H as <- <- <- <-. split; [intros i a x [=] | auto].
  - destruct scores as [|y scores]; [discriminate H|].
    cbn [recordScores] in H. unbind H as t E. cbv zeta in H.
    arith_inv. subst t.
    apply NoDup_cons in Hnd as [Hnotin Hnd].
    assert (H' : exists b1 s1,
               recordScores id agents scores (<[(id, a) := y]> sc)
                 (<[a := counter tot a + y]> tot) b1 s1
               = Ok (sc', tot', b, s))
      by (destruct (s0 <? y); eauto).
    destruct H' as (b1 & s1 & H').
    destruct (IH _ _ _ _ _ _ _ _ _ H' Hnd) as [IH1 IH2]. split.
    + intros [|i] a' x Ha Hx.
      * injection Ha as <-. injection Hx as <-.
        destruct (IH2 a Hnotin) as [-> ->].
        unfold counter. now rewrite !lookup_insert_eq.
      * cbn in Ha, Hx. destruct (IH1 i a' x Ha Hx) as [-> ->].
        assert (a' <> a).
        { intros ->. apply Hnotin. eapply list_elem_of_lookup_2; eauto. }
        unfold counter. now rewrite lookup_insert_ne by congruence.
    + intros a' Ha'. apply not_elem_of_cons in Ha' as [Hne Ha'].
      destruct (IH2 a' Ha') as [-> ->].
      unfold counter. rewrite !lookup_insert_ne by congruence. auto.
Qed.

(** X28. When the scorer lists no agent twice, [finalizeEpoch] from a
    reachable state adds to the lifetime total of each listed agent exactly
    the score passed for it and records that score for the epoch; it adds
    one win to the recorded winner, the zero address when no score is
    positive, and none to anyone else; participation counts are left as
    they are. *)
Theorem finalizeEpoch_updates_the_leaderboard (self : address) (e : state)
    (p : EvoPool.state) (sender : address) (now blk id : Z)
    (agents : list address) (scores : list Z) (e' : state)
    (p' : EvoPool.state) :
  reachable e -> NoDup agents ->
  finalizeEpoch self e p sender now blk id agents scores = Ok (e', p') ->
  (forall i a x, agents !! i = Some a -> scores !! i = Some x ->
     agentScores e' !! (id, a) = Some x /\
     (getAgentStats e' a).1.1 = (getAgentStats e a).1.1 + x) /\
  (forall a,
     (getAgentStats e' a).1.2
     = (getAgentStats e a).1.2
       + (if decide (a = winner (epochOf e' id)) then 1 else 0)) /\
  (forall a, (getAgentStats e' a).2 = (getAgentStats e a).2).
Proof.
  intros He Hnd H. apply reachable_consistent in He.
  apply finalizeEpoch_Ok_inv in H. cbv zeta in H.
  destruct H as (_ & Hf & Hc & _ & _ & sc & tot & best & bs & Hr & _
                 & H).
  pose proof (finalizable_is_current e id He Hf Hc) as ->.
  apply startNextEpoch_Ok_inv in H. cbv zeta in H. subst e'.
  unfold getAgentStats, epochOf.
  cbn [fst snd currentEpochId epochs agentScores totalScore epochsWon
       epochsParticipated set_clock set_epochs set_scores].
  rewrite lookup_insert_ne by lia. rewrite lookup_insert_eq.
  cbn [default from_option id winner set_outcome].
  destruct (recordScores_totals _ _ _ _ _ _ _ _ _ _ _ Hr Hnd) as [H1 _].
  split; [|split; [|reflexivity]].
  - intros i a x Ha Hx. destruct (H1 i a x Ha Hx) as [-> ->]. auto.
  - intros a. unfold counter. destruct (decide (a = best)) as [->|N].
    + now rewrite lookup_insert_eq.
    + rewrite lookup_insert_ne by congruence. lia.
Qed.

Lemma finalizeEpoch_updates_the_leaderboard_witness :
  exists e' p',
    finalizeEpoch EPOCH_MANAGER arena_one (funded EvoPool.Normal) SCORER 1700
      5 1 [AGENT_A] [7000] = Ok (e', p') /\
    agentScores e' !! (1, AGENT_A) = Some 7000 /\
    (getAgentStats e' AGENT_A).1.1 = (getAgentStats arena_one AGENT_A).1.1
                                     + 7000.
Proof.
  eassert (E : finalizeEpoch EPOCH_MANAGER arena_one (funded EvoPool.Normal)
                 SCORER 1700 5 1 [AGENT_A] [7000] = Ok (_, _))
    by (vm_compute; reflexivity).
  assert (Hnd : NoDup [AGENT_A]) by (apply NoDup_singleton).
  eexists _, _. split; [exact E|].
  exact (proj1 (finalizeEpoch_updates_the_leaderboard _ _ _ _ _ _ _ _ _ _ _
                  arena_one_is_reachable Hnd E) 0%nat AGENT_A 7000
           eq_refl eq_refl).
Defined.

End EpochMore.

(** ** The timelock *)

Section TimeLockFacts.
Import TimeLock TimeLockRuns Scenario MoreScenario.

Variable txHash : transaction -> Z.

Lemma queued_set_queued (t : state) (h k : Z) (b : bool) :
  queued (set_queued t h b) k = if decide (k = h) then b else queued t k.
Proof.
  unfold queued, set_queued. cbn [queuedTransactions].
  destruct (decide (k = h)) as [->|N].
  - now rewrite lookup_insert_eq.
  - now rewrite lookup_insert_ne by congruence.
Qed.

Lemma delay_range_Done (d : Z) :
  (d <? MIN_DELAY) || (MAX_DELAY <? d) = false ->
  MIN_DELAY <= d <= MAX_DELAY.
Proof.
  intros H. apply orb_false_iff in H as [H1 H2].
  apply Z.ltb_ge in H1, H2. lia.
Qed.

Lemma queueTransaction_Done (t t' : state) (sender : address) (now h : Z)
    (x : transaction) :
  queueTransaction txHash t sender now x = Done (t', h) ->
  sender = owner t /\ now + delay t <= eta x /\ h = txHash x /\
  queued t h = false /\ t' = set_queued t h true.
Proof.
  unfold queueTransaction.
  destruct (sender =? owner t) eqn:C0; cbn [negb]; [|discriminate].
  destruct (MAX_UINT256 <? now + delay t); [discriminate|].
  destruct (eta x <? now + delay t) eqn:C1; [discriminate|].
  cbv zeta. destruct (queued t (txHash x)) eqn:C2; [discriminate|].
  intros [= <- <-]. apply Z.eqb_eq in C0. apply Z.ltb_ge in C1. auto.
Qed.

Lemma cancelTransaction_Done (t t' : state) (sender : address)
    (x : transaction) :
  cancelTransaction txHash t sender x = Done t' ->
  sender = owner t /\ queued t (txHash x) = true /\
  t' = set_queued t (txHash x) false.
Proof.
  unfold cancelTransaction.
  destruct (sender =? owner t) eqn:C0; cbn [negb]; [|discriminate].
  cbv zeta. destruct (queued t (txHash x)) eqn:C2; cbn [negb];
    [|discriminate].
  intros [= <-]. apply Z.eqb_eq in C0. auto.
Qed.

Lemma executeTransaction_Done (selector : String.string -> bytes)
    (call : address -> Z -> bytes -> option bytes) (t t' : state)
    (sender : address) (now : Z) (x : transaction) (r : bytes) :
  executeTransaction txHash selector call t sender now x = Done (t', r) ->
  sender = owner t /\ queued t (txHash x) = true /\
  eta x <= now <= eta x + GRACE_PERIOD /\
  call (target x) (value x) (callDataOf selector x) = Some r /\
  t' = set_queued t (txHash x) false.
Proof.
  unfold executeTransaction.
  destruct (sender =? owner t) eqn:C0; cbn [negb]; [|discriminate].
  cbv zeta. destruct (queued t (txHash x)) eqn:C2; cbn [negb];
    [|discriminate].
  destruct (now <? eta x) eqn:C3; [discriminate|].
  destruct (MAX_UINT256 <? eta x + GRACE_PERIOD); [discriminate|].
  destruct (eta x + GRACE_PERIOD <? now) eqn:C4; [discriminate|].
  destruct (call _ _ _) as [r0|]; [|discriminate].
  intros [= <- <-]. apply Z.eqb_eq in C0. apply Z.ltb_ge in C3, C4. auto.
Qed.

Lemma reachable_delay_bounds (t : state) :
  reachable txHash t -> MIN_DELAY <= delay t <= MAX_DELAY.
Proof.
  induction 1 as [d o t H | t t' s d _ IH H | t t' s now h x _ IH H
                  | t t' s x _ IH H | t t' s now x sel call r _ IH H].
  - unfold constructor in H.
    destruct (_ || _) eqn:C; [discriminate|]. injection H as <-.
    now apply delay_range_Done.
  - unfold setDelay in H. destruct (negb _); [discriminate|].
    destruct (_ || _) eqn:C; [discriminate|]. injection H as <-.
    now apply delay_range_Done.
  - apply queueTransaction_Done in H as (_ & _ & _ & _ & ->). exact IH.
  - apply cancelTransaction_Done in H as (_ & _ & ->). exact IH.
  - apply executeTransaction_Done in H as (_ & _ & _ & _ & ->). exact IH.
Qed.

(** X23. The delay of a timelock is between [MIN_DELAY] (24 hours) and
    [MAX_DELAY] (7 days) in every state it can reach. *)
Theorem delay_stays_in_range (t : state) :
  reachable txHash t -> MIN_DELAY <= delay t <= MAX_DELAY.
Proof. exact (reachable_delay_bounds t). Qed.

(** X24. A transaction queued at time [t0] in a reachable timelock is
    executed, if at all, no earlier than its [eta], which lies at least
    the delay then in force after [t0], and no later than [GRACE_PERIOD]
    after its [eta]; so at least [MIN_DELAY] passes between queueing and
    execution. *)
Theorem execution_waits_for_the_delay (selector : String.string -> bytes)
    (call : address -> Z -> bytes -> option bytes) (t t1 t2 t3 : state)
    (s s' : address) (t0 now h : Z) (x : transaction) (r : bytes) :
  reachable txHash t ->
  queueTransaction txHash t s t0 x = Done (t1, h) ->
  executeTransaction txHash selector call t2 s' now x = Done (t3, r) ->
  t0 + delay t <= eta x /\ (eta x <= now <= eta x + GRACE_PERIOD) /\
  t0 + MIN_DELAY <= now.
Proof.
  intros Ht Hq He. apply reachable_delay_bounds in Ht.
  apply queueTransaction_Done in Hq as (_ & Hq & _).
  apply executeTransaction_Done in He as (_ & _ & He & _).
  lia.
Qed.

(** In a run that starts after [x] was executed at time [now0], [x] stays
    unqueued. *)
Lemma since_stays_spent (now0 : Z) (t0 t : state) (x : transaction) :
  (forall y, txHash y = txHash x -> eta y = eta x) ->
  eta x <= now0 ->
  MIN_DELAY <= delay t0 -> queued t0 (txHash x) = false ->
  since txHash now0 t0 t ->
  MIN_DELAY <= delay t /\ queued t (txHash x) = false.
Proof.
  intros Hh Heta Hd Hq H.
  induction H as [| t t' s d _ IH H | t t' s now h y _ IH Hn H
                  | t t' s y _ IH H | t t' s now y sel call r _ IH Hn H].
  - auto.
  - unfold setDelay in H. destruct (negb _); [discriminate|].
    destruct (_ || _) eqn:C; [discriminate|]. injection H as <-.
    apply delay_range_Done in C. unfold queued in *. cbn [delay
      queuedTransactions]. split; [lia | apply IH].
  - apply queueTransaction_Done in H as (_ & Hy & -> & _ & ->).
    rewrite queued_set_queued. cbn [delay set_queued].
    split; [apply IH|].
    destruct (decide (txHash x = txHash y)) as [E|N]; [|apply IH].
    symmetry in E. apply Hh in E. destruct IH as [IH _].
    unfold MIN_DELAY in IH. lia.
  - apply cancelTransaction_Done in H as (_ & _ & ->).
    rewrite queued_set_queued. cbn [delay set_queued].
    split; [apply IH|]. destruct (decide _); [reflexivity | apply IH].
  - apply executeTransaction_Done in H as (_ & _ & _ & _ & ->).
    rewrite queued_set_queued. cbn [delay set_queued].
    split; [apply IH|]. destruct (decide _); [reflexivity | apply IH].
Qed.

(** X25. Once a transaction of a reachable timelock has been executed, it
    is never executed again, whatever is called from then on, as long as
    no other transaction with a different [eta] has the same hash: it is
    no longer queued, and queueing it anew would need an [eta] that lies
    in the future. *)
Theorem executed_transaction_never_runs_again
    (selector : String.string -> bytes)
    (call : address -> Z -> bytes -> option bytes) (t t1 : state)
    (s : address) (now : Z) (x : transaction) (r : bytes) :
  (forall y, txHash y = txHash x -> eta y = eta x) ->
  reachable txHash t ->
  executeTransaction txHash selector call t s now x = Done (t1, r) ->
  forall t2, since txHash now t1 t2 ->
    forall selector' call' s' now' res,
      executeTransaction txHash selector' call' t2 s' now' x <> Done res.
Proof.
  intros Hh Ht He t2 Hs sel' call' s' now' [t3 r'] H.
  apply reachable_delay_bounds in Ht.
  apply executeTransaction_Done in He as (_ & _ & Hw & _ & ->).
  apply executeTransaction_Done in H as (_ & H & _).
  apply (since_stays_spent now _ _ x Hh) in Hs as [_ Hs];
    [congruence | lia | exact (proj1 Ht) |].
  rewrite queued_set_queued. now destruct (decide _).
Qed.

(** X26. Cancelling takes the transaction out of the queue and touches no
    other: executing it right away fails with [TransactionNotQueued] for
    the owner, and every other hash is queued exactly when it was. *)
Theorem cancelled_transaction_cannot_run (selector : String.string -> bytes)
    (call : address -> Z -> bytes -> option bytes) (t t' : state)
    (s : address) (x : transaction) :
  cancelTransaction txHash t s x = Done t' ->
  delay t' = delay t /\ owner t' = owner t /\
  (forall h, h <> txHash x -> queued t' h = queued t h) /\
  (forall now, executeTransaction txHash selector call t' s now x
               = Failed TransactionNotQueued) /\
  cancelTransaction txHash t' s x = Failed TransactionNotQueued.
Proof.
  intros H. apply cancelTransaction_Done in H as (-> & _ & ->).
  split; [reflexivity|]. split; [reflexivity|]. split.
  - intros h N. rewrite queued_set_queued. now destruct (decide _).
  - unfold executeTransaction, cancelTransaction.
    cbn [owner set_queued]. rewrite Z.eqb_refl. cbn [negb]. cbv zeta.
    rewrite queued_set_queued.
    destruct (decide _); [|congruence]. auto.
Qed.

End TimeLockFacts.

Section TimeLockExamples.
Import TimeLock TimeLockRuns Scenario MoreScenario.

Lemma guard_reachable : reachable hash_of_eta guard.
Proof. apply (deployed _ (2 * 86400) OWNER). vm_compute. reflexivity. Qed.

Lemma delay_stays_in_range_witness : MIN_DELAY <= delay guard <= MAX_DELAY.
Proof. exact (delay_stays_in_range hash_of_eta guard guard_reachable). Defined.

Lemma execution_waits_for_the_delay_witness :
  exists t1 h t2 r,
    queueTransaction hash_of_eta guard OWNER 1000 raise_bond = Done (t1, h) /\
    executeTransaction hash_of_eta no_selector answers t1 OWNER 175000
      raise_bond = Done (t2, r) /\
    1000 + delay guard <= eta raise_bond /\
    (eta raise_bond <= 175000 <= eta raise_bond + GRACE_PERIOD) /\
    1000 + MIN_DELAY <= 175000.
Proof.
  eassert (E1 : queueTransaction hash_of_eta guard OWNER 1000 raise_bond
                = Done (_, _)) by (vm_compute; reflexivity).
  match type of E1 with
  | _ = Done (?t1, _) =>
      eassert (E2 : executeTransaction hash_of_eta no_selector answers t1
                      OWNER 175000 raise_bond = Done (_, _))
        by (vm_compute; reflexivity)
  end.
  eexists _, _, _, _. split; [exact E1|]. split; [exact E2|].
  exact (execution_waits_for_the_delay hash_of_eta _ _ _ _ _ _ _ _ _ _ _ _ _
           guard_reachable E1 E2).
Defined.

Lemma executed_transaction_never_runs_again_witness :
  exists t1 h t2 r t3,
    queueTransaction hash_of_eta guard OWNER 1000 raise_bond = Done (t1, h) /\
    executeTransaction hash_of_eta no_selector answers t1 OWNER 175000
      raise_bond = Done (t2, r) /\
    setDelay t2 OWNER 86400 = Done t3 /\
    forall s' now' res,
      executeTransaction hash_of_eta no_selector answers t3 s' now' raise_bond
      <> Done res.
Proof.
  eassert (E1 : queueTransaction hash_of_eta guard OWNER 1000 raise_bond
                = Done (_, _)) by (vm_compute; reflexivity).
  match type of E1 with
  | _ = Done (?t1, _) =>
      eassert (E2 : executeTransaction hash_of_eta no_selector answers t1
                      OWNER 175000 raise_bond = Done (_, _))
        by (vm_compute; reflexivity)
  end.
  match type of E2 with
  | _ = Done (?t2, _) =>
      eassert (E3 : setDelay t2 OWNER 86400 = Done _)
        by (vm_compute; reflexivity)
  end.
  assert (Hh : forall y, hash_of_eta y = hash_of_eta raise_bond ->
                         eta y = eta raise_bond) by (intros y H; exact H).
  eexists _, _, _, _, _. split; [exact E1|]. split; [exact E2|].
  split; [exact E3|].
  intros s' now' res.
  refine (executed_transaction_never_runs_again hash_of_eta _ _ _ _ _ _ _ _
            Hh _ E2 _ _ _ _ _ _ res).
  - exact (queued_tx _ _ _ _ _ _ _ guard_reachable E1).
  - exact (then_delay_set _ _ _ _ _ _ _ (at_once _ _ _) E3).
Defined.

Lemma cancelled_transaction_cannot_run_witness :
  exists t1 h t2,
    queueTransaction hash_of_eta guard OWNER 1000 raise_bond = Done (t1, h) /\
    cancelTransaction hash_of_eta t1 OWNER raise_bond = Done t2 /\
    forall now, executeTransaction hash_of_eta no_selector answers t2 OWNER
                  now raise_bond = Failed TransactionNotQueued.
Proof.
  eassert (E1 : queueTransaction hash_of_eta guard OWNER 1000 raise_bond
                = Done (_, _)) by (vm_compute; reflexivity).
  match type of E1 with
  | _ = Done (?t1, _) =>
      eassert (E2 : cancelTransaction hash_of_eta t1 OWNER raise_bond
                    = Done _) by (vm_compute; reflexivity)
  end.
  eexists _, _, _. split; [exact E1|]. split; [exact E2|].
  exact (proj1 (proj2 (proj2 (proj2
           (cancelled_transaction_cannot_run hash_of_eta no_selector answers
              _ _ _ _ E2))))).
Defined.

End TimeLockExamples.
